(** * extractor.py: a PDF-to-page-images command line script

    A shallow embedding of [src/extractor/extractor.py] and the properties
    of its runs.  The script is sequential glue code around three external
    collaborators (the operating system, the [pdf2image] rasterizer and the
    Pillow encoder behind [page.save]); they are modelled as an
    [environment] of answers, a [filesystem] that the script changes, and a
    chronological [trace] of every call and output line the script makes. *)

From Stdlib Require Import ZArith String Ascii List Lia.
From Stdlib Require Import Strings.Byte.
From Stdlib Require Import DecimalString DecimalZ DecimalPos DecimalFacts.
From stdpp Require Import gmap strings.
Import ListNotations.

Local Open Scope string_scope.
Local Open Scope Z_scope.

(** ** Python strings and integers *)

Module PyStr.

(** [str(n)] of a Python [int]: decimal digits, a leading [-] when
    negative, no padding. *)
Definition str_int (n : Z) : string := NilZero.string_of_int (Z.to_int n).

(** [str.lower] and [str.upper].  Strings are byte strings here; the case
    mappings act on the ASCII letters and leave every other byte as it
    is.  No character outside ASCII lowercases to one of [j], [p], [e],
    [g], so the comparison of [fmt.lower()] with ['jpeg'] is the same on
    the bytes of a UTF-8 string as on its code points. *)
Definition lower_char (c : ascii) : ascii :=
  let n := N_of_ascii c in
  if ((65 <=? n) && (n <=? 90))%N then ascii_of_N (n + 32) else c.

Definition upper_char (c : ascii) : ascii :=
  let n := N_of_ascii c in
  if ((97 <=? n) && (n <=? 122))%N then ascii_of_N (n - 32) else c.

Fixpoint lower (s : string) : string :=
  match s with
  | EmptyString => EmptyString
  | String c s' => String (lower_char c) (lower s')
  end.

Fixpoint upper (s : string) : string :=
  match s with
  | EmptyString => EmptyString
  | String c s' => String (upper_char c) (upper s')
  end.

Fixpoint endswith_sep (s : string) : bool :=
  match s with
  | EmptyString => false
  | String c EmptyString => Ascii.eqb c "/"
  | String _ s' => endswith_sep s'
  end.

(** [os.path.join(a, b)] of [posixpath], two components. *)
Definition os_path_join (a b : string) : string :=
  if String.prefix "/" b then b
  else if String.eqb a "" || endswith_sep a then a ++ b
  else a ++ "/" ++ b.

(** [t] is [s] with some of its letters in upper case. *)
Fixpoint casing_of (s t : string) : bool :=
  match s, t with
  | EmptyString, EmptyString => true
  | String c s', String d t' =>
      (Ascii.eqb d c || Ascii.eqb d (upper_char c)) && casing_of s' t'
  | _, _ => false
  end.

End PyStr.
Import PyStr.

(** ** Exceptions, events and the outside world *)

(** A Python exception: its class name and [str(e)]. *)
Record exn := Exn { exn_class : string; exn_text : string }.

(** The [logging] levels the script names, with their numeric values.  A
    threshold is any integer: a record is handled when its level is at
    least the threshold. *)
Inductive level := INFO | WARNING | ERROR.

Definition level_no (l : level) : Z :=
  match l with INFO => 20 | WARNING => 30 | ERROR => 40 end.

Inductive access_mode := R_OK | W_OK.

(** The parsed command line, as [parse_arguments] returns it. *)
Record Namespace := {
  pdf_file : string;
  output_dir : string;
  dpi : Z;
  fmt : string;
  poppler_path : option string
}.

(** The declaration of one argument of the parser: its name or flag,
    whether it is converted with [int], its default and its help text. *)
Inductive default_value :=
| Required
| Default_int (n : Z)
| Default_str (s : string)
| Default_None.

Record argument := {
  arg_name : string;
  arg_is_int : bool;
  arg_default : default_value;
  arg_help : string
}.

Record argument_parser := {
  parser_description : string;
  parser_arguments : list argument
}.

(** What [ArgumentParser.parse_args()] does with a command line: it
    returns the namespace, or prints the help and exits with status 0
    ([-h]), or prints the usage and the error and exits with status 2. *)
Inductive command_line :=
| Parsed (args : Namespace)
| Help_requested (text : string)
| Rejected_command_line (text : string).

(** What the encoder behind [page.save] does with a page and a format:
    it raises before the destination is opened (a format that Pillow does
    not know), or raises while it writes, leaving [partial] in the
    destination (and Pillow removes, or not, the file when the save had
    created it), or produces the bytes of the image. *)
Inductive encoding :=
| Refused (e : exn)
| Failed (e : exn) (partial : list byte) (removes_created : bool)
| Encoded (bytes : list byte).

(** One write of the loop: the bytes put in a file, or put in it only
    when the file was there already (a failed save that removes the file
    it had created). *)
Inductive file_op :=
| Put (bytes : list byte)
| Put_if_present (bytes : list byte).

Section Extractor.

(** A decoded page raster (a [PIL.Image]). *)
Variable Image : Type.

(** Everything the script does that is visible from outside, in the order
    in which it does it.  A call is recorded when it is made, whatever it
    answers. *)
Inductive event :=
| Import_pdf2image
| Isfile (path : string)
| Which (cmd : string)
| Access (path : string) (mode : access_mode)
| Isdir (path : string)
| Makedirs (path : string)
| Convert_from_path (pdf_file : string) (dpi : Z) (fmt : string)
                    (poppler_path : option string)
| Save (page : Image) (out_file : string) (format : string)
| Log (lv : level) (msg : string)
| Print (line : string)
| Traceback (e : exn)
| Help_message (text : string)
| Usage_message (text : string).

(** The store the script reads and changes: regular files with their
    bytes, and directories. *)
Record filesystem := Filesystem {
  files : gmap string (list byte);
  dirs : gset string
}.

(** The answers of the collaborators, the same during a whole run. *)
Record environment := Environment {
  (** [import pdf2image] succeeds *)
  pdf2image_installed : bool;
  (** [shutil.which] *)
  which_result : string -> option string;
  (** permission bits of an existing path, for [os.access] *)
  readable : string -> bool;
  writable : string -> bool;
  (** the [OSError] text when [os.makedirs] cannot create the path *)
  makedirs_error : string -> option string;
  (** the missing parent directories that [os.makedirs] creates on its
      way to the path, also when it fails after them *)
  makedirs_parents : string -> list string;
  (** [pdf2image.convert_from_path]: the pages, or the exception raised *)
  rasterize : string -> Z -> string -> option string -> exn + list Image;
  (** the encoder behind [page.save] *)
  encode_page : Image -> string -> encoding;
  (** the exception raised when the destination cannot be opened *)
  open_error : string -> option exn;
  (** [argparse]: what [parse_args] does with the command line *)
  parse_args : argument_parser -> list string -> command_line
}.

Variable E : environment.

(** ** The monad of the script: state, [sys.exit] and exceptions *)

Record state := State {
  fs : filesystem;
  root_level : Z;          (* threshold of the root logger *)
  trace : list event
}.

Inductive result (A : Type) :=
| Ok (a : A)
| SysExit (code : Z)
| Uncaught (e : exn).
Arguments Ok {A} a.
Arguments SysExit {A} code.
Arguments Uncaught {A} e.

Definition M (A : Type) : Type := state -> state * result A.

Definition ret {A} (a : A) : M A := fun s => (s, Ok a).

Definition bind {A B} (m : M A) (k : A -> M B) : M B :=
  fun s =>
    match m s with
    | (s', Ok a) => k a s'
    | (s', SysExit c) => (s', SysExit c)
    | (s', Uncaught e) => (s', Uncaught e)
    end.

Notation "'let*' x ':=' m 'in' k" := (bind m (fun x => k))
  (at level 10, x name, m at level 100, k at level 200).
Notation "m ;; k" := (bind m (fun _ => k))
  (at level 100, k at level 200, right associativity).

Definition emit (e : event) : M unit :=
  fun s => (State (fs s) (root_level s) (trace s ++ [e]), Ok tt).

Definition sys_exit {A} (code : Z) : M A := fun s => (s, SysExit code).

Definition raise {A} (e : exn) : M A := fun s => (s, Uncaught e).

(** *** The library calls *)

Definition logging_basicConfig (lv : level) : M unit :=
  fun s => (State (fs s) (level_no lv) (trace s), Ok tt).

Definition logging_log (lv : level) (msg : string) : M unit :=
  fun s =>
    if root_level s <=? level_no lv
    then emit (Log lv msg) s
    else (s, Ok tt).

Definition logging_info := logging_log INFO.
Definition logging_error := logging_log ERROR.

Definition print (line : string) : M unit := emit (Print line).

Definition import_pdf2image : M bool :=
  emit Import_pdf2image ;; ret (pdf2image_installed E).

Definition exists_path (f : filesystem) (p : string) : bool :=
  bool_decide (is_Some (files f !! p)) || bool_decide (p ∈ dirs f).

Definition os_path_isfile (p : string) : M bool :=
  emit (Isfile p) ;;
  fun s => (s, Ok (bool_decide (is_Some (files (fs s) !! p)))).

Definition os_path_isdir (p : string) : M bool :=
  emit (Isdir p) ;;
  fun s => (s, Ok (bool_decide (p ∈ dirs (fs s)))).

Definition os_access (p : string) (mode : access_mode) : M bool :=
  emit (Access p mode) ;;
  fun s => (s, Ok (exists_path (fs s) p &&
                   match mode with
                   | R_OK => readable E p
                   | W_OK => writable E p
                   end)).

Definition shutil_which (cmd : string) : M (option string) :=
  emit (Which cmd) ;; ret (which_result E cmd).

(** The parent directories that [os.makedirs p] makes: those the
    environment names, [p] itself apart. *)
Definition made_parents (p : string) : gset string :=
  list_to_set (List.filter (fun d => negb (String.eqb d p))
                           (makedirs_parents E p)).

(** [os.makedirs(p, exist_ok=True)], called on a path that is not a
    directory.  On a regular file it raises [FileExistsError] and changes
    nothing.  Otherwise it makes the missing parents, then the directory;
    when it fails, the parents made so far stay.  The answer is the text
    of the [OSError], [None] on success.  (The text quotes the path as
    [repr] does for a path without quote, backslash or unprintable
    character.) *)
Definition os_makedirs (p : string) : M (option string) :=
  emit (Makedirs p) ;;
  fun s =>
    if bool_decide (is_Some (files (fs s) !! p))
    then (s, Ok (Some ("[Errno 17] File exists: '" ++ p ++ "'")))
    else match makedirs_error E p with
         | Some msg =>
             (State (Filesystem (files (fs s))
                                (made_parents p ∪ dirs (fs s)))
                    (root_level s) (trace s), Ok (Some msg))
         | None =>
             (State (Filesystem (files (fs s))
                                ({[ p ]} ∪ (made_parents p ∪ dirs (fs s))))
                    (root_level s) (trace s), Ok None)
         end.

Definition convert_from_path (pdf_file : string) (dpi : Z) (fmt : string)
    (poppler_path : option string) : M (list Image) :=
  emit (Convert_from_path pdf_file dpi fmt poppler_path) ;;
  match rasterize E pdf_file dpi fmt poppler_path with
  | inl e => raise e
  | inr pages => ret pages
  end.

(** The effect of one write on the files. *)
Definition apply_op (f : gmap string (list byte)) (kv : string * file_op)
    : gmap string (list byte) :=
  match snd kv with
  | Put bytes => <[ fst kv := bytes ]> f
  | Put_if_present bytes =>
      if bool_decide (is_Some (f !! fst kv)) then <[ fst kv := bytes ]> f
      else f
  end.

Definition write_file (out_file : string) (op : file_op) : M unit :=
  fun s =>
    (State (Filesystem (apply_op (files (fs s)) (out_file, op))
                       (dirs (fs s)))
           (root_level s) (trace s), Ok tt).

(** [page.save(out_file, format)] of Pillow.  The save handler of the
    format is looked up first (an unknown format raises there).  Then the
    destination is opened for writing, which empties a file that exists,
    and the handler writes the image.  When the handler raises, the file
    keeps what was written so far, unless the save had created it and
    removes it again. *)
Definition page_save (page : Image) (out_file format : string) : M unit :=
  emit (Save page out_file format) ;;
  match encode_page E page format with
  | Refused e => raise e
  | Failed e partial removes_created =>
      match open_error E out_file with
      | Some e' => raise e'
      | None =>
          write_file out_file
            (if removes_created then Put_if_present partial
             else Put partial) ;;
          raise e
      end
  | Encoded bytes =>
      match open_error E out_file with
      | Some e' => raise e'
      | None => write_file out_file (Put bytes)
      end
  end.

(** ** The script *)

Definition setup_logging : M unit := logging_basicConfig INFO.

(** The parser that [parse_arguments] builds: two positional arguments
    and three optional flags. *)
Definition double_quote : string := String (ascii_of_nat 34) EmptyString.

Definition parser : argument_parser :=
  {| parser_description :=
       "Convert a PDF file into a series of images with dependency and permission checks.";
     parser_arguments :=
       [ {| arg_name := "pdf_file"; arg_is_int := false;
            arg_default := Required;
            arg_help := "Path to the input PDF file." |};
         {| arg_name := "output_dir"; arg_is_int := false;
            arg_default := Required;
            arg_help := "Path to output directory." |};
         {| arg_name := "--dpi"; arg_is_int := true;
            arg_default := Default_int 200;
            arg_help := "Dots per inch for the output images." |};
         {| arg_name := "--fmt"; arg_is_int := false;
            arg_default := Default_str "png";
            arg_help :=
              "Image format (e.g. " ++ double_quote ++ "png" ++ double_quote
              ++ ", " ++ double_quote ++ "jpeg" ++ double_quote ++ ")." |};
         {| arg_name := "--poppler_path"; arg_is_int := false;
            arg_default := Default_None;
            arg_help :=
              "Path to Poppler executables if not in system PATH." |} ] |}.

(** [parser.parse_args()] on the command line [argv]: [argparse] prints
    its help or its usage error itself and leaves the process. *)
Definition parse_arguments (argv : list string) : M Namespace :=
  match parse_args E parser argv with
  | Parsed args => ret args
  | Help_requested text => emit (Help_message text) ;; sys_exit 0
  | Rejected_command_line text => emit (Usage_message text) ;; sys_exit 2
  end.

Definition check_dependencies (poppler_path : option string) : M unit :=
  (* 1) Check for pdf2image *)
  (let* imported := import_pdf2image in
   if imported then ret tt
   else
     logging_error
       "The 'pdf2image' library is not installed. Install it via: pip install pdf2image" ;;
     sys_exit 1) ;;
  (* 2) Check for Poppler (pdftoppm) *)
  let pdftoppm_cmd := "pdftoppm" in
  match poppler_path with
  | Some poppler_path =>
      let pdftoppm_full := os_path_join poppler_path pdftoppm_cmd in
      let* found := os_path_isfile pdftoppm_full in
      if negb found then
        logging_error
          ("Poppler utility 'pdftoppm' was not found in: " ++ poppler_path) ;;
        sys_exit 1
      else ret tt
  | None =>
      let* located := shutil_which pdftoppm_cmd in
      match located with
      | None =>
          logging_error
            "Poppler utility 'pdftoppm' is not in your PATH. Please install Poppler or provide --poppler_path." ;;
          sys_exit 1
      | Some _ => ret tt
      end
  end.

Definition check_file_permissions (pdf_file output_dir : string) : M unit :=
  (* Check PDF readability *)
  (let* is_file := os_path_isfile pdf_file in
   if negb is_file then
     logging_error ("PDF file '" ++ pdf_file ++ "' does not exist.") ;;
     sys_exit 1
   else ret tt) ;;
  (let* can_read := os_access pdf_file R_OK in
   if negb can_read then
     logging_error
       ("PDF file '" ++ pdf_file ++ "' is not readable. Check permissions.") ;;
     sys_exit 1
   else ret tt) ;;
  (* Check output dir writability *)
  (let* is_dir := os_path_isdir output_dir in
   if negb is_dir then
     let* failure := os_makedirs output_dir in
     match failure with
     | Some e =>
         logging_error
           ("Failed to create output directory '" ++ output_dir ++ "': " ++ e) ;;
         sys_exit 1
     | None => ret tt
     end
   else ret tt) ;;
  let* can_write := os_access output_dir W_OK in
  if negb can_write then
    logging_error
      ("Output directory '" ++ output_dir ++ "' is not writable. Check permissions.") ;;
    sys_exit 1
  else ret tt.

Definition jpeg_message : string :=
  "Jpeg does not have an alpha channel, and thus we might get 'OSError: cannot write RGBA as JPEG. In any case, jpeg is not an acceptable format. Feel free to make it acceptable by modifying the code.".

(** The body of [for idx, page in enumerate(pages, start=1)], followed by
    the remaining iterations. *)
Fixpoint save_pages (output_dir fmt : string) (idx : Z) (pages : list Image)
    : M unit :=
  match pages with
  | [] => ret tt
  | page :: rest =>
      let out_file :=
        os_path_join output_dir ("page_" ++ str_int idx ++ "." ++ fmt) in
      print out_file ;;
      (if String.eqb (lower fmt) "jpeg" then
         logging_error jpeg_message ;;
         sys_exit 1
       else ret tt) ;;
      page_save page out_file (upper fmt) ;;
      logging_info
        ("Saved page " ++ str_int idx ++ " to '" ++ out_file ++ "'") ;;
      save_pages output_dir fmt (idx + 1) rest
  end.

(** [from pdf2image import convert_from_path]: a module that
    [check_dependencies] imported is found again without a search; a
    missing one raises here. *)
Definition from_pdf2image_import_convert_from_path : M unit :=
  if pdf2image_installed E then ret tt
  else raise (Exn "ModuleNotFoundError" "No module named 'pdf2image'").

Definition convert_pdf_to_images (pdf_file output_dir : string) (dpi : Z)
    (fmt : string) (poppler_path : option string) : M unit :=
  from_pdf2image_import_convert_from_path ;;
  logging_info ("Converting '" ++ pdf_file ++ "' to images...") ;;
  let* pages := convert_from_path pdf_file dpi fmt poppler_path in
  save_pages output_dir fmt 1 pages ;;
  logging_info "Conversion complete.".

(** [main] from its third statement on, once [parse_arguments] has
    returned [args]. *)
Definition main_with (args : Namespace) : M unit :=
  check_dependencies (poppler_path args) ;;
  check_file_permissions (pdf_file args) (output_dir args) ;;
  print (pdf_file args) ;;
  print (output_dir args) ;;
  print (fmt args) ;;
  print (str_int (dpi args)) ;;
  convert_pdf_to_images (pdf_file args) (output_dir args) (dpi args)
    (fmt args) (poppler_path args).

(** [main()], on the command line [argv] of the process. *)
Definition main (argv : list string) : M unit :=
  setup_logging ;;
  let* args := parse_arguments argv in
  main_with args.

(** ** The interpreter around [main()] *)

(** A fresh process: the root logger at its default threshold, nothing
    done yet. *)
Definition fresh (w : filesystem) : state := State w (level_no WARNING) [].

Record finished := Finished {
  final : filesystem;
  history : list event;
  status : Z
}.

(** The interpreter around the script: a normal return ends the process
    with status 0, [sys.exit(c)] with status [c], and an exception that
    nothing caught makes the interpreter print the traceback and end with
    status 1. *)
Definition interpreter (m : M unit) (w : filesystem) : finished :=
  match m (fresh w) with
  | (s, Ok _) => Finished (fs s) (trace s) 0
  | (s, SysExit c) => Finished (fs s) (trace s) c
  | (s, Uncaught e) => Finished (fs s) (trace s ++ [Traceback e]) 1
  end.

(** [python extractor.py argv...] on the filesystem [w]. *)
Definition process (argv : list string) (w : filesystem) : finished :=
  interpreter (main argv) w.

(** The process whose command line [parse_arguments] turns into [args]. *)
Definition run (args : Namespace) (w : filesystem) : finished :=
  interpreter (setup_logging ;; main_with args) w.

(** ** What the precondition phase asks and answers *)

Definition push (s : state) (evs : list event) : state :=
  State (fs s) (root_level s) (trace s ++ evs)%list.

Definition is_file (w : filesystem) (p : string) : bool :=
  bool_decide (is_Some (files w !! p)).

Definition is_dir (w : filesystem) (p : string) : bool :=
  bool_decide (p ∈ dirs w).

(** The one query of check 2: in the supplied directory when there is
    one, else on the search path. *)
Definition toolchain_query (pp : option string) : event :=
  match pp with
  | Some d => Isfile (os_path_join d "pdftoppm")
  | None => Which "pdftoppm"
  end.

Definition toolchain_found (pp : option string) (w : filesystem) : bool :=
  match pp with
  | Some d => is_file w (os_path_join d "pdftoppm")
  | None => match which_result E "pdftoppm" with Some _ => true | None => false end
  end.

Definition toolchain_message (pp : option string) : string :=
  match pp with
  | Some d => "Poppler utility 'pdftoppm' was not found in: " ++ d
  | None =>
      "Poppler utility 'pdftoppm' is not in your PATH. Please install Poppler or provide --poppler_path."
  end.

Definition dependency_message : string :=
  "The 'pdf2image' library is not installed. Install it via: pip install pdf2image".

Definition source_ok (pdf : string) (w : filesystem) : bool :=
  is_file w pdf && readable E pdf.

Definition source_message (pdf : string) (w : filesystem) : string :=
  if is_file w pdf
  then "PDF file '" ++ pdf ++ "' is not readable. Check permissions."
  else "PDF file '" ++ pdf ++ "' does not exist.".

(** The output directory cannot be created: it is a regular file, or
    [os.makedirs] fails. *)
Definition creation_failure (out : string) (w : filesystem) : option string :=
  if is_file w out then Some ("[Errno 17] File exists: '" ++ out ++ "'")
  else makedirs_error E out.

Definition destination_ok (out : string) (w : filesystem) : bool :=
  if is_dir w out then writable E out
  else match creation_failure out w with
       | Some _ => false
       | None => writable E out
       end.

Definition destination_message (out : string) (w : filesystem) : string :=
  if is_dir w out
  then "Output directory '" ++ out ++ "' is not writable. Check permissions."
  else match creation_failure out w with
       | Some e => "Failed to create output directory '" ++ out ++ "': " ++ e
       | None =>
           "Output directory '" ++ out ++ "' is not writable. Check permissions."
       end.

(** The calls of check 4, up to the one that fails. *)
Definition destination_queries (out : string) (w : filesystem) : list event :=
  if is_dir w out then [Isdir out; Access out W_OK]
  else match creation_failure out w with
       | Some _ => [Isdir out; Makedirs out]
       | None => [Isdir out; Makedirs out; Access out W_OK]
       end.

(** The filesystem after check 4: as it was when the directory existed or
    the path is a regular file; else with the parents that [os.makedirs]
    made and, when it succeeded, the directory. *)
Definition with_output_dir (out : string) (w : filesystem) : filesystem :=
  if is_dir w out then w
  else match creation_failure out w with
       | Some _ =>
           if is_file w out then w
           else Filesystem (files w) (made_parents out ∪ dirs w)
       | None =>
           Filesystem (files w) ({[ out ]} ∪ (made_parents out ∪ dirs w))
       end.

(** ** What the conversion phase does *)

(** [fmt.lower() == 'jpeg'] *)
Definition rejected (fmt : string) : bool := String.eqb (lower fmt) "jpeg".

(** The destination of the page at 1-based index [idx]. *)
Definition page_name (out fmt : string) (idx : Z) : string :=
  os_path_join out ("page_" ++ str_int idx ++ "." ++ fmt).

Definition saved_message (out fmt : string) (idx : Z) : string :=
  "Saved page " ++ str_int idx ++ " to '" ++ page_name out fmt idx ++ "'".

(** What [page.save] answers: the bytes it writes, or the exception. *)
Definition save_outcome (page : Image) (out_file format : string)
    : exn + list byte :=
  match encode_page E page format with
  | Refused e => inl e
  | Failed e _ _ =>
      match open_error E out_file with
      | Some e' => inl e'
      | None => inl e
      end
  | Encoded bytes =>
      match open_error E out_file with
      | Some e' => inl e'
      | None => inr bytes
      end
  end.

(** What a [page.save] that raises has done to its destination: nothing,
    when it raised before or while opening it; else one last write. *)
Definition failed_write (page : Image) (out_file format : string)
    : list (string * file_op) :=
  match encode_page E page format with
  | Failed _ partial removes_created =>
      match open_error E out_file with
      | Some _ => []
      | None =>
          [(out_file,
            if removes_created then Put_if_present partial else Put partial)]
      end
  | _ => []
  end.

(** Writes in the order they are made; a later write of a path replaces
    an earlier one. *)
Definition write_all (ws : list (string * file_op))
    (f : gmap string (list byte)) : gmap string (list byte) :=
  fold_left apply_op ws f.

(** The loop, iteration by iteration, as the events it adds, the files
    it writes and the way it ends. *)
Fixpoint loop_summary (out fmt : string) (idx : Z) (pages : list Image)
    : list event * list (string * file_op) * result unit :=
  match pages with
  | [] => ([], [], Ok tt)
  | page :: rest =>
      let name := page_name out fmt idx in
      if rejected fmt then
        ([Print name; Log ERROR jpeg_message], [], SysExit 1)
      else
        match save_outcome page name (upper fmt) with
        | inl e =>
            ([Print name; Save page name (upper fmt)],
             failed_write page name (upper fmt), Uncaught e)
        | inr bytes =>
            let '(evs, ws, r) := loop_summary out fmt (idx + 1) rest in
            (Print name :: Save page name (upper fmt)
               :: Log INFO (saved_message out fmt idx) :: evs,
             (name, Put bytes) :: ws, r)
        end
  end.

(** Every page of the sequence is encoded and written without an
    exception. *)
Fixpoint all_saved (out fmt : string) (idx : Z) (pages : list Image)
    : bool :=
  match pages with
  | [] => true
  | page :: rest =>
      match save_outcome page (page_name out fmt idx) (upper fmt) with
      | inl _ => false
      | inr _ => all_saved out fmt (idx + 1) rest
      end
  end.

(** [page_1.<fmt>] ... [page_n.<fmt>] in the output directory. *)
Definition page_files (out fmt : string) (n : nat) : list string :=
  map (fun k => page_name out fmt (Z.of_nat k)) (seq 1 n).

(** The value a path holds after one more write. *)
Definition last_write (k : string) (acc : option (list byte))
    (kv : string * file_op) : option (list byte) :=
  if decide (fst kv = k) then
    match snd kv with
    | Put bytes => Some bytes
    | Put_if_present bytes =>
        match acc with Some _ => Some bytes | None => None end
    end
  else acc.

(** The events of a run up to and including the rasterization call, when
    the four checks pass. *)
Definition check_queries (args : Namespace) (w : filesystem) : list event :=
  ([Import_pdf2image; toolchain_query (poppler_path args);
    Isfile (pdf_file args); Access (pdf_file args) R_OK]
   ++ destination_queries (output_dir args) w)%list.

Definition conversion_prelude (args : Namespace) : list event :=
  [Print (pdf_file args); Print (output_dir args); Print (fmt args);
   Print (str_int (dpi args));
   Log INFO ("Converting '" ++ pdf_file args ++ "' to images...");
   Convert_from_path (pdf_file args) (dpi args) (fmt args)
     (poppler_path args)].

Definition preconditions_pass (args : Namespace) (w : filesystem) : bool :=
  pdf2image_installed E
  && toolchain_found (poppler_path args) w
  && source_ok (pdf_file args) w
  && destination_ok (output_dir args) w.

(** A whole run, case by case. *)
Definition run_summary (args : Namespace) (w : filesystem) : finished :=
  let pp := poppler_path args in
  let pdf := pdf_file args in
  let out := output_dir args in
  if negb (pdf2image_installed E) then
    Finished w [Import_pdf2image; Log ERROR dependency_message] 1
  else if negb (toolchain_found pp w) then
    Finished w [Import_pdf2image; toolchain_query pp;
                Log ERROR (toolchain_message pp)] 1
  else if negb (source_ok pdf w) then
    Finished w
      ([Import_pdf2image; toolchain_query pp; Isfile pdf]
       ++ (if is_file w pdf then [Access pdf R_OK] else [])
       ++ [Log ERROR (source_message pdf w)])%list 1
  else if negb (destination_ok out w) then
    Finished (with_output_dir out w)
      (check_queries args w ++ [Log ERROR (destination_message out w)])%list
      1
  else
    let w1 := with_output_dir out w in
    let pre := (check_queries args w ++ conversion_prelude args)%list in
    match rasterize E pdf (dpi args) (fmt args) pp with
    | inl x => Finished w1 (pre ++ [Traceback x])%list 1
    | inr pages =>
        let '(evs, ws, r) := loop_summary out (fmt args) 1 pages in
        let w2 := Filesystem (write_all ws (files w1)) (dirs w1) in
        match r with
        | Ok _ =>
            Finished w2
              (pre ++ evs ++ [Log INFO "Conversion complete."])%list 0
        | SysExit c => Finished w2 (pre ++ evs)%list c
        | Uncaught x => Finished w2 (pre ++ evs ++ [Traceback x])%list 1
        end
    end.

(** Events that report a failure: an [ERROR] line of the logger, the
    traceback of the interpreter, or the usage error of [argparse]. *)
Definition is_error_report (e : event) : bool :=
  match e with
  | Log ERROR _ => true
  | Traceback _ => true
  | Usage_message _ => true
  | _ => false
  end.

Definition is_save (e : event) : bool :=
  match e with Save _ _ _ => true | _ => false end.

Definition is_conversion (e : event) : bool :=
  match e with Convert_from_path _ _ _ _ => true | _ => false end.

(** The destinations of the [page.save] calls of a history, in order. *)
Fixpoint saved_paths (evs : list event) : list string :=
  match evs with
  | [] => []
  | Save _ p _ :: evs' => p :: saved_paths evs'
  | _ :: evs' => saved_paths evs'
  end.

End Extractor.

Arguments Ok {A} a.
Arguments SysExit {A} code.
Arguments Uncaught {A} e.
Arguments Import_pdf2image {Image}.
Arguments Isfile {Image} path.
Arguments Which {Image} cmd.
Arguments Access {Image} path mode.
Arguments Isdir {Image} path.
Arguments Makedirs {Image} path.
Arguments Convert_from_path {Image} pdf_file dpi fmt poppler_path.
Arguments Save {Image} page out_file format.
Arguments Log {Image} lv msg.
Arguments Print {Image} line.
Arguments Traceback {Image} e.
Arguments Help_message {Image} text.
Arguments Usage_message {Image} text.
Arguments Finished {Image} final history status.
Arguments final {Image} f.
Arguments history {Image} f.
Arguments status {Image} f.
Arguments fresh {Image} w.
Arguments State {Image} fs root_level trace.
Arguments fs {Image} s.
Arguments root_level {Image} s.
Arguments trace {Image} s.
Arguments push {Image} s evs.
Arguments saved_paths {Image} evs.
Arguments is_save {Image} e.
Arguments is_conversion {Image} e.
Arguments is_error_report {Image} e.
Arguments toolchain_query {Image} pp.
Arguments pdf2image_installed {Image} e.
Arguments which_result {Image} e _.
Arguments readable {Image} e _.
Arguments writable {Image} e _.
Arguments makedirs_error {Image} e _.
Arguments rasterize {Image} e _ _ _ _.
Arguments encode_page {Image} e _ _.
Arguments open_error {Image} e _.
Arguments all_saved {Image} E out fmt idx pages.
Arguments toolchain_found {Image} E pp w.
Arguments source_ok {Image} E pdf w.
Arguments destination_ok {Image} E out w.
Arguments destination_queries {Image} E out w.
Arguments destination_message {Image} E out w.
Arguments creation_failure {Image} E out w.
Arguments with_output_dir {Image} E out w.
Arguments save_outcome {Image} E page out_file format.
Arguments loop_summary {Image} E out fmt idx pages.
Arguments check_queries {Image} E args w.
Arguments conversion_prelude {Image} args.
Arguments preconditions_pass {Image} E args w.
Arguments run_summary {Image} E args w.
Arguments check_dependencies {Image} E poppler_path.
Arguments check_file_permissions {Image} E pdf_file output_dir.
Arguments save_pages {Image} E output_dir fmt idx pages.
Arguments convert_pdf_to_images {Image} E pdf_file output_dir dpi fmt poppler_path.
Arguments main_with {Image} E args.
Arguments main {Image} E argv.
Arguments interpreter {Image} m w.
Arguments process {Image} E argv w.
Arguments run {Image} E args w.
Arguments parse_arguments {Image} E argv.
Arguments from_pdf2image_import_convert_from_path {Image} E.
Arguments write_file {Image} out_file op.
Arguments made_parents {Image} E p.
Arguments failed_write {Image} E page out_file format.
Arguments makedirs_parents {Image} e _.
Arguments parse_args {Image} e _ _.
Arguments setup_logging {Image}.
Arguments logging_log {Image} lv msg.
Arguments logging_info {Image} msg.
Arguments logging_error {Image} msg.
Arguments emit {Image} e.
Arguments bind {Image A B} m k.
Arguments ret {Image A} a.
Arguments sys_exit {Image A} code.
Arguments raise {Image A} e.
Arguments print {Image} line.
Arguments page_save {Image} E page out_file format.
Arguments convert_from_path {Image} E pdf_file dpi fmt poppler_path.
Arguments os_makedirs {Image} E p.
Arguments os_access {Image} E p mode.
Arguments os_path_isfile {Image} p.
Arguments os_path_isdir {Image} p.
Arguments shutil_which {Image} E cmd.
Arguments import_pdf2image {Image} E.

(** ** Further vocabulary for histories *)

(** The three events of an iteration that saves its page, for each page in
    turn: the destination printed, the page saved, the save confirmed. *)
Fixpoint page_events {Image : Type} (out fmt : string) (idx : Z)
    (pages : list Image) : list (event Image) :=
  match pages with
  | [] => []
  | page :: rest =>
      Print (page_name out fmt idx)
        :: Save page (page_name out fmt idx) (upper fmt)
        :: Log INFO (saved_message out fmt idx)
        :: page_events out fmt (idx + 1) rest
  end.

Definition is_makedirs {Image : Type} (e : event Image) : bool :=
  match e with Makedirs _ => true | _ => false end.

(** The events that reach the console when the root logger has the
    threshold [lv]: every call and print, and the log lines at or above
    the threshold. *)
Definition visible {Image : Type} (threshold : Z) (e : event Image) : bool :=
  match e with
  | Log l _ => threshold <=? level_no l
  | _ => true
  end.

(** The directory part that [os.path.join] puts before a page name. *)
Definition page_dir (out : string) : string :=
  if String.eqb out "" || endswith_sep out then out else out ++ "/".

(** ** A sample machine *)

(** The scenario of the documentation: [sample.pdf] in the working
    directory, no [out/] directory yet, every collaborator willing.  A page
    is its raster bytes and the encoder hands them back as they are. *)
Module Sample.

Definition pdf_bytes : list byte := [x25; x50; x44; x46].

Definition disk : filesystem :=
  {| files := {[ "sample.pdf" := pdf_bytes ]}; dirs := ∅ |}.

Definition empty_disk : filesystem := {| files := ∅; dirs := ∅ |}.

Definition three_pages : list (list byte) := [[x01]; [x02]; [x03]].

(** A command line of two words is the source and the output directory,
    with the defaults of the flags; [--fmt] and a word after them give
    the format; [-h] asks for the help; anything else is refused. *)
Definition command_line_of (p : argument_parser) (argv : list string)
    : command_line :=
  match argv with
  | [pdf; out] =>
      if String.prefix "-" pdf || String.prefix "-" out
      then Rejected_command_line "error: unrecognized arguments"
      else Parsed {| pdf_file := pdf; output_dir := out; dpi := 200;
                     fmt := "png"; poppler_path := None |}
  | [pdf; out; "--fmt"; f] =>
      if String.prefix "-" pdf || String.prefix "-" out
      then Rejected_command_line "error: unrecognized arguments"
      else Parsed {| pdf_file := pdf; output_dir := out; dpi := 200;
                     fmt := f; poppler_path := None |}
  | ["-h"] => Help_requested (parser_description p)
  | _ =>
      Rejected_command_line
        "error: the following arguments are required: pdf_file, output_dir"
  end.

Definition machine (installed can_write : bool)
    (pages : exn + list (list byte))
    (encoder : list byte -> string -> encoding)
    : environment (list byte) :=
  {| pdf2image_installed := installed;
     which_result := fun _ => Some "/usr/bin/pdftoppm";
     readable := fun _ => true;
     writable := fun _ => can_write;
     makedirs_error := fun _ => None;
     makedirs_parents := fun _ => [];
     rasterize := fun _ _ _ _ => pages;
     encode_page := encoder;
     open_error := fun _ => None;
     parse_args := command_line_of |}.

Definition identity_encoder (page : list byte) (format : string)
    : encoding := Encoded page.

(** Pillow knows the format [JPEG] but not [JPG]. *)
Definition pillow_encoder (page : list byte) (format : string)
    : encoding :=
  if String.eqb format "JPG" then Refused (Exn "KeyError" "'JPG'")
  else Encoded page.

Definition env (pages : list (list byte)) : environment (list byte) :=
  machine true true (inr pages) identity_encoder.

Definition args (format : string) : Namespace :=
  {| pdf_file := "sample.pdf"; output_dir := "out/"; dpi := 150;
     fmt := format; poppler_path := None |}.

(** What [command_line_of] makes of the source, the directory and a
    format. *)
Definition parsed (format : string) : Namespace :=
  {| pdf_file := "sample.pdf"; output_dir := "out/"; dpi := 200;
     fmt := format; poppler_path := None |}.

Definition corrupt : exn :=
  Exn "PDFPageCountError" "Unable to get page count.".

(** The same machine with one collaborator unwilling. *)
Definition without_pdf2image : environment (list byte) :=
  machine false true (inr three_pages) identity_encoder.

Definition with_corrupt_pdf : environment (list byte) :=
  machine true true (inl corrupt) identity_encoder.

Definition read_only : environment (list byte) :=
  machine true false (inr three_pages) identity_encoder.

Definition with_pillow : environment (list byte) :=
  machine true true (inr three_pages) pillow_encoder.

(** An encoder that fails on the second sample page, after it has
    written the first byte of the image; the file is removed if the save
    had created it. *)
Definition fragile_encoder (page : list byte) (format : string)
    : encoding :=
  match page with
  | [x02] => Failed (Exn "OSError" "cannot write mode P as PNG") [x89] true
  | _ => Encoded page
  end.

Definition with_fragile_encoder : environment (list byte) :=
  machine true true (inr three_pages) fragile_encoder.

(** The output directory left by an earlier run of a longer document,
    with its second and ninth pages. *)
Definition stale : list byte := [x4f; x4c; x44].

Definition disk_after_earlier_run : filesystem :=
  {| files := {[ "sample.pdf" := pdf_bytes; "out/page_2.png" := stale;
                 "out/page_9.png" := stale ]};
     dirs := {[ "out/" ]} |}.

(** A machine where the output directory [a/b] lacks its parent [a],
    which [os.makedirs] creates on the way. *)
Definition with_nested_output : environment (list byte) :=
  {| pdf2image_installed := true;
     which_result := fun _ => Some "/usr/bin/pdftoppm";
     readable := fun _ => true;
     writable := fun _ => true;
     makedirs_error := fun _ => None;
     makedirs_parents :=
       fun p => if String.eqb p "a/b" then ["a"; "a/b"] else [];
     rasterize := fun _ _ _ _ => inr three_pages;
     encode_page := identity_encoder;
     open_error := fun _ => None;
     parse_args := command_line_of |}.

Definition nested_args : Namespace :=
  {| pdf_file := "sample.pdf"; output_dir := "a/b"; dpi := 150;
     fmt := "png"; poppler_path := None |}.

(** The output path taken by a regular file. *)
Definition disk_with_file_at_out : filesystem :=
  {| files := {[ "sample.pdf" := pdf_bytes; "out/" := [] ]}; dirs := ∅ |}.

End Sample.

(** ** Facts about the string functions *)

Lemma str_append_cons (c : ascii) (s t : string) :
  String c s ++ t = String c (s ++ t).
Proof. reflexivity. Qed.

Lemma str_append_assoc (s t u : string) : (s ++ t) ++ u = s ++ (t ++ u).
Proof.
  induction s as [|c s IH]; [reflexivity|].
  rewrite !str_append_cons. now f_equal.
Qed.

Lemma str_length_append (s t : string) :
  String.length (s ++ t) = (String.length s + String.length t)%nat.
Proof.
  induction s as [|c s IH]; [reflexivity|].
  rewrite str_append_cons. simpl. now rewrite IH.
Qed.

Lemma str_append_cancel_r (t s1 s2 : string) : s1 ++ t = s2 ++ t -> s1 = s2.
Proof.
  revert s2. induction s1 as [|a s1 IH]; intros [|b s2] H.
  - reflexivity.
  - apply (f_equal String.length) in H.
    rewrite !str_length_append in H. simpl in H. lia.
  - apply (f_equal String.length) in H.
    rewrite !str_length_append in H. simpl in H. lia.
  - rewrite !str_append_cons in H. injection H as -> H. f_equal. now apply IH.
Qed.

Lemma to_int_not_nil (z : Z) :
  Z.to_int z <> Decimal.Pos Decimal.Nil /\ Z.to_int z <> Decimal.Neg Decimal.Nil.
Proof.
  destruct z as [|p|p]; simpl; split; try discriminate; intros [= H];
    now apply (DecimalPos.Unsigned.to_uint_nonnil p).
Qed.

Lemma str_int_inj (a b : Z) : str_int a = str_int b -> a = b.
Proof.
  unfold str_int. intros H. apply DecimalZ.to_int_inj.
  destruct (to_int_not_nil a) as [Ha1 Ha2].
  destruct (to_int_not_nil b) as [Hb1 Hb2].
  pose proof (NilZero.isi _ Ha1 Ha2) as Ia.
  pose proof (NilZero.isi _ Hb1 Hb2) as Ib.
  rewrite H in Ia. congruence.
Qed.

(** No zero-padding: the decimal form of a positive index does not begin
    with [0]. *)
Lemma str_int_no_padding (i : Z) :
  0 < i -> exists c rest, str_int i = String c rest /\ c <> "0"%char.
Proof.
  destruct i as [|p|p]; try lia. intros _. unfold str_int. simpl.
  pose proof (DecimalPos.Unsigned.to_of (Pos.to_uint p)) as Hn.
  rewrite DecimalPos.Unsigned.of_to in Hn. simpl in Hn.
  pose proof (DecimalPos.Unsigned.to_uint_nonnil p) as Hnil.
  unfold Decimal.unorm in Hn.
  pose proof (DecimalFacts.nzhead_nonzero (Pos.to_uint p)) as Hz.
  pose proof (DecimalPos.Unsigned.to_uint_nonzero p) as Hzero.
  destruct (Decimal.nzhead (Pos.to_uint p)) as [|u|u|u|u|u|u|u|u|u|u] eqn:Hh;
    try (now exfalso; apply (Hz u)); try contradiction;
    rewrite Hn; simpl; eexists _, _; (split; [reflexivity|discriminate]).
Qed.

Lemma os_path_join_page (out : string) :
  exists dir, forall name,
    os_path_join out (String "p" name) = dir ++ String "p" name.
Proof.
  unfold os_path_join. cbn [String.prefix].
  destruct (ascii_dec "/" "p") as [Hc|_]; [discriminate Hc|].
  destruct (String.eqb out "" || endswith_sep out).
  - now exists out.
  - exists (out ++ "/"). intros name. now rewrite str_append_assoc.
Qed.

Lemma lower_upper_char (c : ascii) : lower_char (upper_char c) = lower_char c.
Proof. destruct c as [[] [] [] [] [] [] [] []]; reflexivity. Qed.

Lemma upper_upper_char (c : ascii) : upper_char (upper_char c) = upper_char c.
Proof. destruct c as [[] [] [] [] [] [] [] []]; reflexivity. Qed.

Lemma casing_of_lower (s t : string) :
  casing_of s t = true -> lower t = lower s.
Proof.
  revert t. induction s as [|c s IH]; intros [|d t] H; simpl in H;
    try discriminate; [reflexivity|].
  apply andb_true_iff in H as [Hc Ht]. simpl. rewrite (IH _ Ht). f_equal.
  apply orb_true_iff in Hc as [Hc|Hc]; apply Ascii.eqb_eq in Hc; subst d.
  - reflexivity.
  - apply lower_upper_char.
Qed.

Lemma casing_of_upper (s t : string) :
  casing_of s t = true -> upper t = upper s.
Proof.
  revert t. induction s as [|c s IH]; intros [|d t] H; simpl in H;
    try discriminate; [reflexivity|].
  apply andb_true_iff in H as [Hc Ht]. simpl. rewrite (IH _ Ht). f_equal.
  apply orb_true_iff in Hc as [Hc|Hc]; apply Ascii.eqb_eq in Hc; subst d.
  - reflexivity.
  - apply upper_upper_char.
Qed.


Lemma page_name_inj (out fmt : string) (i j : Z) :
  page_name out fmt i = page_name out fmt j -> i = j.
Proof.
  unfold page_name. destruct (os_path_join_page out) as [dir Hdir].
  rewrite !str_append_cons, !Hdir. intros H.
  apply (inj (String.append dir)) in H. injection H as H.
  change (str_int i ++ "." ++ fmt = str_int j ++ "." ++ fmt) in H.
  apply str_append_cancel_r in H. now apply str_int_inj.
Qed.

(** ** Facts about sequences of writes *)

Lemma last_write_hit (k : string) (acc : option (list byte)) (v : list byte) :
  last_write k acc (k, Put v) = Some v.
Proof. unfold last_write. simpl. now destruct (decide (k = k)). Qed.

Lemma last_write_miss (k k' : string) (acc : option (list byte))
    (op : file_op) :
  k' <> k -> last_write k acc (k', op) = acc.
Proof. intros H. unfold last_write. simpl. now destruct (decide (k' = k)). Qed.

Lemma lookup_apply_op (f : gmap string (list byte)) (kv : string * file_op)
    (k : string) :
  apply_op f kv !! k = last_write k (f !! k) kv.
Proof.
  destruct kv as [k' op]. unfold apply_op, last_write. simpl.
  destruct op as [b|b].
  - rewrite lookup_insert. now destruct (decide (k' = k)).
  - destruct (decide (k' = k)) as [->|Hne].
    + destruct (f !! k) as [v|] eqn:Hk.
      * rewrite bool_decide_eq_true_2 by eauto. apply lookup_insert_eq.
      * rewrite bool_decide_eq_false_2; [exact Hk|].
        intros [v Hv]. discriminate Hv.
    + destruct (bool_decide (is_Some (f !! k'))); [|reflexivity].
      now rewrite lookup_insert_ne.
Qed.

Lemma lookup_write_all (ws : list (string * file_op))
    (f : gmap string (list byte)) (k : string) :
  write_all ws f !! k = fold_left (last_write k) ws (f !! k).
Proof.
  revert f. induction ws as [|kv ws IH]; intros f; simpl; [reflexivity|].
  unfold write_all in *. simpl. rewrite IH. f_equal. apply lookup_apply_op.
Qed.

(** What a sequence of writes makes of the value of one path: it fixes it,
    or leaves it, or fixes it only when the path held something. *)
Lemma last_write_shape (k : string) (ws : list (string * file_op)) :
  (exists c, forall a, fold_left (last_write k) ws a = Some c)
  \/ (forall a, fold_left (last_write k) ws a = a)
  \/ (exists c, forall a,
        fold_left (last_write k) ws a
        = match a with Some _ => Some c | None => None end).
Proof.
  induction ws as [|[k' op] ws IH]; simpl.
  - right. left. reflexivity.
  - destruct (decide (k' = k)) as [->|Hne].
    + unfold last_write at 2 4 6. simpl.
      destruct (decide (k = k)) as [_|Hn]; [|contradiction].
      destruct IH as [[c Hc]|[Hid|[c Hc]]].
      * left. exists c. intros a. apply Hc.
      * destruct op as [b|b].
        -- left. exists b. intros a. apply Hid.
        -- right. right. exists b. intros a. rewrite Hid. reflexivity.
      * destruct op as [b|b].
        -- left. exists c. intros a. now rewrite Hc.
        -- right. right. exists c. intros a. rewrite Hc. now destruct a.
    + destruct IH as [[c Hc]|[Hid|[c Hc]]].
      * left. exists c. intros a. apply Hc.
      * right. left. intros a. rewrite Hid. now apply last_write_miss.
      * right. right. exists c. intros a.
        now rewrite Hc, last_write_miss.
Qed.

Lemma write_all_idempotent (ws : list (string * file_op))
    (f : gmap string (list byte)) :
  write_all ws (write_all ws f) = write_all ws f.
Proof.
  apply map_eq. intros k. rewrite !lookup_write_all.
  destruct (last_write_shape k ws) as [[c Hc]|[Hid|[c Hc]]].
  - now rewrite !Hc.
  - now rewrite !Hid.
  - rewrite !Hc. now destruct (f !! k).
Qed.

Lemma write_all_keeps (ws : list (string * file_op))
    (f : gmap string (list byte)) (k : string) :
  is_Some (f !! k) -> is_Some (write_all ws f !! k).
Proof.
  rewrite lookup_write_all. intros [v Hv]. rewrite Hv.
  destruct (last_write_shape k ws) as [[c Hc]|[Hid|[c Hc]]].
  - rewrite Hc. eauto.
  - rewrite Hid. eauto.
  - rewrite Hc. eauto.
Qed.

Lemma write_all_untouched (ws : list (string * file_op))
    (f : gmap string (list byte)) (k : string) :
  ~ In k (map fst ws) -> write_all ws f !! k = f !! k.
Proof.
  rewrite lookup_write_all. generalize (f !! k).
  induction ws as [|[k' v] ws IH]; intros o Hk; simpl; [reflexivity|].
  simpl in Hk. destruct (decide (k' = k)) as [->|Hne]; [tauto|].
  rewrite last_write_miss by exact Hne. apply IH. tauto.
Qed.

Lemma write_all_written (ws : list (string * file_op))
    (f : gmap string (list byte)) (k : string) (v : list byte) :
  List.NoDup (map fst ws) -> In (k, Put v) ws ->
  write_all ws f !! k = Some v.
Proof.
  revert f. induction ws as [|[k' v'] ws IH]; intros f Hnd Hin;
    [destruct Hin|].
  simpl in Hnd. apply List.NoDup_cons_iff in Hnd as [Hk Hnd].
  destruct Hin as [[= -> ->]|Hin].
  - change (write_all ws (apply_op f (k, Put v)) !! k = Some v).
    rewrite write_all_untouched by exact Hk.
    rewrite lookup_apply_op. apply last_write_hit.
  - change (write_all ws (apply_op f (k', v')) !! k = Some v). now apply IH.
Qed.

Section Properties.

Context {Image : Type} (E : environment Image).

Lemma logging_error_emits (msg : string) (s : state Image) :
  root_level s = level_no INFO ->
  logging_error msg s = (push s [Log ERROR msg], Ok tt).
Proof.
  intros Hl. unfold logging_error, logging_log, emit, push.
  rewrite Hl. reflexivity.
Qed.

Lemma logging_info_emits (msg : string) (s : state Image) :
  root_level s = level_no INFO ->
  logging_info msg s = (push s [Log INFO msg], Ok tt).
Proof.
  intros Hl. unfold logging_info, logging_log, emit, push.
  rewrite Hl. reflexivity.
Qed.

Lemma push_push (s : state Image) (a b : list (event Image)) :
  push (push s a) b = push s (a ++ b)%list.
Proof. unfold push; simpl. now rewrite <- app_assoc. Qed.

Lemma check_dependencies_eq (pp : option string) (s : state Image) :
  root_level s = level_no INFO ->
  check_dependencies E pp s =
  if pdf2image_installed E then
    if toolchain_found E pp (fs s)
    then (push s [Import_pdf2image; toolchain_query pp], Ok tt)
    else (push s [Import_pdf2image; toolchain_query pp;
                  Log ERROR (toolchain_message pp)], SysExit 1)
  else (push s [Import_pdf2image; Log ERROR dependency_message], SysExit 1).
Proof.
  intros Hl. unfold check_dependencies, import_pdf2image, bind at 1 2 3. simpl.
  destruct (pdf2image_installed E); simpl.
  - destruct pp as [d|]; simpl.
    + unfold bind, os_path_isfile, bind, emit, is_file; simpl.
      destruct (bool_decide _); simpl.
      * unfold ret, push; simpl. now rewrite <- app_assoc.
      * rewrite logging_error_emits by exact Hl. unfold sys_exit, push; simpl.
        now rewrite <- !app_assoc.
    + unfold bind, shutil_which, bind, emit, ret; simpl.
      destruct (which_result E "pdftoppm"); simpl.
      * unfold push; simpl. now rewrite <- app_assoc.
      * rewrite logging_error_emits by exact Hl. unfold sys_exit, push; simpl.
        now rewrite <- !app_assoc.
  - unfold bind. rewrite logging_error_emits by exact Hl.
    unfold sys_exit, push; simpl. now rewrite <- !app_assoc.
Qed.

Lemma check_file_permissions_eq (pdf out : string) (s : state Image) :
  root_level s = level_no INFO ->
  check_file_permissions E pdf out s =
  if source_ok E pdf (fs s) then
    if destination_ok E out (fs s) then
      (State (with_output_dir E out (fs s)) (root_level s)
         (trace s ++ [Isfile pdf; Access pdf R_OK]
            ++ destination_queries E out (fs s))%list, Ok tt)
    else
      (State (with_output_dir E out (fs s)) (root_level s)
         (trace s ++ [Isfile pdf; Access pdf R_OK]
            ++ destination_queries E out (fs s)
            ++ [Log ERROR (destination_message E out (fs s))])%list,
       SysExit 1)
  else
    (push s ([Isfile pdf]
             ++ (if is_file (fs s) pdf then [Access pdf R_OK] else [])
             ++ [Log ERROR (source_message pdf (fs s))])%list, SysExit 1).
Proof.
  destruct s as [w lv tr]. intros Hl. simpl in Hl. subst lv.
  unfold check_file_permissions, source_ok, destination_ok,
    destination_queries, destination_message, with_output_dir,
    source_message, creation_failure, is_file, is_dir, push.
  unfold bind at 1 2; unfold os_path_isfile, bind, emit; simpl.
  destruct (bool_decide (is_Some (files w !! pdf))) eqn:Hf; simpl.
  2:{ now rewrite <- !app_assoc. }
  unfold ret, os_access, bind, emit, exists_path; simpl. rewrite Hf; simpl.
  destruct (readable E pdf); simpl.
  2:{ now rewrite <- !app_assoc. }
  unfold os_path_isdir, bind, emit; simpl.
  destruct (bool_decide (out ∈ dirs w)) eqn:Hd; simpl.
  - rewrite Hd, orb_true_r; simpl.
    destruct (writable E out); simpl; now rewrite <- !app_assoc.
  - unfold os_makedirs, bind, emit; simpl.
    destruct (bool_decide (is_Some (files w !! out))) eqn:Ho; simpl.
    { destruct w. now rewrite <- !app_assoc. }
    destruct (makedirs_error E out) as [msg|]; simpl.
    { now rewrite <- !app_assoc. }
    rewrite Ho; simpl.
    assert (Hin : bool_decide
                    (out ∈ ({[out]} ∪ (made_parents E out ∪ dirs w)
                            : gset string)) = true).
    { apply bool_decide_eq_true_2. apply elem_of_union. left.
      now apply elem_of_singleton. }
    rewrite Hin; simpl.
    destruct (writable E out); simpl; now rewrite <- !app_assoc.
Qed.

Lemma page_save_eq (page : Image) (out_file format : string)
    (s : state Image) :
  page_save E page out_file format s =
  match save_outcome E page out_file format with
  | inl e =>
      (State (Filesystem
                (write_all (failed_write E page out_file format)
                   (files (fs s)))
                (dirs (fs s)))
             (root_level s) (trace s ++ [Save page out_file format])%list,
       Uncaught e)
  | inr bytes =>
      (State (Filesystem (apply_op (files (fs s)) (out_file, Put bytes))
                         (dirs (fs s)))
             (root_level s) (trace s ++ [Save page out_file format])%list,
       Ok tt)
  end.
Proof.
  destruct s as [[f d] lv tr].
  unfold page_save, save_outcome, failed_write, bind, emit, raise,
    write_file; simpl.
  destruct (encode_page E page format) as [e|e partial removes|bytes];
    simpl; [reflexivity| |];
    destruct (open_error E out_file); reflexivity.
Qed.

Lemma save_pages_eq (out fmt : string) (pages : list Image) :
  forall (idx : Z) (s : state Image),
    root_level s = level_no INFO ->
    save_pages E out fmt idx pages s =
    let '(evs, ws, r) := loop_summary E out fmt idx pages in
    (State (Filesystem (write_all ws (files (fs s))) (dirs (fs s)))
           (level_no INFO) (trace s ++ evs)%list, r).
Proof.
  induction pages as [|page rest IH]; intros idx [[f d] lv tr] Hl;
    simpl in Hl; subst lv.
  - simpl. unfold ret. now rewrite app_nil_r.
  - simpl. unfold rejected, page_name.
    unfold bind at 1 2. unfold print, emit; simpl.
    destruct (String.eqb (lower fmt) "jpeg"); simpl.
    + now rewrite <- app_assoc.
    + unfold bind at 1. rewrite page_save_eq.
      destruct (save_outcome E page _ (upper fmt)) as [e|bytes]; simpl.
      * now rewrite <- app_assoc.
      * unfold bind. rewrite logging_info_emits by reflexivity.
        rewrite IH by reflexivity.
        destruct (loop_summary E out fmt (idx + 1) rest) as [[evs ws] r].
        simpl. unfold saved_message, page_name.
        now rewrite <- !app_assoc.
Qed.

Lemma run_eq (args : Namespace) (w : filesystem) :
  run E args w = run_summary E args w.
Proof.
  unfold run, interpreter, run_summary, main_with, setup_logging,
    logging_basicConfig.
  unfold bind at 1 2. rewrite check_dependencies_eq by reflexivity. simpl.
  destruct (pdf2image_installed E) eqn:Hinst; simpl; [|reflexivity].
  destruct (toolchain_found E (poppler_path args) w); simpl; [|reflexivity].
  unfold bind at 1. rewrite check_file_permissions_eq by reflexivity. simpl.
  destruct (source_ok E (pdf_file args) w); simpl; [|reflexivity].
  destruct (destination_ok E (output_dir args) w); simpl.
  2:{ unfold check_queries. simpl. reflexivity. }
  unfold print, convert_pdf_to_images, convert_from_path,
    from_pdf2image_import_convert_from_path.
  rewrite Hinst.
  unfold bind at 1 2 3 4 5 6 7 8; unfold emit, ret; simpl.
  unfold check_queries, conversion_prelude.
  destruct (rasterize E _ _ _ _) as [x|pages]; simpl.
  - now rewrite <- !app_assoc.
  - unfold ret, bind. rewrite save_pages_eq by reflexivity.
    destruct (loop_summary E _ _ 1 pages) as [[evs ws] r]. simpl.
    destruct r as [[]|c|x]; simpl; now rewrite <- !app_assoc.
Qed.

(** [preconditions_pass] is what the two checking functions decide: they
    return, rather than exit, exactly when it holds. *)
Lemma checks_return_iff (args : Namespace) (s : state Image) :
  root_level s = level_no INFO ->
  ((exists s',
      bind (check_dependencies E (poppler_path args))
           (fun _ => check_file_permissions E (pdf_file args)
                       (output_dir args)) s = (s', Ok tt))
   <-> preconditions_pass E args (fs s) = true).
Proof.
  intros Hl. unfold bind, preconditions_pass.
  rewrite check_dependencies_eq by exact Hl.
  destruct (pdf2image_installed E); simpl.
  2:{ split; [intros [s' H]; discriminate H|discriminate]. }
  destruct (toolchain_found E (poppler_path args) (fs s)); simpl.
  2:{ split; [intros [s' H]; discriminate H|discriminate]. }
  rewrite check_file_permissions_eq by exact Hl. simpl.
  destruct (source_ok E (pdf_file args) (fs s)); simpl.
  2:{ split; [intros [s' H]; discriminate H|discriminate]. }
  destruct (destination_ok E (output_dir args) (fs s)); simpl.
  - split; [reflexivity|]. intros _. eexists. reflexivity.
  - split; [intros [s' H]; discriminate H|discriminate].
Qed.

(** *** Shapes of histories *)

Lemma saved_paths_app (a b : list (event Image)) :
  saved_paths (a ++ b) = (saved_paths a ++ saved_paths b)%list.
Proof.
  induction a as [|e a IH]; simpl; [reflexivity|].
  destruct e; simpl; now rewrite ?IH.
Qed.

Lemma In_saved_paths (page : Image) (o F : string) (l : list (event Image)) :
  In (Save page o F) l -> In o (saved_paths l).
Proof.
  induction l as [|e l IH]; simpl; [tauto|].
  intros [->|H]; [now left|]. destruct e; simpl; auto.
Qed.

Lemma destination_queries_quiet (out : string) (w : filesystem) :
  Forall (fun e : event Image =>
            is_error_report e = false /\ is_conversion e = false
            /\ is_save e = false)
         (destination_queries E out w).
Proof.
  unfold destination_queries.
  destruct (is_dir w out); [|destruct (creation_failure E out w)];
    repeat constructor.
Qed.

Lemma check_queries_quiet (args : Namespace) (w : filesystem) :
  Forall (fun e : event Image =>
            is_error_report e = false /\ is_conversion e = false
            /\ is_save e = false)
         (check_queries E args w).
Proof.
  unfold check_queries. apply Forall_app. split.
  - destruct (poppler_path args); repeat constructor.
  - apply destination_queries_quiet.
Qed.

Lemma conversion_prelude_quiet (args : Namespace) :
  Forall (fun e : event Image =>
            is_error_report e = false /\ is_save e = false)
         (conversion_prelude args).
Proof. repeat constructor. Qed.

Lemma saved_paths_none (l : list (event Image)) :
  Forall (fun e => is_save e = false) l -> saved_paths l = [].
Proof.
  induction 1 as [|e l He _ IH]; [reflexivity|].
  destruct e; simpl; try exact IH. discriminate He.
Qed.

Lemma saved_paths_checks (args : Namespace) (w : filesystem) :
  saved_paths (check_queries E args w) = [].
Proof.
  apply saved_paths_none.
  eapply Forall_impl; [apply check_queries_quiet|]. now intros e (_ & _ & H).
Qed.

(** A history whose reports come last: nothing follows a report. *)
Lemma report_is_last (q : list (event Image)) (tail : list (event Image)) :
  Forall (fun e => is_error_report e = false) q ->
  (tail = [] \/ exists e0, tail = [e0]) ->
  forall pre e post,
    (q ++ tail)%list = (pre ++ e :: post)%list ->
    is_error_report e = true ->
    post = [] /\ tail = [e].
Proof.
  intros Hq Htail. induction Hq as [|a q Ha _ IH]; intros pre e post Heq He.
  - simpl in Heq. destruct Htail as [->|[e0 ->]].
    + destruct pre; discriminate Heq.
    + destruct pre as [|b pre]; simpl in Heq.
      * injection Heq as -> <-. now split.
      * injection Heq as _ Heq. destruct pre; discriminate Heq.
  - destruct pre as [|b pre]; simpl in Heq.
    + injection Heq as -> _. congruence.
    + injection Heq as _ Heq. now apply (IH pre e post).
Qed.


(** *** The loop *)

Lemma loop_summary_rejected (out fmt : string) (idx : Z)
    (pages : list Image) :
  rejected fmt = true ->
  loop_summary E out fmt idx pages =
  match pages with
  | [] => ([], [], Ok tt)
  | _ :: _ =>
      ([Print (page_name out fmt idx); Log ERROR jpeg_message], [],
       SysExit 1)
  end.
Proof. intros H. destruct pages; simpl; [reflexivity|now rewrite H]. Qed.

Lemma loop_summary_events (out fmt : string) (pages : list Image) :
  forall idx,
    match loop_summary E out fmt idx pages with
    | (evs, ws, SysExit c) =>
        c = 1 /\ rejected fmt = true /\ ws = []
        /\ evs = [Print (page_name out fmt idx); Log ERROR jpeg_message]
    | (evs, ws, Uncaught x) =>
        rejected fmt = false
        /\ Forall (fun e => is_error_report e = false) evs
        /\ exists q page o,
             evs = (q ++ [Save page o (upper fmt)])%list
             /\ save_outcome E page o (upper fmt) = inl x
    | (evs, ws, Ok _) =>
        Forall (fun e => is_error_report e = false) evs
        /\ (rejected fmt = true -> evs = [] /\ ws = [])
    end.
Proof.
  induction pages as [|page rest IH]; intros idx; simpl.
  - split; [constructor|now split].
  - destruct (rejected fmt) eqn:Hrej; [now repeat split|].
    destruct (save_outcome E page _ (upper fmt)) as [x|bytes] eqn:Hsave.
    + split; [reflexivity|]. split; [repeat constructor|].
      exists [Print (page_name out fmt idx)], page, (page_name out fmt idx).
      now split.
    + specialize (IH (idx + 1)).
      destruct (loop_summary E out fmt (idx + 1) rest) as [[evs ws] r].
      destruct r as [[]|c|x].
      * destruct IH as [Hq _]. split; [now repeat constructor|].
        discriminate.
      * destruct IH as (_ & Hr & _). congruence.
      * destruct IH as (_ & Hq & q & pg & o & -> & Hs).
        split; [reflexivity|]. split; [now repeat constructor|].
        exists (Print (page_name out fmt idx)
                :: Save page (page_name out fmt idx) (upper fmt)
                :: Log INFO (saved_message out fmt idx) :: q), pg, o.
        now split.
Qed.

Lemma loop_summary_no_conversion (out fmt : string) (pages : list Image) :
  forall idx,
    Forall (fun e => is_conversion e = false)
           (fst (fst (loop_summary E out fmt idx pages))).
Proof.
  induction pages as [|page rest IH]; intros idx; simpl; [constructor|].
  destruct (rejected fmt); [repeat constructor|].
  destruct (save_outcome E page _ (upper fmt)); [repeat constructor|].
  specialize (IH (idx + 1)).
  destruct (loop_summary E out fmt (idx + 1) rest) as [[evs ws] r].
  simpl in *. now repeat constructor.
Qed.

Lemma loop_summary_all_saved (out fmt : string) (pages : list Image) :
  rejected fmt = false ->
  forall idx,
    all_saved E out fmt idx pages = true ->
    exists evs ws,
      loop_summary E out fmt idx pages = (evs, ws, Ok tt)
      /\ saved_paths evs =
         map (fun k => page_name out fmt (idx + Z.of_nat k))
             (seq 0 (length pages))
      /\ map fst ws = saved_paths evs
      /\ forall k page,
           nth_error pages k = Some page ->
           exists bytes,
             save_outcome E page (page_name out fmt (idx + Z.of_nat k))
               (upper fmt) = inr bytes
             /\ In (page_name out fmt (idx + Z.of_nat k), Put bytes) ws.
Proof.
  intros Hrej. induction pages as [|page rest IH]; intros idx Hall.
  - exists [], []. repeat split. intros [|k] page H; discriminate H.
  - simpl in Hall. simpl loop_summary. rewrite Hrej.
    destruct (save_outcome E page (page_name out fmt idx) (upper fmt))
      as [x|bytes] eqn:Hsave; [discriminate Hall|].
    destruct (IH (idx + 1) Hall) as (evs & ws & -> & Hpaths & Hkeys & Hw).
    eexists _, _. split; [reflexivity|]. simpl. repeat split.
    + rewrite Z.add_0_r. f_equal. rewrite Hpaths, <- seq_shift, map_map.
      apply map_ext. intros k. f_equal. lia.
    + now rewrite Hkeys.
    + intros [|k] pg Hk; simpl in Hk.
      * injection Hk as <-. exists bytes. rewrite Z.add_0_r.
        split; [exact Hsave|now left].
      * destruct (Hw k pg Hk) as (b & Hb & Hin). exists b.
        replace (idx + Z.of_nat (S k)) with (idx + 1 + Z.of_nat k) by lia.
        split; [exact Hb|now right].
Qed.

Lemma page_files_from_one (out fmt : string) (n : nat) :
  map (fun k => page_name out fmt (1 + Z.of_nat k)) (seq 0 n)
  = page_files out fmt n.
Proof.
  unfold page_files. rewrite <- seq_shift, map_map.
  apply map_ext. intros k. f_equal. lia.
Qed.

Lemma page_files_NoDup (out fmt : string) (n : nat) :
  List.NoDup (page_files out fmt n).
Proof.
  unfold page_files. generalize (List.seq_NoDup n 1).
  induction 1 as [|k l Hk _ IH]; simpl; constructor; [|exact IH].
  intros Hin. apply in_map_iff in Hin as (j & Hj & Hin).
  apply page_name_inj in Hj. apply Hk.
  now replace k with j by lia.
Qed.


(** *** Whole runs *)

Ltac project_run :=
  cbv beta iota zeta delta [status history final loop_summary];
  cbn [files dirs].

Lemma files_with_output_dir (out : string) (w : filesystem) :
  files (with_output_dir E out w) = files w.
Proof.
  unfold with_output_dir.
  destruct (is_dir w out); [|destruct (creation_failure E out w)];
    try reflexivity.
  now destruct (is_file w out).
Qed.

Lemma destination_ok_dir (out : string) (w : filesystem) :
  destination_ok E out w = true ->
  out ∈ dirs (with_output_dir E out w) /\ writable E out = true.
Proof.
  unfold destination_ok, with_output_dir, is_dir.
  destruct (bool_decide (out ∈ dirs w)) eqn:Hd.
  - apply bool_decide_eq_true_1 in Hd. now split.
  - destruct (creation_failure E out w); [discriminate|].
    intros Hw. split; [|exact Hw]. simpl. apply elem_of_union. left.
    now apply elem_of_singleton.
Qed.

Lemma run_passed (args : Namespace) (w : filesystem) :
  preconditions_pass E args w = true ->
  run E args w =
  let w1 := with_output_dir E (output_dir args) w in
  let pre := (check_queries E args w ++ conversion_prelude args)%list in
  match rasterize E (pdf_file args) (dpi args) (fmt args)
          (poppler_path args) with
  | inl x => Finished w1 (pre ++ [Traceback x])%list 1
  | inr pages =>
      let '(evs, ws, r) :=
        loop_summary E (output_dir args) (fmt args) 1 pages in
      let w2 := {| files := write_all ws (files w1); dirs := dirs w1 |} in
      match r with
      | Ok _ =>
          Finished w2
            (pre ++ evs ++ [Log INFO "Conversion complete."])%list 0
      | SysExit c => Finished w2 (pre ++ evs)%list c
      | Uncaught x => Finished w2 (pre ++ evs ++ [Traceback x])%list 1
      end
  end.
Proof.
  unfold preconditions_pass. rewrite !andb_true_iff.
  intros [[[Hi Ht] Hs] Hd]. rewrite run_eq. unfold run_summary.
  now rewrite Hi, Ht, Hs, Hd.
Qed.

(** A run whose checks do not all pass: status 1, the [ERROR] line last,
    no rasterization, no page saved, no file changed. *)
Lemma run_failed (args : Namespace) (w : filesystem) :
  preconditions_pass E args w = false ->
  status (run E args w) = 1
  /\ files (final (run E args w)) = files w
  /\ (exists q m,
        history (run E args w) = (q ++ [Log ERROR m])%list
        /\ Forall (fun e => is_error_report e = false /\
                            is_conversion e = false /\ is_save e = false) q).
Proof.
  unfold preconditions_pass. rewrite run_eq. unfold run_summary.
  destruct (pdf2image_installed E); simpl.
  2:{ intros _. repeat split.
      exists [Import_pdf2image], dependency_message.
      split; [reflexivity|repeat constructor]. }
  destruct (toolchain_found E (poppler_path args) w); simpl.
  2:{ intros _. repeat split.
      exists [Import_pdf2image; toolchain_query (poppler_path args)],
        (toolchain_message (poppler_path args)).
      split; [reflexivity|].
      destruct (poppler_path args); repeat constructor. }
  destruct (source_ok E (pdf_file args) w); simpl.
  2:{ intros _. repeat split.
      exists ([Import_pdf2image; toolchain_query (poppler_path args);
               Isfile (pdf_file args)]
              ++ (if is_file w (pdf_file args)
                  then [Access (pdf_file args) R_OK] else []))%list,
        (source_message (pdf_file args) w).
      split; [now rewrite <- app_assoc|].
      destruct (poppler_path args), (is_file w (pdf_file args));
        repeat constructor. }
  destruct (destination_ok E (output_dir args) w); simpl;
    [discriminate|].
  intros _. split; [reflexivity|]. split; [apply files_with_output_dir|].
  exists (check_queries E args w), (destination_message E (output_dir args) w).
  split; [reflexivity|apply check_queries_quiet].
Qed.

(** **** C9 *)

(** C9.  When the rasterization call returns an empty page sequence (and
    the four checks passed), the loop body never runs: the history is the
    checks, the prelude of the conversion and the line "Conversion
    complete.", the status is 0, no page is saved and no file changes.
    This holds for every format, ["jpeg"] included: its rejection is not
    reached and no error is reported. *)
Theorem zero_pages_completes (args : Namespace) (w : filesystem) :
  preconditions_pass E args w = true ->
  rasterize E (pdf_file args) (dpi args) (fmt args) (poppler_path args)
    = inr [] ->
  status (run E args w) = 0
  /\ history (run E args w)
     = (check_queries E args w ++ conversion_prelude args
        ++ [Log INFO "Conversion complete."])%list
  /\ saved_paths (history (run E args w)) = []
  /\ Forall (fun e => is_error_report e = false) (history (run E args w))
  /\ files (final (run E args w)) = files w.
Proof.
  intros Hpass Hras. rewrite (run_passed _ _ Hpass).
  rewrite Hras. project_run. split; [reflexivity|].
  rewrite <- app_assoc. cbn [app]. split; [reflexivity|].
  split.
  - rewrite !saved_paths_app, saved_paths_checks. reflexivity.
  - split; [|apply files_with_output_dir].
    apply Forall_app. split.
    + eapply Forall_impl; [apply check_queries_quiet|]. now intros e [H _].
    + repeat constructor.
Qed.


(** **** C2 *)

(** C2.  A run with a format that is not rejected, whose checks pass,
    whose source rasterizes to the pages [pages] and whose pages are all
    encoded and written without an exception, saves exactly
    [page_1.<fmt>] ... [page_N.<fmt>] (N the number of pages, decimal
    index from 1) in the output directory, in this order and with no
    name twice; each of these files then holds the encoding of its page,
    no other file changes, the output directory exists, and the run ends
    with status 0, its last line being "Conversion complete.". *)
Theorem accepted_format_writes_every_page (args : Namespace)
    (w : filesystem) (pages : list Image) :
  rejected (fmt args) = false ->
  preconditions_pass E args w = true ->
  rasterize E (pdf_file args) (dpi args) (fmt args) (poppler_path args)
    = inr pages ->
  all_saved E (output_dir args) (fmt args) 1 pages = true ->
  let r := run E args w in
  let names := page_files (output_dir args) (fmt args) (length pages) in
  status r = 0
  /\ saved_paths (history r) = names
  /\ length names = length pages
  /\ List.NoDup names
  /\ (forall k page,
        nth_error pages k = Some page ->
        exists bytes,
          save_outcome E page
            (page_name (output_dir args) (fmt args) (Z.of_nat (S k)))
            (upper (fmt args)) = inr bytes
          /\ files (final r)
               !! page_name (output_dir args) (fmt args) (Z.of_nat (S k))
             = Some bytes)
  /\ (forall p, ~ In p names -> files (final r) !! p = files w !! p)
  /\ output_dir args ∈ dirs (final r)
  /\ (exists pre,
        history r = (pre ++ [Log INFO "Conversion complete."])%list).
Proof.
  intros Hrej Hpass Hras Hall r names. subst r names.
  rewrite (run_passed _ _ Hpass). rewrite Hras.
  destruct (loop_summary_all_saved (output_dir args) (fmt args) pages
              Hrej 1 Hall) as (evs & ws & Hloop & Hpaths & Hkeys & Hw).
  rewrite page_files_from_one in Hpaths.
  cbv zeta. rewrite Hloop. cbv beta iota zeta delta [status history final].
  cbn [files dirs].
  assert (Hdst : destination_ok E (output_dir args) w = true).
  { unfold preconditions_pass in Hpass.
    now apply andb_true_iff in Hpass as [_ Hd]. }
  split; [reflexivity|]. split.
  { rewrite !saved_paths_app, saved_paths_checks, Hpaths. simpl.
    now rewrite app_nil_r. }
  split; [unfold page_files; now rewrite length_map, length_seq|].
  split; [apply page_files_NoDup|].
  split.
  { intros k page Hk. destruct (Hw k page Hk) as (bytes & Hb & Hin).
    replace (1 + Z.of_nat k) with (Z.of_nat (S k)) in Hb, Hin by lia.
    exists bytes. split; [exact Hb|].
    apply write_all_written; [|exact Hin].
    rewrite Hkeys, Hpaths. apply page_files_NoDup. }
  split.
  { intros p Hp. rewrite write_all_untouched.
    - now rewrite files_with_output_dir.
    - now rewrite Hkeys, Hpaths. }
  split; [now apply destination_ok_dir|].
  eexists. rewrite app_assoc. reflexivity.
Qed.


(** **** C3 *)

Lemma quiet_checks_and_prelude (args : Namespace) (w : filesystem) :
  Forall (fun e : event Image => is_error_report e = false)
         (check_queries E args w ++ conversion_prelude args).
Proof.
  apply Forall_app. split.
  - eapply Forall_impl; [apply check_queries_quiet|]. now intros e [H _].
  - repeat constructor.
Qed.

(** Every history is a quiet part followed by at most one report, and a
    report comes with status 1. *)
Lemma run_shape (args : Namespace) (w : filesystem) :
  exists q tail,
    history (run E args w) = (q ++ tail)%list
    /\ Forall (fun e => is_error_report e = false) q
    /\ ((tail = [] /\ status (run E args w) = 0)
        \/ (exists e0, tail = [e0] /\ is_error_report e0 = true
                       /\ status (run E args w) = 1)).
Proof.
  destruct (preconditions_pass E args w) eqn:Hpass.
  - rewrite (run_passed _ _ Hpass). cbv zeta.
    pose proof (quiet_checks_and_prelude args w) as Hpre.
    destruct (rasterize E _ _ _ _) as [x|pages].
    { eexists _, [Traceback x]. split; [reflexivity|].
      split; [exact Hpre|]. right. now exists (Traceback x). }
    pose proof (loop_summary_events (output_dir args) (fmt args) pages 1)
      as Hev.
    destruct (loop_summary E _ _ 1 pages) as [[evs ws] [[]|c|x]];
      cbv beta iota zeta delta [status history final].
    + destruct Hev as [Hq _].
      exists ((check_queries E args w ++ conversion_prelude args)
              ++ evs ++ [Log INFO "Conversion complete."])%list, [].
      split; [now rewrite app_nil_r|]. split; [|now left].
      apply Forall_app. split; [exact Hpre|].
      apply Forall_app. split; [exact Hq|repeat constructor].
    + destruct Hev as (-> & _ & _ & ->).
      exists ((check_queries E args w ++ conversion_prelude args)
              ++ [Print (page_name (output_dir args) (fmt args) 1)])%list,
        [Log ERROR jpeg_message].
      split; [now rewrite <- !app_assoc|]. split.
      * apply Forall_app. split; [exact Hpre|repeat constructor].
      * right. now exists (Log ERROR jpeg_message).
    + destruct Hev as (_ & Hq & _).
      exists ((check_queries E args w ++ conversion_prelude args)
              ++ evs)%list, [Traceback x].
      split; [now rewrite <- !app_assoc|]. split.
      * apply Forall_app. now split.
      * right. now exists (Traceback x).
  - destruct (run_failed _ _ Hpass) as (Hst & _ & q & m & Hh & Hq).
    exists q, [Log ERROR m]. split; [exact Hh|]. split.
    + eapply Forall_impl; [exact Hq|]. now intros e [H _].
    + right. now exists (Log ERROR m).
Qed.

Lemma loop_summary_save_raises (out fmt : string) (page : Image)
    (rest : list Image) (x : exn) (done : list Image) :
  rejected fmt = false ->
  forall idx,
    all_saved E out fmt idx done = true ->
    save_outcome E page (page_name out fmt (idx + Z.of_nat (length done)))
      (upper fmt) = inl x ->
    exists q ws,
      loop_summary E out fmt idx (done ++ page :: rest)
      = ((q ++ [Save page
                  (page_name out fmt (idx + Z.of_nat (length done)))
                  (upper fmt)])%list, ws, Uncaught x)
      /\ saved_paths q
         = map (fun k => page_name out fmt (idx + Z.of_nat k))
               (seq 0 (length done))
      /\ Forall (fun e => is_error_report e = false) q.
Proof.
  intros Hrej. induction done as [|d done IH]; intros idx Hall Hx.
  - simpl in Hx. rewrite Z.add_0_r in Hx. simpl. rewrite Hrej, Hx.
    rewrite Z.add_0_r.
    eexists [Print (page_name out fmt idx)], _.
    split; [reflexivity|]. split; [reflexivity|repeat constructor].
  - simpl in Hall. simpl loop_summary. rewrite Hrej.
    destruct (save_outcome E d (page_name out fmt idx) (upper fmt))
      as [y|bytes]; [discriminate Hall|].
    replace (idx + Z.of_nat (length (d :: done)))
      with (idx + 1 + Z.of_nat (length done)) in * by (simpl length; lia).
    destruct (IH (idx + 1) Hall Hx) as (q & ws & -> & Hq & Hquiet).
    eexists (_ :: _ :: _ :: q), _. split; [reflexivity|].
    simpl. rewrite Z.add_0_r, Hq. split; [|now repeat constructor].
    f_equal. rewrite <- seq_shift, map_map. apply map_ext.
    intros k. f_equal. lia.
Qed.

(** The script around a parsed command line: [argparse] answers, and the
    rest of [main] runs on the namespace or the process is over. *)
Lemma process_eq (argv : list string) (w : filesystem) :
  process E argv w
  = match parse_args E parser argv with
    | Parsed args => run E args w
    | Help_requested text => Finished w [Help_message text] 0
    | Rejected_command_line text => Finished w [Usage_message text] 2
    end.
Proof.
  unfold process, run, interpreter, main, parse_arguments, setup_logging,
    logging_basicConfig, bind, ret, emit, sys_exit, fresh. simpl.
  destruct (parse_args E parser argv); reflexivity.
Qed.

(** The last event of a run that fails is an [ERROR] line or a
    traceback, and what precedes it reports nothing. *)
Lemma run_ends (args : Namespace) (w : filesystem) :
  status (run E args w) = 0
  \/ (status (run E args w) = 1
      /\ exists q e0,
           history (run E args w) = (q ++ [e0])%list
           /\ Forall (fun e => is_error_report e = false) q
           /\ ((exists m, e0 = Log ERROR m) \/ (exists x, e0 = Traceback x))).
Proof.
  destruct (preconditions_pass E args w) eqn:Hpass.
  - rewrite (run_passed _ _ Hpass). cbv zeta.
    pose proof (quiet_checks_and_prelude args w) as Hpre.
    destruct (rasterize E _ _ _ _) as [x|pages].
    { right. split; [reflexivity|]. eexists _, (Traceback x).
      split; [reflexivity|]. split; [exact Hpre|]. right. now exists x. }
    pose proof (loop_summary_events (output_dir args) (fmt args) pages 1)
      as Hev.
    destruct (loop_summary E _ _ 1 pages) as [[evs ws] [[]|c|x]];
      cbv beta iota zeta delta [status history final].
    + now left.
    + destruct Hev as (-> & _ & _ & ->). right. split; [reflexivity|].
      exists ((check_queries E args w ++ conversion_prelude args)
              ++ [Print (page_name (output_dir args) (fmt args) 1)])%list,
        (Log ERROR jpeg_message).
      split; [now rewrite <- !app_assoc|]. split.
      * apply Forall_app. split; [exact Hpre|repeat constructor].
      * left. now exists jpeg_message.
    + destruct Hev as (_ & Hq & _). right. split; [reflexivity|].
      exists ((check_queries E args w ++ conversion_prelude args)
              ++ evs)%list, (Traceback x).
      split; [now rewrite <- !app_assoc|]. split.
      * apply Forall_app. now split.
      * right. now exists x.
  - destruct (run_failed _ _ Hpass) as (Hst & _ & q & m & Hh & Hq).
    right. split; [exact Hst|]. exists q, (Log ERROR m).
    split; [exact Hh|]. split.
    + eapply Forall_impl; [exact Hq|]. now intros e [H _].
    + left. now exists m.
Qed.

(** A traceback is printed only for an exception of the rasterization
    call or of a [page.save]. *)
Lemma run_traceback (args : Namespace) (w : filesystem)
    (pre : list (event Image)) (x : exn) :
  history (run E args w) = (pre ++ [Traceback x])%list ->
  preconditions_pass E args w = true
  /\ (rasterize E (pdf_file args) (dpi args) (fmt args) (poppler_path args)
      = inl x
      \/ exists q page o,
           pre = (q ++ [Save page o (upper (fmt args))])%list
           /\ save_outcome E page o (upper (fmt args)) = inl x).
Proof.
  destruct (preconditions_pass E args w) eqn:Hpass.
  - rewrite (run_passed _ _ Hpass). cbv zeta. intros Hh.
    split; [reflexivity|].
    destruct (rasterize E _ _ _ _) as [x0|pages].
    { cbn [history] in Hh. apply app_inj_tail in Hh as [_ [= ->]].
      now left. }
    pose proof (loop_summary_events (output_dir args) (fmt args) pages 1)
      as Hev.
    destruct (loop_summary E _ _ 1 pages) as [[evs ws] [[]|c|x0]];
      cbn [history] in Hh.
    + rewrite !app_assoc in Hh. apply app_inj_tail in Hh as [_ Hh].
      discriminate Hh.
    + destruct Hev as (_ & _ & _ & ->).
      change [Print (page_name (output_dir args) (fmt args) 1);
              Log ERROR jpeg_message]
        with ([Print (page_name (output_dir args) (fmt args) 1)]
              ++ [Log ERROR jpeg_message : event Image])%list in Hh.
      rewrite !app_assoc in Hh. apply app_inj_tail in Hh as [_ Hh].
      discriminate Hh.
    + destruct Hev as (_ & _ & q & page & o & -> & Hx).
      rewrite !app_assoc in Hh. apply app_inj_tail in Hh as [Hpre [= ->]].
      right. eexists _, page, o. split; [symmetry; exact Hpre|exact Hx].
  - destruct (run_failed _ _ Hpass) as (_ & _ & q & m & -> & _).
    intros Hh. apply app_inj_tail in Hh as [_ Hh]. discriminate Hh.
Qed.

(** C3.  Every error ends the process, and nothing is recovered or
    retried: a process with a non-zero status has the report of its error
    as its last event, nothing follows a report, and what precedes it
    reports nothing.  The report is not always a logged line.  An error
    that the script detects (a missing library or toolchain, an unreadable
    source, an unwritable destination, the rejected format) is logged as
    an [ERROR] line where it is detected, and the status is 1.  A command
    line that [argparse] refuses ends the process with its usage message
    and status 2.  An exception raised by the rasterization call or by the
    saving of a page is not caught and not logged: the interpreter prints
    its traceback right after the call that raised it, and the status
    is 1; a traceback has no other origin. *)
Theorem errors_end_the_process (argv : list string) (w : filesystem) :
  let r := process E argv w in
  (status r <> 0 ->
   exists pre e,
     history r = (pre ++ [e])%list
     /\ Forall (fun e' => is_error_report e' = false) pre
     /\ ((exists m, e = Log ERROR m /\ status r = 1)
         \/ (exists x, e = Traceback x /\ status r = 1)
         \/ (exists t, e = Usage_message t /\ status r = 2 /\ pre = [])))
  /\ (forall pre e post,
        history r = (pre ++ e :: post)%list ->
        is_error_report e = true ->
        post = [] /\ status r <> 0)
  /\ (forall args x,
        parse_args E parser argv = Parsed args ->
        preconditions_pass E args w = true ->
        rasterize E (pdf_file args) (dpi args) (fmt args)
          (poppler_path args) = inl x ->
        history r = (check_queries E args w ++ conversion_prelude args
                     ++ [Traceback x])%list
        /\ status r = 1
        /\ files (final r) = files w)
  /\ (forall args done page rest x,
        parse_args E parser argv = Parsed args ->
        preconditions_pass E args w = true ->
        rejected (fmt args) = false ->
        rasterize E (pdf_file args) (dpi args) (fmt args)
          (poppler_path args) = inr (done ++ page :: rest)%list ->
        all_saved E (output_dir args) (fmt args) 1 done = true ->
        save_outcome E page
          (page_name (output_dir args) (fmt args)
             (Z.of_nat (S (length done))))
          (upper (fmt args)) = inl x ->
        (exists pre,
           history r
           = (pre ++ [Save page
                        (page_name (output_dir args) (fmt args)
                           (Z.of_nat (S (length done))))
                        (upper (fmt args));
                      Traceback x])%list
           /\ saved_paths pre
              = page_files (output_dir args) (fmt args) (length done)
           /\ Forall (fun e' => is_error_report e' = false) pre)
        /\ status r = 1)
  /\ (forall pre x,
        history r = (pre ++ [Traceback x])%list ->
        exists args,
          parse_args E parser argv = Parsed args
          /\ preconditions_pass E args w = true
          /\ (rasterize E (pdf_file args) (dpi args) (fmt args)
                (poppler_path args) = inl x
              \/ exists q page o,
                   pre = (q ++ [Save page o (upper (fmt args))])%list
                   /\ save_outcome E page o (upper (fmt args)) = inl x)).
Proof.
  intros r. subst r. rewrite process_eq.
  split; [|split; [|split; [|split]]].
  - destruct (parse_args E parser argv) as [args|t|t]; cbn [status history].
    + intros Hst.
      destruct (run_ends args w) as [H0|(H1 & q & e0 & Hh & Hq & Hk)];
        [contradiction|].
      exists q, e0. split; [exact Hh|]. split; [exact Hq|].
      destruct Hk as [[m ->]|[x ->]]; [left; now exists m|].
      right. left. now exists x.
    + intros H. now contradiction H.
    + intros _. exists [], (Usage_message t). split; [reflexivity|].
      split; [constructor|]. right. right. now exists t.
  - intros pre e post Heq He.
    destruct (parse_args E parser argv) as [args|t|t];
      cbn [status history] in *.
    + destruct (run_shape args w) as (q & tail & Hh & Hq & Htail).
      rewrite Hh in Heq.
      assert (Ht : tail = [] \/ exists e0, tail = [e0]).
      { destruct Htail as [[-> _]|(e0 & -> & _)]; [now left|right; eauto]. }
      destruct (report_is_last q tail Hq Ht pre e post Heq He) as [-> Hte].
      split; [reflexivity|].
      destruct Htail as [[-> _]|(e0 & _ & _ & H1)]; [discriminate|].
      rewrite H1. discriminate.
    + destruct pre as [|a pre]; simpl in Heq.
      * injection Heq as <- _. discriminate He.
      * injection Heq as _ Heq. destruct pre; discriminate Heq.
    + destruct pre as [|a pre]; simpl in Heq.
      * injection Heq as _ <-. split; [reflexivity|discriminate].
      * injection Heq as _ Heq. destruct pre; discriminate Heq.
  - intros args x Hparse Hpass Hras. rewrite Hparse.
    rewrite (run_passed _ _ Hpass). cbv zeta.
    rewrite Hras. cbv beta iota zeta delta [status history final].
    split; [now rewrite <- app_assoc|]. split; [reflexivity|].
    apply files_with_output_dir.
  - intros args done page rest x Hparse Hpass Hrej Hras Hall Hx.
    rewrite Hparse.
    replace (Z.of_nat (S (length done)))
      with (1 + Z.of_nat (length done)) in * by lia.
    destruct (loop_summary_save_raises (output_dir args) (fmt args) page
                rest x done Hrej 1 Hall Hx) as (q' & ws & Hloop & Hq' & Hqt).
    rewrite (run_passed _ _ Hpass). cbv zeta. rewrite Hras, Hloop.
    cbv beta iota zeta delta [status history final].
    split; [|reflexivity].
    exists ((check_queries E args w ++ conversion_prelude args) ++ q')%list.
    split; [now rewrite <- !app_assoc|]. split.
    + rewrite !saved_paths_app, saved_paths_checks, Hq'. simpl.
      apply page_files_from_one.
    + apply Forall_app. split; [apply quiet_checks_and_prelude|exact Hqt].
  - intros pre x Hh.
    destruct (parse_args E parser argv) as [args|t|t]; cbn [history] in Hh.
    + exists args. split; [reflexivity|]. now apply run_traceback.
    + destruct pre as [|a pre]; [discriminate Hh|].
      injection Hh as _ Hh. now destruct pre.
    + destruct pre as [|a pre]; [discriminate Hh|].
      injection Hh as _ Hh. now destruct pre.
Qed.

(** **** C4 *)

(** C4.  The four checks run in one fixed order: the import of
    [pdf2image]; the toolchain binary, asked for in the supplied
    directory when there is one and on the search path otherwise; the
    source file, its existence and then its readability; the output
    directory, its existence, its creation when absent and then its
    writability.  The first check that fails logs one [ERROR] line, which
    is the last event of the run, and ends the process with status 1: no
    later check is made and the rasterizer is not called.  When all four
    pass, the conversion starts after them. *)
Theorem checks_run_in_order (args : Namespace) (w : filesystem) :
  let r := run E args w in
  let pp := poppler_path args in
  let pdf := pdf_file args in
  let out := output_dir args in
  let tool : event Image := toolchain_query pp in
  (tool = match pp with
          | Some d => Isfile (os_path_join d "pdftoppm")
          | None => Which "pdftoppm"
          end)
  /\ (pdf2image_installed E = false ->
      history r = [Import_pdf2image; Log ERROR dependency_message]
      /\ status r = 1)
  /\ (pdf2image_installed E = true ->
      toolchain_found E pp w = false ->
      history r = [Import_pdf2image; tool; Log ERROR (toolchain_message pp)]
      /\ status r = 1)
  /\ (pdf2image_installed E = true ->
      toolchain_found E pp w = true ->
      source_ok E pdf w = false ->
      history r
      = ([Import_pdf2image; tool; Isfile pdf]
         ++ (if is_file w pdf then [Access pdf R_OK] else [])
         ++ [Log ERROR (source_message pdf w)])%list
      /\ status r = 1)
  /\ (pdf2image_installed E = true ->
      toolchain_found E pp w = true ->
      source_ok E pdf w = true ->
      destination_ok E out w = false ->
      history r
      = ([Import_pdf2image; tool; Isfile pdf; Access pdf R_OK]
         ++ destination_queries E out w
         ++ [Log ERROR (destination_message E out w)])%list
      /\ status r = 1)
  /\ (pdf2image_installed E = true ->
      toolchain_found E pp w = true ->
      source_ok E pdf w = true ->
      destination_ok E out w = true ->
      exists rest,
        history r
        = ([Import_pdf2image; tool; Isfile pdf; Access pdf R_OK]
           ++ destination_queries E out w
           ++ conversion_prelude args ++ rest)%list)
  /\ (preconditions_pass E args w = false ->
      status r = 1
      /\ Forall (fun e => is_conversion e = false /\ is_save e = false)
                (history r)).
Proof.
  intros r pp pdf out tool. subst r pp pdf out tool.
  split; [reflexivity|].
  split.
  { intros Hi. rewrite run_eq. unfold run_summary. rewrite Hi. now split. }
  split.
  { intros Hi Ht. rewrite run_eq. unfold run_summary. rewrite Hi, Ht.
    now split. }
  split.
  { intros Hi Ht Hs. rewrite run_eq. unfold run_summary.
    rewrite Hi, Ht, Hs. now split. }
  split.
  { intros Hi Ht Hs Hd. rewrite run_eq. unfold run_summary.
    rewrite Hi, Ht, Hs, Hd. cbn [negb]. cbv iota. unfold check_queries.
    split; [|reflexivity]. cbn [history]. now rewrite <- app_assoc. }
  split.
  { intros Hi Ht Hs Hd.
    rewrite run_passed
      by (unfold preconditions_pass; now rewrite Hi, Ht, Hs, Hd).
    cbv zeta. unfold check_queries.
    destruct (rasterize E _ _ _ _) as [x|pages].
    - exists [Traceback x]. cbn [history]. now rewrite <- !app_assoc.
    - destruct (loop_summary E _ _ 1 pages) as [[evs ws] [[]|c|x]];
        cbn [history]; eexists; rewrite <- !app_assoc;
        cbn [app]; reflexivity. }
  intros Hpass.
  destruct (run_failed _ _ Hpass) as (Hst & _ & q & m & -> & Hq).
  split; [exact Hst|]. apply Forall_app. split.
  - eapply Forall_impl; [exact Hq|]. now intros e (_ & H1 & H2).
  - repeat constructor.
Qed.


(** **** C5 *)

Lemma rejected_iff (f : string) : rejected f = true <-> lower f = "jpeg".
Proof. unfold rejected. apply String.eqb_eq. Qed.

Lemma loop_summary_saves (out fmt : string) (pages : list Image) :
  forall idx page o F,
    In (Save page o F) (fst (fst (loop_summary E out fmt idx pages))) ->
    rejected fmt = false /\ F = upper fmt.
Proof.
  induction pages as [|pg rest IH]; intros idx page o F; simpl; [tauto|].
  destruct (rejected fmt) eqn:Hrej.
  { simpl. intros [H|[H|[]]]; discriminate H. }
  destruct (save_outcome E pg _ (upper fmt)).
  { simpl. intros [H|[H|[]]]; [discriminate H|].
    injection H as _ _ <-. now split. }
  specialize (IH (idx + 1) page o F).
  destruct (loop_summary E out fmt (idx + 1) rest) as [[evs ws] r].
  simpl in *. intros [H|[H|[H|H]]]; try discriminate H.
  - injection H as _ _ <-. now split.
  - now apply IH.
Qed.

Lemma saves_of_run (args : Namespace) (w : filesystem) (page : Image)
    (o F : string) :
  In (Save page o F) (history (run E args w)) ->
  preconditions_pass E args w = true
  /\ exists pages,
       rasterize E (pdf_file args) (dpi args) (fmt args)
         (poppler_path args) = inr pages
       /\ In (Save page o F)
             (fst (fst (loop_summary E (output_dir args) (fmt args) 1
                          pages))).
Proof.
  intros Hin. destruct (preconditions_pass E args w) eqn:Hpass.
  - split; [reflexivity|]. rewrite (run_passed _ _ Hpass) in Hin.
    cbv zeta in Hin.
    assert (Hpre : ~ In (Save page o F)
                     (check_queries E args w ++ conversion_prelude args)).
    { intros H. apply in_app_or in H as [H|H].
      - pose proof (check_queries_quiet args w) as Hq.
        rewrite List.Forall_forall in Hq. now destruct (Hq _ H) as (_ & _ & ?).
      - pose proof (conversion_prelude_quiet args) as Hq.
        rewrite List.Forall_forall in Hq. now destruct (Hq _ H) as (_ & ?). }
    destruct (rasterize E _ _ _ _) as [x|pages].
    + cbn [history] in Hin. apply in_app_or in Hin as [H|[H|[]]];
        [contradiction|discriminate H].
    + exists pages. split; [reflexivity|].
      destruct (loop_summary E _ _ 1 pages) as [[evs ws] [[]|c|x]];
        cbn [history fst] in *.
      * apply in_app_or in Hin as [H|H]; [contradiction|].
        apply in_app_or in H as [H|[H|[]]]; [exact H|discriminate H].
      * apply in_app_or in Hin as [H|H]; [contradiction|exact H].
      * apply in_app_or in Hin as [H|H]; [contradiction|].
        apply in_app_or in H as [H|[H|[]]]; [exact H|discriminate H].
  - destruct (run_failed _ _ Hpass) as (_ & _ & q & m & Hh & Hq).
    rewrite Hh in Hin. apply in_app_or in Hin as [H|[H|[]]];
      [|discriminate H].
    rewrite List.Forall_forall in Hq. now destruct (Hq _ H) as (_ & _ & ?).
Qed.

(** C5.  The format ["jpeg"] never reaches the save step: whenever a run
    calls [page.save], the lowercased format is not ["jpeg"] (and the
    call is given the uppercased format).  The rejection is made inside
    the loop, in the iteration and before its save: with a rejected
    format and checks that pass, the rasterizer is called first, then
    nothing but "Conversion complete." follows when there is no page,
    and the first iteration prints its destination and rejects the
    format when there is one. *)
Theorem jpeg_never_reaches_save (args : Namespace) (w : filesystem) :
  let r := run E args w in
  (forall page o F,
     In (Save page o F) (history r) ->
     lower (fmt args) <> "jpeg" /\ F = upper (fmt args))
  /\ (forall pages,
        lower (fmt args) = "jpeg" ->
        preconditions_pass E args w = true ->
        rasterize E (pdf_file args) (dpi args) (fmt args)
          (poppler_path args) = inr pages ->
        history r
        = (check_queries E args w ++ conversion_prelude args
           ++ match pages with
              | [] => [Log INFO "Conversion complete."]
              | _ :: _ =>
                  [Print (page_name (output_dir args) (fmt args) 1);
                   Log ERROR jpeg_message]
              end)%list).
Proof.
  intros r. subst r. split.
  - intros page o F Hin.
    destruct (saves_of_run _ _ _ _ _ Hin) as (_ & pages & _ & Hloop).
    apply loop_summary_saves in Hloop as [Hrej ->].
    split; [|reflexivity]. intros Hl. apply rejected_iff in Hl. congruence.
  - intros pages Hl Hpass Hras. apply rejected_iff in Hl.
    rewrite (run_passed _ _ Hpass). cbv zeta. rewrite Hras.
    rewrite (loop_summary_rejected _ _ 1 pages Hl).
    destruct pages; cbn [history]; rewrite <- ?app_assoc; reflexivity.
Qed.

(** **** C6 *)

(** C6.  When the source path is not a regular file, or is not readable,
    the run ends with status 1 and an [ERROR] line as its last event,
    without calling the rasterizer, saving a page or changing a file; and
    when the two dependency checks pass, that line is the one about the
    source file: it "does not exist" or "is not readable". *)
Theorem unreadable_source_fails_before_rasterization (args : Namespace)
    (w : filesystem) :
  source_ok E (pdf_file args) w = false ->
  let r := run E args w in
  let pdf := pdf_file args in
  status r = 1
  /\ Forall (fun e => is_conversion e = false /\ is_save e = false)
            (history r)
  /\ (exists pre m, history r = (pre ++ [Log ERROR m])%list)
  /\ files (final r) = files w
  /\ (pdf2image_installed E = true ->
      toolchain_found E (poppler_path args) w = true ->
      exists pre,
        history r
        = (pre ++ [Log ERROR
                     (if is_file w pdf
                      then "PDF file '" ++ pdf
                           ++ "' is not readable. Check permissions."
                      else "PDF file '" ++ pdf ++ "' does not exist.")])%list).
Proof.
  intros Hsrc r pdf. subst r pdf.
  assert (Hpass : preconditions_pass E args w = false).
  { unfold preconditions_pass. rewrite Hsrc.
    now rewrite andb_false_r. }
  destruct (run_failed _ _ Hpass) as (Hst & Hfiles & q & m & Hh & Hq).
  split; [exact Hst|]. split.
  { rewrite Hh. apply Forall_app. split; [|repeat constructor].
    eapply Forall_impl; [exact Hq|]. now intros e (_ & H1 & H2). }
  split; [now exists q, m|]. split; [exact Hfiles|].
  intros Hi Ht. rewrite run_eq. unfold run_summary.
  rewrite Hi, Ht, Hsrc. cbn [negb history]. cbv iota.
  eexists. rewrite app_assoc. reflexivity.
Qed.


(** **** C7 *)

Lemma save_after_prefix (l1 l2 pre post : list (event Image))
    (page : Image) (o F : string) :
  Forall (fun e => is_save e = false) l1 ->
  (l1 ++ l2)%list = (pre ++ Save page o F :: post)%list ->
  exists pre', pre = (l1 ++ pre')%list.
Proof.
  intros Hq. revert pre. induction Hq as [|a l1 Ha _ IH]; intros pre Heq.
  - now exists pre.
  - destruct pre as [|b pre]; simpl in Heq.
    + injection Heq as -> _. discriminate Ha.
    + injection Heq as -> Heq. destruct (IH _ Heq) as [pre' ->].
      now exists pre'.
Qed.

Lemma dirs_of_passed_run (args : Namespace) (w : filesystem) :
  preconditions_pass E args w = true ->
  dirs (final (run E args w))
  = dirs (with_output_dir E (output_dir args) w).
Proof.
  intros Hpass. rewrite (run_passed _ _ Hpass). cbv zeta.
  destruct (rasterize E _ _ _ _) as [x|pages]; [reflexivity|].
  now destruct (loop_summary E _ _ 1 pages) as [[evs ws] [[]|c|x]].
Qed.

Lemma history_of_passed_run (args : Namespace) (w : filesystem) :
  preconditions_pass E args w = true ->
  exists rest,
    history (run E args w) = (check_queries E args w ++ rest)%list.
Proof.
  intros Hpass. rewrite (run_passed _ _ Hpass). cbv zeta.
  destruct (rasterize E _ _ _ _) as [x|pages].
  - eexists. cbn [history]. rewrite <- app_assoc. reflexivity.
  - destruct (loop_summary E _ _ 1 pages) as [[evs ws] [[]|c|x]];
      eexists; cbn [history]; rewrite <- app_assoc; reflexivity.
Qed.

Lemma destination_ok_false (out : string) (w : filesystem) :
  destination_ok E out w = false <->
  (is_dir w out = true /\ writable E out = false)
  \/ (is_dir w out = false
      /\ (creation_failure E out w <> None \/ writable E out = false)).
Proof.
  unfold destination_ok.
  destruct (is_dir w out), (creation_failure E out w), (writable E out);
    intuition (discriminate || congruence).
Qed.

Lemma absent_directory_is_created (args : Namespace) (w : filesystem) :
  pdf2image_installed E = true ->
  toolchain_found E (poppler_path args) w = true ->
  source_ok E (pdf_file args) w = true ->
  is_dir w (output_dir args) = false ->
  creation_failure E (output_dir args) w = None ->
  output_dir args ∈ dirs (final (run E args w))
  /\ exists post,
       history (run E args w)
       = ([Import_pdf2image; toolchain_query (poppler_path args);
           Isfile (pdf_file args); Access (pdf_file args) R_OK;
           Isdir (output_dir args); Makedirs (output_dir args);
           Access (output_dir args) W_OK] ++ post)%list.
Proof.
  intros Hi Ht Hs Hdir Hc.
  assert (Hw1 : output_dir args
                ∈ dirs (with_output_dir E (output_dir args) w)).
  { unfold with_output_dir. rewrite Hdir, Hc. cbn [dirs].
    apply elem_of_union. left. now apply elem_of_singleton. }
  assert (Hq : check_queries E args w
               = [Import_pdf2image; toolchain_query (poppler_path args);
                  Isfile (pdf_file args); Access (pdf_file args) R_OK;
                  Isdir (output_dir args); Makedirs (output_dir args);
                  Access (output_dir args) W_OK]).
  { unfold check_queries, destination_queries. now rewrite Hdir, Hc. }
  assert (Hok : destination_ok E (output_dir args) w
                = writable E (output_dir args)).
  { unfold destination_ok. now rewrite Hdir, Hc. }
  rewrite <- Hq.
  destruct (writable E (output_dir args)) eqn:Hw.
  - assert (Hpass : preconditions_pass E args w = true).
    { unfold preconditions_pass. now rewrite Hi, Ht, Hs, Hok. }
    split; [now rewrite (dirs_of_passed_run _ _ Hpass)|].
    apply (history_of_passed_run _ _ Hpass).
  - rewrite run_eq. unfold run_summary. rewrite Hi, Ht, Hs, Hok.
    cbn [negb]. cbv iota. cbn [final history].
    split; [exact Hw1|]. now eexists.
Qed.

(** C7.  If the output directory does not exist and can be created, the
    run creates it: when the three earlier checks pass, the history
    starts with their queries followed by [os.path.isdir],
    [os.makedirs] and [os.access] on the directory, and the path is a
    directory at the end of the run.  A page is saved only when the
    directory exists: if it was absent at the start, [os.makedirs] is
    called on it before the first [page.save].  If the directory cannot
    be created (the path is a regular file, or [os.makedirs] fails) or
    is not writable, the run ends with status 1, saves no page and
    changes no file; when the three earlier checks pass, its last event
    is the [ERROR] line about the output directory. *)
Theorem output_directory_created_or_fatal (args : Namespace)
    (w : filesystem) :
  let r := run E args w in
  let out := output_dir args in
  (pdf2image_installed E = true ->
   toolchain_found E (poppler_path args) w = true ->
   source_ok E (pdf_file args) w = true ->
   is_dir w out = false ->
   creation_failure E out w = None ->
   out ∈ dirs (final r)
   /\ exists post,
        history r
        = ([Import_pdf2image; toolchain_query (poppler_path args);
            Isfile (pdf_file args); Access (pdf_file args) R_OK;
            Isdir out; Makedirs out; Access out W_OK] ++ post)%list)
  /\ (forall pre page o F post,
       history r = (pre ++ Save page o F :: post)%list ->
       out ∈ dirs (final r)
       /\ (is_dir w out = false -> In (Makedirs out) pre))
  /\ (destination_ok E out w = false <->
      (is_dir w out = true /\ writable E out = false)
      \/ (is_dir w out = false
          /\ (creation_failure E out w <> None
              \/ writable E out = false)))
  /\ (destination_ok E out w = false ->
      status r = 1
      /\ files (final r) = files w
      /\ saved_paths (history r) = []
      /\ (pdf2image_installed E = true ->
          toolchain_found E (poppler_path args) w = true ->
          source_ok E (pdf_file args) w = true ->
          history r
          = (check_queries E args w
             ++ [Log ERROR (destination_message E out w)])%list)).
Proof.
  intros r out. subst r out. split; [|split; [|split]].
  - apply absent_directory_is_created.
  - intros pre page o F post Heq.
    assert (Hin : In (Save page o F) (history (run E args w))).
    { rewrite Heq. apply in_or_app. right. now left. }
    apply saves_of_run in Hin as (Hpass & _).
    assert (Hdst : destination_ok E (output_dir args) w = true).
    { unfold preconditions_pass in Hpass.
      now apply andb_true_iff in Hpass as [_ Hd]. }
    split.
    + rewrite (dirs_of_passed_run _ _ Hpass).
      now apply destination_ok_dir.
    + intros Hdir.
      destruct (history_of_passed_run _ _ Hpass) as [rest Hh].
      rewrite Hh in Heq.
      apply save_after_prefix in Heq as [pre' ->].
      2:{ eapply Forall_impl; [apply check_queries_quiet|].
          now intros e (_ & _ & H). }
      apply in_or_app. left. unfold check_queries. apply in_or_app. right.
      unfold destination_queries, destination_ok in *. rewrite Hdir in *.
      destruct (creation_failure E (output_dir args) w);
        [discriminate Hdst|]. right. now left.
  - apply destination_ok_false.
  - intros Hdst.
    assert (Hpass : preconditions_pass E args w = false).
    { unfold preconditions_pass. rewrite Hdst. apply andb_false_r. }
    destruct (run_failed _ _ Hpass) as (Hst & Hfiles & q & m & Hh & Hq).
    split; [exact Hst|]. split; [exact Hfiles|]. split.
    + rewrite Hh, saved_paths_app. simpl. rewrite app_nil_r.
      apply saved_paths_none. eapply Forall_impl; [exact Hq|].
      now intros e (_ & _ & H).
    + intros Hi Ht Hs. rewrite run_eq. unfold run_summary.
      now rewrite Hi, Ht, Hs, Hdst.
Qed.

(** **** C10 *)

(** C10.  The rejection compares the lowercased format with the literal
    ["jpeg"].  In a run whose checks pass and whose source has at least
    one page, every casing of ["jpeg"] is rejected in the first
    iteration: the destination is printed, the [ERROR] line is logged,
    the status is 1, no page is saved and no file changes.  Every casing
    of ["jpg"] is not rejected: the first page is handed to [page.save]
    with its destination and the format ["JPG"], and the rejection line
    appears nowhere in the history. *)
Theorem rejection_is_lowercased_jpeg (args : Namespace) (w : filesystem)
    (page : Image) (rest : list Image) :
  preconditions_pass E args w = true ->
  rasterize E (pdf_file args) (dpi args) (fmt args) (poppler_path args)
    = inr (page :: rest) ->
  let r := run E args w in
  let first := page_name (output_dir args) (fmt args) 1 in
  (forall f, rejected f = true <-> lower f = "jpeg")
  /\ (casing_of "jpeg" (fmt args) = true ->
      status r = 1
      /\ history r
         = (check_queries E args w ++ conversion_prelude args
            ++ [Print first; Log ERROR jpeg_message])%list
      /\ saved_paths (history r) = []
      /\ files (final r) = files w)
  /\ (casing_of "jpg" (fmt args) = true ->
      (exists post,
         history r
         = (check_queries E args w ++ conversion_prelude args
            ++ Print first :: Save page first "JPG" :: post)%list)
      /\ ~ In (Log ERROR jpeg_message) (history r)).
Proof.
  intros Hpass Hras r first. subst r first.
  split; [apply rejected_iff|]. split.
  - intros Hc. apply casing_of_lower in Hc.
    assert (Hrej : rejected (fmt args) = true) by now apply rejected_iff.
    rewrite (run_passed _ _ Hpass). cbv zeta. rewrite Hras.
    rewrite (loop_summary_rejected _ _ 1 (page :: rest) Hrej).
    cbv beta iota zeta delta [status history final]. cbn [files dirs].
    split; [reflexivity|]. rewrite <- app_assoc.
    split; [reflexivity|]. split.
    + now rewrite !saved_paths_app, saved_paths_checks.
    + apply files_with_output_dir.
  - intros Hc. pose proof (casing_of_upper _ _ Hc) as Hup.
    apply casing_of_lower in Hc.
    assert (Hrej : rejected (fmt args) = false).
    { unfold rejected. now rewrite Hc. }
    change (upper "jpg") with "JPG" in Hup.
    destruct (run_shape args w) as (q & tail & Hh & Hq & Htail).
    split.
    + rewrite (run_passed _ _ Hpass). cbv zeta. rewrite Hras.
      simpl loop_summary. rewrite Hrej, Hup.
      destruct (save_outcome E page _ "JPG") as [x|bytes].
      * eexists. cbn [history]. rewrite <- app_assoc. reflexivity.
      * destruct (loop_summary E _ _ (1 + 1) rest) as [[evs ws] [[]|c|x]];
          eexists; cbn [history]; rewrite <- !app_assoc; reflexivity.
    + intros Hin.
      pose proof (loop_summary_events (output_dir args) (fmt args)
                    (page :: rest) 1) as Hev.
      rewrite (run_passed _ _ Hpass) in Hin. cbv zeta in Hin.
      rewrite Hras in Hin.
      pose proof (quiet_checks_and_prelude args w) as Hpre.
      rewrite List.Forall_forall in Hpre.
      destruct (loop_summary E _ _ 1 (page :: rest))
        as [[evs ws] [[]|c|x]]; cbn [history] in Hin.
      * destruct Hev as [Hev _]. rewrite List.Forall_forall in Hev.
        apply in_app_or in Hin as [H|H]; [now apply Hpre in H|].
        apply in_app_or in H as [H|[H|[]]];
          [now apply Hev in H|discriminate H].
      * destruct Hev as (_ & Hr & _). congruence.
      * destruct Hev as (_ & Hev & _). rewrite List.Forall_forall in Hev.
        apply in_app_or in Hin as [H|H]; [now apply Hpre in H|].
        apply in_app_or in H as [H|[H|[]]];
          [now apply Hev in H|discriminate H].
Qed.


(** **** C8 *)

Lemma checks_on_same_files (args : Namespace) (w w' : filesystem) :
  files w' = files w ->
  toolchain_found E (poppler_path args) w'
  = toolchain_found E (poppler_path args) w
  /\ source_ok E (pdf_file args) w' = source_ok E (pdf_file args) w.
Proof.
  intros H. unfold toolchain_found, source_ok, is_file. rewrite H.
  now split.
Qed.

Lemma destination_settled (out : string) (w' : filesystem) :
  out ∈ dirs w' ->
  destination_ok E out w' = writable E out
  /\ with_output_dir E out w' = w'.
Proof.
  intros Hin. unfold destination_ok, with_output_dir, is_dir.
  now rewrite (bool_decide_eq_true_2 _ Hin).
Qed.

Lemma not_made_parent (out : string) : out ∉ made_parents E out.
Proof.
  unfold made_parents. rewrite elem_of_list_to_set, list_elem_of_In.
  rewrite filter_In. intros [_ H]. now rewrite String.eqb_refl in H.
Qed.

Lemma destination_fails_again (out : string) (w : filesystem) :
  destination_ok E out w = false ->
  destination_ok E out (with_output_dir E out w) = false
  /\ with_output_dir E out (with_output_dir E out w)
     = with_output_dir E out w.
Proof.
  intros Hd. destruct (is_dir w out) eqn:Hdir.
  - unfold with_output_dir. rewrite Hdir. rewrite Hd, Hdir. now split.
  - destruct (creation_failure E out w) as [e|] eqn:Hc.
    + destruct (is_file w out) eqn:Hfile.
      * unfold with_output_dir. rewrite Hdir, Hc, Hfile.
        rewrite Hd, Hdir, Hc, Hfile. now split.
      * assert (Hw : with_output_dir E out w
                     = Filesystem (files w) (made_parents E out ∪ dirs w)).
        { unfold with_output_dir. now rewrite Hdir, Hc, Hfile. }
        rewrite Hw.
        assert (Hdir' : is_dir (Filesystem (files w)
                                  (made_parents E out ∪ dirs w)) out = false).
        { unfold is_dir in *. apply bool_decide_eq_false_2.
          apply bool_decide_eq_false_1 in Hdir. cbn [dirs].
          rewrite elem_of_union. intros [H|H]; [|contradiction].
          now apply not_made_parent in H. }
        unfold destination_ok, with_output_dir. rewrite Hdir'.
        unfold creation_failure, is_file in *. cbn [files dirs].
        rewrite Hfile in *. rewrite Hc. split; [reflexivity|].
        f_equal. now rewrite (assoc_L (∪)), (idemp_L (∪)).
    + assert (Hw : with_output_dir E out w
                   = Filesystem (files w)
                       ({[out]} ∪ (made_parents E out ∪ dirs w))).
      { unfold with_output_dir. now rewrite Hdir, Hc. }
      rewrite Hw.
      destruct (destination_settled out
                  (Filesystem (files w)
                     ({[out]} ∪ (made_parents E out ∪ dirs w))))
        as [H1 H2].
      { cbn [dirs]. apply elem_of_union. left. now apply elem_of_singleton. }
      rewrite H1, H2. split; [|reflexivity].
      unfold destination_ok in Hd. now rewrite Hdir, Hc in Hd.
Qed.

Lemma checks_pass_again (args : Namespace) (w w' : filesystem) :
  preconditions_pass E args w = true ->
  (forall k, is_Some (files w !! k) -> is_Some (files w' !! k)) ->
  dirs w' = dirs (with_output_dir E (output_dir args) w) ->
  preconditions_pass E args w' = true
  /\ with_output_dir E (output_dir args) w' = w'.
Proof.
  unfold preconditions_pass. rewrite !andb_true_iff.
  intros [[[Hi Ht] Hs] Hd] Hkeep Hdirs.
  destruct (destination_ok_dir _ _ Hd) as [Hin Hw].
  rewrite <- Hdirs in Hin.
  destruct (destination_settled (output_dir args) w' Hin) as [H1 H2].
  rewrite H1, H2, Hi, Hw. repeat split.
  - unfold toolchain_found, is_file in *.
    destruct (poppler_path args); [|exact Ht].
    apply bool_decide_eq_true_1 in Ht. apply bool_decide_eq_true_2. auto.
  - unfold source_ok, is_file in *.
    apply andb_true_iff in Hs as [Hf Hr]. rewrite Hr, andb_true_r.
    apply bool_decide_eq_true_1 in Hf. apply bool_decide_eq_true_2. auto.
Qed.

Lemma saved_paths_of_passed_run (args : Namespace) (w : filesystem) :
  preconditions_pass E args w = true ->
  saved_paths (history (run E args w))
  = match rasterize E (pdf_file args) (dpi args) (fmt args)
            (poppler_path args) with
    | inl _ => []
    | inr pages =>
        saved_paths
          (fst (fst (loop_summary E (output_dir args) (fmt args) 1 pages)))
    end.
Proof.
  intros Hpass. rewrite (run_passed _ _ Hpass). cbv zeta.
  destruct (rasterize E _ _ _ _) as [x|pages].
  - cbn [history]. now rewrite !saved_paths_app, saved_paths_checks.
  - destruct (loop_summary E _ _ 1 pages) as [[evs ws] [[]|c|x]];
      cbn [history fst];
      rewrite !saved_paths_app, saved_paths_checks; simpl;
      now rewrite ?app_nil_r.
Qed.

Lemma final_of_failed_run (args : Namespace) (w : filesystem) :
  preconditions_pass E args w = false ->
  final (run E args w) = w
  \/ (pdf2image_installed E = true
      /\ toolchain_found E (poppler_path args) w = true
      /\ source_ok E (pdf_file args) w = true
      /\ destination_ok E (output_dir args) w = false
      /\ final (run E args w) = with_output_dir E (output_dir args) w).
Proof.
  unfold preconditions_pass. rewrite run_eq. unfold run_summary.
  destruct (pdf2image_installed E); [|now left].
  destruct (toolchain_found E (poppler_path args) w); [|now left].
  destruct (source_ok E (pdf_file args) w); [|now left].
  destruct (destination_ok E (output_dir args) w); [discriminate|].
  intros _. right. now repeat split.
Qed.

(** C8.  Running the script a second time, with the same arguments and
    the same answers of its collaborators, on the filesystem that the
    first run left: the second run ends with the same status, saves the
    same paths in the same order, and leaves the filesystem exactly as
    it found it; every page file is written again with the same bytes
    and nothing is added. *)
Theorem second_run_changes_nothing (args : Namespace) (w : filesystem) :
  let first := run E args w in
  let second := run E args (final first) in
  final second = final first
  /\ status second = status first
  /\ saved_paths (history second) = saved_paths (history first).
Proof.
  intros first second. subst first second.
  destruct (preconditions_pass E args w) eqn:Hpass.
  - assert (Hagain : preconditions_pass E args (final (run E args w)) = true
                     /\ with_output_dir E (output_dir args)
                          (final (run E args w)) = final (run E args w)).
    { apply (checks_pass_again args w); [exact Hpass| |].
      - intros k Hk. rewrite (run_passed _ _ Hpass). cbv zeta.
        rewrite <- (files_with_output_dir (output_dir args) w) in Hk.
        destruct (rasterize E _ _ _ _) as [x|pages]; [exact Hk|].
        destruct (loop_summary E _ _ 1 pages) as [[evs ws] [[]|c|x]];
          cbn [final files]; now apply write_all_keeps.
      - now apply dirs_of_passed_run. }
    destruct Hagain as [Hpass2 Hsame].
    split; [|split].
    + rewrite (run_passed _ _ Hpass2). cbv zeta. rewrite Hsame.
      rewrite (run_passed _ _ Hpass). cbv zeta.
      destruct (rasterize E _ _ _ _) as [x|pages]; [reflexivity|].
      destruct (loop_summary E _ _ 1 pages) as [[evs ws] [[]|c|x]];
        cbn [final files dirs]; now rewrite write_all_idempotent.
    + rewrite (run_passed _ _ Hpass2), (run_passed _ _ Hpass). cbv zeta.
      destruct (rasterize E _ _ _ _) as [x|pages]; [reflexivity|].
      now destruct (loop_summary E _ _ 1 pages) as [[evs ws] [[]|c|x]].
    + now rewrite (saved_paths_of_passed_run _ _ Hpass2),
        (saved_paths_of_passed_run _ _ Hpass).
  - assert (Hfail : forall w0,
              preconditions_pass E args w0 = false ->
              status (run E args w0) = 1
              /\ saved_paths (history (run E args w0)) = []).
    { intros w0 H0.
      destruct (run_failed _ _ H0) as (Hst & _ & q & m & Hh & Hq).
      split; [exact Hst|]. rewrite Hh, saved_paths_app. simpl.
      rewrite app_nil_r. apply saved_paths_none.
      eapply Forall_impl; [exact Hq|]. now intros e (_ & _ & H). }
    assert (Hnext : preconditions_pass E args (final (run E args w)) = false
                    /\ final (run E args (final (run E args w)))
                       = final (run E args w)).
    { destruct (final_of_failed_run _ _ Hpass)
        as [Hw|(Hi & Ht & Hs & Hd & Hw)]; rewrite !Hw.
      - split; [exact Hpass|reflexivity].
      - destruct (checks_on_same_files args w
                    (with_output_dir E (output_dir args) w)
                    (files_with_output_dir _ _)) as [Ht' Hs'].
        destruct (destination_fails_again _ _ Hd) as [Hd' Hw'].
        split.
        + unfold preconditions_pass. rewrite Hd'. apply andb_false_r.
        + rewrite run_eq. unfold run_summary.
          rewrite Hi, Ht', Hs', Ht, Hs, Hd'. exact Hw'. }
    destruct Hnext as [Hpass2 Hfinal].
    destruct (Hfail _ Hpass) as [-> ->].
    destruct (Hfail _ Hpass2) as [-> ->]. now split.
Qed.


End Properties.

(** ** The sample machine at work *)

Example sample_page_files :
  page_files "out/" "png" 3
  = ["out/page_1.png"; "out/page_2.png"; "out/page_3.png"].
Proof. reflexivity. Qed.

(** C1, at the input where it fails.  With the format ["jpeg"] and a source
    that rasterizes to no page, on a machine where every check passes, the
    loop body is never entered: the rejection is not made, no [ERROR] line
    is logged and the process ends with status 0 after "Conversion
    complete.". *)
Theorem jpeg_with_no_pages_is_not_rejected :
  let r := run (Sample.env []) (Sample.args "jpeg") Sample.disk in
  status r = 0
  /\ history r
     = [Import_pdf2image; Which "pdftoppm"; Isfile "sample.pdf";
        Access "sample.pdf" R_OK; Isdir "out/"; Makedirs "out/";
        Access "out/" W_OK; Print "sample.pdf"; Print "out/"; Print "jpeg";
        Print "150"; Log INFO "Converting 'sample.pdf' to images...";
        Convert_from_path "sample.pdf" 150 "jpeg" None;
        Log INFO "Conversion complete."]
  /\ Forall (fun e => is_error_report e = false) (history r).
Proof.
  assert (H : history (run (Sample.env []) (Sample.args "jpeg") Sample.disk)
              = [Import_pdf2image; Which "pdftoppm"; Isfile "sample.pdf";
                 Access "sample.pdf" R_OK; Isdir "out/"; Makedirs "out/";
                 Access "out/" W_OK; Print "sample.pdf"; Print "out/";
                 Print "jpeg"; Print "150";
                 Log INFO "Converting 'sample.pdf' to images...";
                 Convert_from_path "sample.pdf" 150 "jpeg" None;
                 Log INFO "Conversion complete."])
    by (vm_compute; reflexivity).
  cbv zeta. rewrite H. split; [vm_compute; reflexivity|].
  split; [reflexivity|]. repeat constructor.
Qed.

Lemma accepted_format_writes_every_page_witness :
  rejected "png" = false
  /\ preconditions_pass (Sample.env Sample.three_pages) (Sample.args "png")
       Sample.disk = true
  /\ all_saved (Sample.env Sample.three_pages) "out/" "png" 1
       Sample.three_pages = true
  /\ status (run (Sample.env Sample.three_pages) (Sample.args "png")
               Sample.disk) = 0
  /\ saved_paths (history (run (Sample.env Sample.three_pages)
                             (Sample.args "png") Sample.disk))
     = page_files "out/" "png" 3.
Proof.
  assert (H1 : rejected "png" = false) by reflexivity.
  assert (H2 : preconditions_pass (Sample.env Sample.three_pages)
                 (Sample.args "png") Sample.disk = true)
    by (vm_compute; reflexivity).
  assert (H3 : all_saved (Sample.env Sample.three_pages) "out/" "png" 1
                 Sample.three_pages = true) by reflexivity.
  split; [exact H1|]. split; [exact H2|]. split; [exact H3|].
  destruct (accepted_format_writes_every_page
              (Sample.env Sample.three_pages) (Sample.args "png")
              Sample.disk Sample.three_pages H1 H2 eq_refl H3)
    as (Hs & Hp & _).
  split; [exact Hs|exact Hp].
Defined.

(** C2, at an input where it fails.  The format ["jpg"] is not rejected,
    the checks pass and the source has three pages, but the imaging
    library does not know the format ["JPG"]: the first [page.save]
    raises, the run ends with status 1 without "Conversion complete.",
    and no page file is written. *)
Lemma jpg_is_accepted_and_nothing_is_written :
  let r := run Sample.with_pillow (Sample.args "jpg") Sample.disk in
  rejected "jpg" = false
  /\ preconditions_pass Sample.with_pillow (Sample.args "jpg") Sample.disk
     = true
  /\ rasterize Sample.with_pillow "sample.pdf" 150 "jpg" None
     = inr Sample.three_pages
  /\ status r = 1
  /\ ~ In (Log INFO "Conversion complete.") (history r)
  /\ files (final r) = files Sample.disk
  /\ Forall (fun p => files (final r) !! p = None)
            (page_files "out/" "jpg" 3).
Proof.
  assert (H : history (run Sample.with_pillow (Sample.args "jpg")
                         Sample.disk)
              = [Import_pdf2image; Which "pdftoppm"; Isfile "sample.pdf";
                 Access "sample.pdf" R_OK; Isdir "out/"; Makedirs "out/";
                 Access "out/" W_OK; Print "sample.pdf"; Print "out/";
                 Print "jpg"; Print "150";
                 Log INFO "Converting 'sample.pdf' to images...";
                 Convert_from_path "sample.pdf" 150 "jpg" None;
                 Print "out/page_1.jpg"; Save [x01] "out/page_1.jpg" "JPG";
                 Traceback (Exn "KeyError" "'JPG'")])
    by (vm_compute; reflexivity).
  cbv zeta. rewrite H.
  split; [reflexivity|]. split; [vm_compute; reflexivity|].
  split; [reflexivity|]. split; [vm_compute; reflexivity|]. split.
  - intros Hin. repeat (destruct Hin as [Hin|Hin]; [discriminate Hin|]).
    exact Hin.
  - split; [vm_compute; reflexivity|].
    repeat constructor; vm_compute; reflexivity.
Qed.

(** C3, at an input where it fails.  The source is an existing file that
    the rasterizer cannot read as a PDF: [convert_from_path] raises, no
    [try] catches it, and the process ends with the interpreter's
    traceback and status 1.  The logger is never given the error: the
    only line logged is "Converting ...", at level [INFO]. *)
Lemma corrupt_pdf_is_not_logged :
  let r := process Sample.with_corrupt_pdf ["sample.pdf"; "out/"]
             Sample.disk in
  status r = 1
  /\ history r
     = [Import_pdf2image; Which "pdftoppm"; Isfile "sample.pdf";
        Access "sample.pdf" R_OK; Isdir "out/"; Makedirs "out/";
        Access "out/" W_OK; Print "sample.pdf"; Print "out/"; Print "png";
        Print "200"; Log INFO "Converting 'sample.pdf' to images...";
        Convert_from_path "sample.pdf" 200 "png" None;
        Traceback Sample.corrupt]
  /\ (forall m, ~ In (Log ERROR m) (history r)).
Proof.
  assert (H : history (process Sample.with_corrupt_pdf
                         ["sample.pdf"; "out/"] Sample.disk)
              = [Import_pdf2image; Which "pdftoppm"; Isfile "sample.pdf";
                 Access "sample.pdf" R_OK; Isdir "out/"; Makedirs "out/";
                 Access "out/" W_OK; Print "sample.pdf"; Print "out/";
                 Print "png"; Print "200";
                 Log INFO "Converting 'sample.pdf' to images...";
                 Convert_from_path "sample.pdf" 200 "png" None;
                 Traceback Sample.corrupt])
    by (vm_compute; reflexivity).
  cbv zeta. rewrite H. split; [vm_compute; reflexivity|].
  split; [reflexivity|]. intros m Hin.
  repeat (destruct Hin as [Hin|Hin]; [discriminate Hin|]). exact Hin.
Qed.

Lemma errors_end_the_process_witness :
  (status (process (Sample.env Sample.three_pages) ["sample.pdf"]
             Sample.disk) <> 0
   /\ history (process (Sample.env Sample.three_pages) ["sample.pdf"]
                 Sample.disk)
      = [Usage_message
           "error: the following arguments are required: pdf_file, output_dir"]
   /\ status (process (Sample.env Sample.three_pages) ["sample.pdf"]
                Sample.disk) = 2)
  /\ (parse_args Sample.with_corrupt_pdf parser ["sample.pdf"; "out/"]
      = Parsed (Sample.parsed "png")
      /\ preconditions_pass Sample.with_corrupt_pdf (Sample.parsed "png")
           Sample.disk = true
      /\ status (process Sample.with_corrupt_pdf ["sample.pdf"; "out/"]
                   Sample.disk) = 1
      /\ history (process Sample.with_corrupt_pdf ["sample.pdf"; "out/"]
                    Sample.disk)
         = (check_queries Sample.with_corrupt_pdf (Sample.parsed "png")
              Sample.disk
            ++ conversion_prelude (Sample.parsed "png")
            ++ [Traceback Sample.corrupt])%list)
  /\ (save_outcome Sample.with_pillow [x01] "out/page_1.jpg" "JPG"
      = inl (Exn "KeyError" "'JPG'")
      /\ status (process Sample.with_pillow
                   ["sample.pdf"; "out/"; "--fmt"; "jpg"] Sample.disk) = 1).
Proof.
  split; [|split].
  - assert (H : status (process (Sample.env Sample.three_pages)
                          ["sample.pdf"] Sample.disk) <> 0)
      by (vm_compute; discriminate).
    split; [exact H|].
    destruct (errors_end_the_process (Sample.env Sample.three_pages)
                ["sample.pdf"] Sample.disk) as (Hend & _).
    destruct (Hend H) as (pre & e & Hh & _ & [(m & _ & H1)|[(x & _ & H1)
                            |(t & He & H2 & Hpre)]]).
    + vm_compute in H1. discriminate H1.
    + vm_compute in H1. discriminate H1.
    + split; [|exact H2]. vm_compute. reflexivity.
  - assert (Hp : parse_args Sample.with_corrupt_pdf parser
                   ["sample.pdf"; "out/"] = Parsed (Sample.parsed "png"))
      by reflexivity.
    assert (H : preconditions_pass Sample.with_corrupt_pdf
                  (Sample.parsed "png") Sample.disk = true)
      by (vm_compute; reflexivity).
    split; [exact Hp|]. split; [exact H|].
    destruct (errors_end_the_process Sample.with_corrupt_pdf
                ["sample.pdf"; "out/"] Sample.disk) as (_ & _ & Hras & _).
    destruct (Hras (Sample.parsed "png") Sample.corrupt Hp H eq_refl)
      as (Hh & Hs & _).
    split; [exact Hs|exact Hh].
  - assert (Hp : parse_args Sample.with_pillow parser
                   ["sample.pdf"; "out/"; "--fmt"; "jpg"]
                 = Parsed (Sample.parsed "jpg")) by reflexivity.
    assert (H : preconditions_pass Sample.with_pillow (Sample.parsed "jpg")
                  Sample.disk = true) by (vm_compute; reflexivity).
    assert (Hx : save_outcome Sample.with_pillow [x01] "out/page_1.jpg" "JPG"
                 = inl (Exn "KeyError" "'JPG'")) by reflexivity.
    split; [exact Hx|].
    destruct (errors_end_the_process Sample.with_pillow
                ["sample.pdf"; "out/"; "--fmt"; "jpg"] Sample.disk)
      as (_ & _ & _ & Hsave & _).
    destruct (Hsave (Sample.parsed "jpg") [] [x01] [[x02]; [x03]]
                (Exn "KeyError" "'JPG'") Hp H eq_refl eq_refl eq_refl Hx)
      as [_ Hs].
    exact Hs.
Defined.

Lemma checks_run_in_order_witness :
  pdf2image_installed Sample.without_pdf2image = false
  /\ history (run Sample.without_pdf2image (Sample.args "png") Sample.disk)
     = [Import_pdf2image; Log ERROR dependency_message]
  /\ status (run Sample.without_pdf2image (Sample.args "png") Sample.disk)
     = 1.
Proof.
  split; [reflexivity|].
  destruct (checks_run_in_order Sample.without_pdf2image (Sample.args "png")
              Sample.disk) as (_ & H & _).
  exact (H eq_refl).
Defined.

Lemma jpeg_never_reaches_save_witness :
  In (Save [x01] "out/page_1.png" "PNG")
     (history (run (Sample.env Sample.three_pages) (Sample.args "png")
                 Sample.disk))
  /\ lower "png" <> "jpeg".
Proof.
  assert (H : In (Save [x01] "out/page_1.png" "PNG")
                (history (run (Sample.env Sample.three_pages)
                            (Sample.args "png") Sample.disk))).
  { vm_compute. do 14 right. left. reflexivity. }
  split; [exact H|].
  destruct (jpeg_never_reaches_save (Sample.env Sample.three_pages)
              (Sample.args "png") Sample.disk) as [Hsave _].
  exact (proj1 (Hsave _ _ _ H)).
Defined.

Lemma unreadable_source_fails_before_rasterization_witness :
  source_ok (Sample.env Sample.three_pages) "sample.pdf" Sample.empty_disk
  = false
  /\ status (run (Sample.env Sample.three_pages) (Sample.args "png")
               Sample.empty_disk) = 1
  /\ Forall (fun e => is_conversion e = false /\ is_save e = false)
            (history (run (Sample.env Sample.three_pages)
                        (Sample.args "png") Sample.empty_disk)).
Proof.
  assert (H : source_ok (Sample.env Sample.three_pages) "sample.pdf"
                Sample.empty_disk = false) by (vm_compute; reflexivity).
  split; [exact H|].
  destruct (unreadable_source_fails_before_rasterization
              (Sample.env Sample.three_pages) (Sample.args "png")
              Sample.empty_disk H) as (Hs & Hq & _).
  split; [exact Hs|exact Hq].
Defined.

Lemma output_directory_created_or_fatal_witness :
  (is_dir Sample.disk "out/" = false
   /\ creation_failure (Sample.env Sample.three_pages) "out/" Sample.disk
      = None
   /\ "out/" ∈ dirs (final (run (Sample.env Sample.three_pages)
                              (Sample.args "png") Sample.disk))
   /\ saved_paths (history (run (Sample.env Sample.three_pages)
                              (Sample.args "png") Sample.disk))
      = page_files "out/" "png" 3
   /\ exists post,
        history (run (Sample.env Sample.three_pages) (Sample.args "png")
                   Sample.disk)
        = ([Import_pdf2image; Which "pdftoppm"; Isfile "sample.pdf";
            Access "sample.pdf" R_OK; Isdir "out/"; Makedirs "out/";
            Access "out/" W_OK] ++ post)%list)
  /\ (destination_ok Sample.read_only "out/" Sample.disk = false
      /\ status (run Sample.read_only (Sample.args "png") Sample.disk) = 1
      /\ files (final (run Sample.read_only (Sample.args "png")
                         Sample.disk))
         = files Sample.disk
      /\ saved_paths
           (history (run Sample.read_only (Sample.args "png") Sample.disk))
         = []).
Proof.
  split.
  - assert (Hd : is_dir Sample.disk "out/" = false)
      by (vm_compute; reflexivity).
    assert (Hc : creation_failure (Sample.env Sample.three_pages) "out/"
                   Sample.disk = None) by (vm_compute; reflexivity).
    split; [exact Hd|]. split; [exact Hc|].
    destruct (output_directory_created_or_fatal
                (Sample.env Sample.three_pages) (Sample.args "png")
                Sample.disk) as (Hmk & _).
    destruct (Hmk eq_refl eq_refl ltac:(vm_compute; reflexivity) Hd Hc)
      as [Hin Hpost].
    split; [exact Hin|]. split; [vm_compute; reflexivity|exact Hpost].
  - assert (H : destination_ok Sample.read_only "out/" Sample.disk = false)
      by (vm_compute; reflexivity).
    split; [exact H|].
    destruct (output_directory_created_or_fatal Sample.read_only
                (Sample.args "png") Sample.disk) as (_ & _ & _ & Hd).
    destruct (Hd H) as (Hs & Hf & Hp & _).
    split; [exact Hs|]. split; [exact Hf|exact Hp].
Defined.

Lemma zero_pages_completes_witness :
  preconditions_pass (Sample.env []) (Sample.args "jpeg") Sample.disk = true
  /\ status (run (Sample.env []) (Sample.args "jpeg") Sample.disk) = 0
  /\ saved_paths
       (history (run (Sample.env []) (Sample.args "jpeg") Sample.disk)) = [].
Proof.
  assert (H : preconditions_pass (Sample.env []) (Sample.args "jpeg")
                Sample.disk = true) by (vm_compute; reflexivity).
  split; [exact H|].
  destruct (zero_pages_completes (Sample.env []) (Sample.args "jpeg")
              Sample.disk H eq_refl) as (Hs & _ & Hp & _).
  split; [exact Hs|exact Hp].
Defined.

Lemma rejection_is_lowercased_jpeg_witness :
  (preconditions_pass (Sample.env Sample.three_pages) (Sample.args "JpEg")
     Sample.disk = true
   /\ casing_of "jpeg" "JpEg" = true
   /\ status (run (Sample.env Sample.three_pages) (Sample.args "JpEg")
                Sample.disk) = 1)
  /\ (casing_of "jpg" "Jpg" = true
      /\ ~ In (Log ERROR jpeg_message)
             (history (run (Sample.env Sample.three_pages)
                         (Sample.args "Jpg") Sample.disk))).
Proof.
  split.
  - assert (H : preconditions_pass (Sample.env Sample.three_pages)
                  (Sample.args "JpEg") Sample.disk = true)
      by (vm_compute; reflexivity).
    split; [exact H|]. split; [reflexivity|].
    destruct (rejection_is_lowercased_jpeg (Sample.env Sample.three_pages)
                (Sample.args "JpEg") Sample.disk [x01] [[x02]; [x03]] H
                eq_refl) as (_ & Hj & _).
    exact (proj1 (Hj eq_refl)).
  - assert (H : preconditions_pass (Sample.env Sample.three_pages)
                  (Sample.args "Jpg") Sample.disk = true)
      by (vm_compute; reflexivity).
    split; [reflexivity|].
    destruct (rejection_is_lowercased_jpeg (Sample.env Sample.three_pages)
                (Sample.args "Jpg") Sample.disk [x01] [[x02]; [x03]] H
                eq_refl) as (_ & _ & Hj).
    exact (proj2 (Hj eq_refl)).
Defined.

Lemma second_run_changes_nothing_witness :
  final (run (Sample.env Sample.three_pages) (Sample.args "png")
           (final (run (Sample.env Sample.three_pages) (Sample.args "png")
                     Sample.disk)))
  = final (run (Sample.env Sample.three_pages) (Sample.args "png")
             Sample.disk).
Proof.
  exact (proj1 (second_run_changes_nothing (Sample.env Sample.three_pages)
                  (Sample.args "png") Sample.disk)).
Defined.

(** * Further properties of the script *)

(** ** Formats and page names *)

Lemma lower_char_cases (d : ascii) :
  d = lower_char d \/ d = upper_char (lower_char d).
Proof. destruct d as [[] [] [] [] [] [] [] []]; auto. Qed.

Lemma casing_of_own_lower (t : string) : casing_of (lower t) t = true.
Proof.
  induction t as [|d t IH]; [reflexivity|]. simpl. rewrite IH, andb_true_r.
  destruct (lower_char_cases d) as [H|H].
  - rewrite <- H. now rewrite Ascii.eqb_refl.
  - apply orb_true_iff. right. now apply Ascii.eqb_eq.
Qed.

(** X1.  The rejected formats are exactly the sixteen casings of ["jpeg"]:
    a format is rejected if and only if it has four characters, each the
    corresponding letter of ["jpeg"] in lower or upper case.  Nothing is
    trimmed or completed, so ["jpg"], [" jpeg"], ["jpeg "] and [".jpeg"]
    are accepted. *)
Theorem rejected_formats_are_the_casings_of_jpeg (f : string) :
  (rejected f = true <-> casing_of "jpeg" f = true)
  /\ rejected "jpg" = false /\ rejected " jpeg" = false
  /\ rejected "jpeg " = false /\ rejected ".jpeg" = false.
Proof.
  split; [|now repeat split]. unfold rejected. rewrite String.eqb_eq. split.
  - intros H. rewrite <- H. apply casing_of_own_lower.
  - intros H. now apply casing_of_lower in H.
Qed.

(** X2.  The destination of the page at index [i >= 1] is the output
    directory, a [/] unless the directory is empty or already ends with
    one, then [page_], the decimal digits of [i] with no leading zero, a
    dot and the format as given.  Distinct indices have distinct
    destinations. *)
Theorem page_name_shape (out fmt : string) (i : Z) :
  0 < i ->
  (exists c digits,
     page_name out fmt i
     = page_dir out ++ "page_" ++ String c digits ++ "." ++ fmt
     /\ String c digits = str_int i
     /\ c <> "0"%char)
  /\ (forall j, page_name out fmt j = page_name out fmt i -> j = i).
Proof.
  intros Hi. split; [|intros j; apply page_name_inj].
  destruct (str_int_no_padding i Hi) as (c & digits & Hs & Hc).
  exists c, digits. split; [|split; [now rewrite Hs|exact Hc]].
  unfold page_name, page_dir, os_path_join. rewrite Hs.
  rewrite !str_append_cons. cbn [String.prefix].
  destruct (ascii_dec "/" "p") as [H|_]; [discriminate H|].
  destruct (String.eqb out "" || endswith_sep out); [reflexivity|].
  now rewrite str_append_assoc.
Qed.

Lemma page_name_shape_witness :
  0 < 12
  /\ page_name "out" "png" 12 = "out/page_12.png"
  /\ (forall j, page_name "out" "png" j = page_name "out" "png" 12 -> j = 12).
Proof.
  split; [reflexivity|]. split; [reflexivity|].
  exact (proj2 (page_name_shape "out" "png" 12 eq_refl)).
Defined.


(** ** Runs *)

Section FurtherProperties.

Context {Image : Type} (E : environment Image).

Lemma write_all_app (ws1 ws2 : list (string * file_op))
    (f : gmap string (list byte)) :
  write_all (ws1 ++ ws2) f = write_all ws2 (write_all ws1 f).
Proof. unfold write_all. apply fold_left_app. Qed.

(** What the loop does, counted in calls of [page.save]: the calls are
    made on the destinations of the first pages, in order; nothing else
    is written; and the destination of every call that returned holds a
    file. *)
Lemma loop_summary_files (out fmt : string) (pages : list Image) :
  forall (idx : Z) (f : gmap string (list byte)),
    exists k : nat,
      saved_paths (fst (fst (loop_summary E out fmt idx pages)))
      = map (fun j => page_name out fmt (idx + Z.of_nat j)) (seq 0 k)
      /\ (k <= length pages)%nat
      /\ (k <> 0%nat -> rejected fmt = false)
      /\ incl (map fst (snd (fst (loop_summary E out fmt idx pages))))
              (saved_paths (fst (fst (loop_summary E out fmt idx pages))))
      /\ (forall j,
            (j < k)%nat ->
            (S j < k)%nat \/ snd (loop_summary E out fmt idx pages) = Ok tt ->
            is_Some (write_all
                       (snd (fst (loop_summary E out fmt idx pages))) f
                     !! page_name out fmt (idx + Z.of_nat j))).
Proof.
  induction pages as [|page rest IH]; intros idx f; simpl.
  - exists 0%nat. repeat split; try easy; intros; lia.
  - destruct (rejected fmt) eqn:Hrej.
    { exists 0%nat. simpl. repeat split; try easy; intros; lia. }
    destruct (save_outcome E page (page_name out fmt idx) (upper fmt))
      as [x|bytes] eqn:Hsave.
    { exists 1%nat. simpl. rewrite Z.add_0_r.
      split; [reflexivity|]. split; [lia|]. split; [reflexivity|]. split.
      - unfold failed_write.
        destruct (encode_page E page (upper fmt)); try apply incl_nil_l.
        destruct (open_error E (page_name out fmt idx));
          [apply incl_nil_l|apply incl_refl].
      - intros j Hj [H|H]; [lia|discriminate H]. }
    destruct (IH (idx + 1)
                (apply_op f (page_name out fmt idx, Put bytes)))
      as (k & Hp & Hk & _ & Hincl & Hsome).
    destruct (loop_summary E out fmt (idx + 1) rest) as [[evs ws] r].
    cbn [fst snd] in *. exists (S k). simpl.
    split; [|split; [lia|split; [reflexivity|split]]].
    + rewrite Z.add_0_r. f_equal. rewrite Hp, <- seq_shift, map_map.
      apply map_ext. intros j. f_equal. lia.
    + intros a [<-|Ha]; [now left|right; now apply Hincl].
    + intros [|j] Hj Hlast.
      * rewrite Z.add_0_r.
        change (is_Some (write_all ws
                           (apply_op f (page_name out fmt idx, Put bytes))
                         !! page_name out fmt idx)).
        apply write_all_keeps. rewrite lookup_apply_op, last_write_hit.
        eauto.
      * replace (idx + Z.of_nat (S j)) with (idx + 1 + Z.of_nat j) by lia.
        apply (Hsome j); [lia|]. destruct Hlast as [H|H]; [left; lia|now right].
Qed.

Lemma loop_summary_app (out fmt : string) (done more : list Image) :
  rejected fmt = false ->
  forall idx,
    all_saved E out fmt idx done = true ->
    loop_summary E out fmt idx (done ++ more)
    = let '(e1, w1, _) := loop_summary E out fmt idx done in
      let '(e2, w2, r) :=
        loop_summary E out fmt (idx + Z.of_nat (length done)) more in
      ((e1 ++ e2)%list, (w1 ++ w2)%list, r).
Proof.
  intros Hrej. induction done as [|d done IH]; intros idx Hall.
  - simpl. rewrite Z.add_0_r.
    now destruct (loop_summary E out fmt idx more) as [[e2 w2] r].
  - simpl in Hall. simpl loop_summary. rewrite Hrej.
    destruct (save_outcome E d (page_name out fmt idx) (upper fmt))
      as [x|bytes]; [discriminate Hall|].
    rewrite (IH (idx + 1) Hall).
    cbn [length].
    replace (idx + Z.of_nat (S (length done)))
      with (idx + 1 + Z.of_nat (length done)) by lia.
    destruct (loop_summary E out fmt (idx + 1) done) as [[e1 w1] r1].
    destruct (loop_summary E out fmt _ more) as [[e2 w2] r]. reflexivity.
Qed.

(** What a run leaves in its files: the writes of its loop on the files
    it found. *)
Lemma final_shape (args : Namespace) (w : filesystem) :
  (files (final (run E args w)) = files w
   /\ saved_paths (history (run E args w)) = []
   /\ status (run E args w) <> 0)
  \/ (preconditions_pass E args w = true
      /\ exists pages,
           rasterize E (pdf_file args) (dpi args) (fmt args)
             (poppler_path args) = inr pages
           /\ files (final (run E args w))
              = write_all (snd (fst (loop_summary E (output_dir args)
                                       (fmt args) 1 pages))) (files w)
           /\ saved_paths (history (run E args w))
              = saved_paths (fst (fst (loop_summary E (output_dir args)
                                         (fmt args) 1 pages)))
           /\ (status (run E args w) = 0 ->
               snd (loop_summary E (output_dir args) (fmt args) 1 pages)
               = Ok tt)).
Proof.
  destruct (preconditions_pass E args w) eqn:Hpass.
  - pose proof (saved_paths_of_passed_run E _ _ Hpass) as Hsp.
    rewrite (run_passed E _ _ Hpass) in *. cbv zeta in *.
    destruct (rasterize E _ _ _ _) as [x|pages] eqn:Hras.
    + left. cbn [final status]. rewrite files_with_output_dir.
      split; [reflexivity|]. split; [exact Hsp|discriminate].
    + right. split; [reflexivity|]. exists pages. split; [reflexivity|].
      pose proof (loop_summary_events E (output_dir args) (fmt args) pages 1)
        as Hev.
      destruct (loop_summary E _ _ 1 pages) as [[evs ws] [[]|c|x]];
        cbn [final files fst snd status] in *;
        rewrite files_with_output_dir;
        (split; [reflexivity|]); (split; [exact Hsp|]).
      * reflexivity.
      * destruct Hev as (-> & _). discriminate.
      * discriminate.
  - left. destruct (run_failed E _ _ Hpass) as (Hst & Hf & q & m & Hh & Hq).
    split; [exact Hf|]. split; [|rewrite Hst; discriminate].
    rewrite Hh, saved_paths_app. simpl. rewrite app_nil_r.
    apply saved_paths_none. eapply Forall_impl; [exact Hq|].
    now intros e (_ & _ & H).
Qed.

(** The directories a run leaves: those it found, with the parents that
    [os.makedirs] made and the output directory when it was created. *)
Lemma final_dirs (args : Namespace) (w : filesystem) :
  dirs (final (run E args w)) = dirs w
  \/ (is_dir w (output_dir args) = false
      /\ (dirs (final (run E args w))
          = made_parents E (output_dir args) ∪ dirs w
          \/ dirs (final (run E args w))
             = {[ output_dir args ]}
               ∪ (made_parents E (output_dir args) ∪ dirs w))).
Proof.
  assert (Hd : dirs (with_output_dir E (output_dir args) w) = dirs w
               \/ (is_dir w (output_dir args) = false
                   /\ (dirs (with_output_dir E (output_dir args) w)
                       = made_parents E (output_dir args) ∪ dirs w
                       \/ dirs (with_output_dir E (output_dir args) w)
                          = {[ output_dir args ]}
                            ∪ (made_parents E (output_dir args) ∪ dirs w)))).
  { unfold with_output_dir.
    destruct (is_dir w (output_dir args)); [now left|].
    destruct (creation_failure E (output_dir args) w).
    - destruct (is_file w (output_dir args)); [now left|right; auto].
    - right; auto. }
  destruct (preconditions_pass E args w) eqn:Hpass.
  - now rewrite (dirs_of_passed_run E _ _ Hpass).
  - destruct (final_of_failed_run E _ _ Hpass) as [->|(_ & _ & _ & _ & ->)];
      [now left|exact Hd].
Qed.

Lemma made_parents_listed (out d : string) :
  d ∈ made_parents E out -> In d (makedirs_parents E out).
Proof.
  unfold made_parents. rewrite elem_of_list_to_set, list_elem_of_In.
  rewrite filter_In. now intros [H _].
Qed.

(** X3.  A failure partway through the loop keeps what was written before
    it.  When the first pages [done] are saved and the save of the next
    page raises, the run ends with status 1 and the files of the pages of
    [done] hold their encodings: nothing is rolled back.  Nothing is
    written for the pages after the failing one, and no path but the
    destinations of [done] and of the failing page has changed.  The
    destination of the failing page is as the failed [page.save] left it:
    untouched when the call raised before or while opening the file; else
    holding what the encoder had written when it raised, also over a file
    that an earlier run had left there, unless the call had created the
    file and removes it again. *)
Theorem partial_output_is_kept (args : Namespace) (w : filesystem)
    (done : list Image) (page : Image) (rest : list Image) (x : exn) :
  preconditions_pass E args w = true ->
  rejected (fmt args) = false ->
  rasterize E (pdf_file args) (dpi args) (fmt args) (poppler_path args)
    = inr (done ++ page :: rest)%list ->
  all_saved E (output_dir args) (fmt args) 1 done = true ->
  save_outcome E page
    (page_name (output_dir args) (fmt args) (Z.of_nat (S (length done))))
    (upper (fmt args)) = inl x ->
  let r := run E args w in
  let out := output_dir args in
  let failing := page_name out (fmt args) (Z.of_nat (S (length done))) in
  status r = 1
  /\ (forall k pg,
        nth_error done k = Some pg ->
        exists bytes,
          save_outcome E pg (page_name out (fmt args) (Z.of_nat (S k)))
            (upper (fmt args)) = inr bytes
          /\ files (final r) !! page_name out (fmt args) (Z.of_nat (S k))
             = Some bytes)
  /\ (forall p,
        ~ In p (page_files out (fmt args) (S (length done))) ->
        files (final r) !! p = files w !! p)
  /\ files (final r) !! failing
     = match encode_page E page (upper (fmt args)),
             open_error E failing with
       | Failed _ partial removes_created, None =>
           if removes_created
           then match files w !! failing with
                | Some _ => Some partial
                | None => None
                end
           else Some partial
       | _, _ => files w !! failing
       end.
Proof.
  intros Hpass Hrej Hras Hall Hx r out failing. subst r out failing.
  replace (Z.of_nat (S (length done))) with (1 + Z.of_nat (length done))
    in * by lia.
  destruct (loop_summary_all_saved E (output_dir args) (fmt args) done
              Hrej 1 Hall) as (e1 & w1 & Hdone & Hpaths & Hkeys & Hw).
  rewrite page_files_from_one in Hpaths.
  set (failing := page_name (output_dir args) (fmt args)
                    (1 + Z.of_nat (length done))) in *.
  assert (Hloop : loop_summary E (output_dir args) (fmt args) 1
                    (done ++ page :: rest)
                  = ((e1 ++ [Print failing;
                             Save page failing (upper (fmt args))])%list,
                     (w1 ++ failed_write E page failing (upper (fmt args)))
                       %list,
                     Uncaught x)).
  { rewrite (loop_summary_app _ _ _ _ Hrej 1 Hall), Hdone.
    simpl loop_summary. rewrite Hrej. fold failing. now rewrite Hx. }
  assert (Hfresh : ~ In failing (page_files (output_dir args) (fmt args)
                                   (length done))).
  { unfold page_files. rewrite in_map_iff. intros (k & Hk & Hin).
    apply page_name_inj in Hk. apply in_seq in Hin. lia. }
  assert (Hall_names :
            page_files (output_dir args) (fmt args) (S (length done))
            = (page_files (output_dir args) (fmt args) (length done)
               ++ [failing])%list).
  { unfold page_files. rewrite seq_S, map_app. simpl. unfold failing.
    do 3 f_equal. lia. }
  rewrite (run_passed E _ _ Hpass). cbv zeta. rewrite Hras, Hloop.
  cbv beta iota zeta delta [status history final]. cbn [files dirs].
  rewrite files_with_output_dir, write_all_app.
  split; [reflexivity|]. split; [|split].
  - intros k pg Hk. destruct (Hw k pg Hk) as (bytes & Hb & Hin).
    exists bytes.
    replace (Z.of_nat (S k)) with (1 + Z.of_nat k) by lia.
    split; [exact Hb|].
    assert (Hne : page_name (output_dir args) (fmt args) (1 + Z.of_nat k)
                  <> failing).
    { intros Heq. apply page_name_inj in Heq.
      assert (Hlt : (k < length done)%nat)
        by (apply List.nth_error_Some; congruence).
      lia. }
    rewrite write_all_untouched.
    + apply write_all_written; [|exact Hin].
      rewrite Hkeys, Hpaths. apply page_files_NoDup.
    + unfold failed_write.
      destruct (encode_page E page (upper (fmt args))); try easy.
      destruct (open_error E failing); [easy|]. simpl. intros [H|[]].
      now apply Hne.
  - intros p Hp. rewrite Hall_names in Hp.
    rewrite write_all_untouched.
    + apply write_all_untouched. rewrite Hkeys, Hpaths. intros H.
      apply Hp. apply in_or_app. now left.
    + unfold failed_write.
      destruct (encode_page E page (upper (fmt args))); try easy.
      destruct (open_error E failing); [easy|]. simpl. intros [H|[]].
      apply Hp. apply in_or_app. right. now left.
  - assert (Hbefore : write_all w1 (files w) !! failing
                      = files w !! failing).
    { apply write_all_untouched. now rewrite Hkeys, Hpaths. }
    rewrite lookup_write_all, Hbefore. unfold failed_write.
    destruct (encode_page E page (upper (fmt args)))
      as [e|e partial [|]|bytes]; try reflexivity;
      destruct (open_error E failing); try reflexivity; simpl;
      unfold last_write; simpl;
      destruct (decide (failing = failing)) as [_|Hn];
      try contradiction; reflexivity.
Qed.

(** X4.  A run changes no file but the destinations of its [page.save]
    calls.  For every run, whatever its outcome, the calls of [page.save]
    are made on [page_1] ... [page_k] in this order, for a [k] that is at
    most the number of pages of the source and positive only when the
    checks passed and the format is accepted.  Every other path holds
    what it held before: the source file, files of other names and page
    files of higher index left by an earlier run included.  The
    destination of every call that returned holds a file at the end:
    all of them when the status is 0, all but the last otherwise. *)
Theorem only_page_files_change (args : Namespace) (w : filesystem) :
  let r := run E args w in
  let out := output_dir args in
  let k := length (saved_paths (history r)) in
  saved_paths (history r) = page_files out (fmt args) k
  /\ (forall p,
        ~ In p (page_files out (fmt args) k) ->
        files (final r) !! p = files w !! p)
  /\ (forall j,
        (j < k)%nat ->
        (S j < k)%nat \/ status r = 0 ->
        is_Some (files (final r)
                 !! page_name out (fmt args) (Z.of_nat (S j))))
  /\ (forall pages,
        rasterize E (pdf_file args) (dpi args) (fmt args)
          (poppler_path args) = inr pages ->
        (k <= length pages)%nat)
  /\ (k <> 0%nat ->
      preconditions_pass E args w = true /\ rejected (fmt args) = false).
Proof.
  intros r out k. subst r out k.
  destruct (final_shape args w)
    as [(Hf & Hs & Hst)|(Hpass & pages & Hras & Hf & Hs & Hst)].
  - rewrite Hs, Hf. simpl. repeat split; try easy; intros; lia.
  - destruct (loop_summary_files (output_dir args) (fmt args) pages 1
                (files w)) as (k & Hp & Hk & Hrej & Hincl & Hsome).
    rewrite page_files_from_one in Hp. rewrite Hs, Hf.
    assert (Hlen : length (saved_paths
                             (fst (fst (loop_summary E (output_dir args)
                                          (fmt args) 1 pages)))) = k).
    { rewrite Hp. unfold page_files. now rewrite length_map, length_seq. }
    rewrite Hlen. split; [exact Hp|]. split; [|split; [|split]].
    + intros p Hn. apply write_all_untouched. intros Hin.
      apply Hn. rewrite <- Hp. now apply Hincl.
    + intros j Hj Hlast.
      replace (Z.of_nat (S j)) with (1 + Z.of_nat j) by lia.
      apply Hsome; [exact Hj|]. destruct Hlast as [H|H]; [now left|].
      right. now apply Hst.
    + intros pages' Hras'. rewrite Hras in Hras'.
      now injection Hras' as <-.
    + intros Hk0. split; [exact Hpass|now apply Hrej].
Qed.

(** X5.  A run deletes nothing.  Every file that existed before a run
    exists after it, every directory too, and the only directories a run
    can add are the output directory and the missing parents that
    [os.makedirs] makes on the way to it; when the output directory
    existed, the directories are the same. *)
Theorem nothing_is_deleted (args : Namespace) (w : filesystem) :
  let r := run E args w in
  (forall p, is_Some (files w !! p) -> is_Some (files (final r) !! p))
  /\ (forall d, d ∈ dirs w -> d ∈ dirs (final r))
  /\ (forall d,
        d ∈ dirs (final r) ->
        d ∈ dirs w \/ d = output_dir args
        \/ In d (makedirs_parents E (output_dir args)))
  /\ (is_dir w (output_dir args) = true -> dirs (final r) = dirs w).
Proof.
  intros r. subst r. split; [|split; [|split]].
  - intros p Hp.
    destruct (final_shape args w)
      as [(Hf & _)|(_ & pages & _ & Hf & _)]; rewrite Hf;
      [exact Hp|now apply write_all_keeps].
  - intros d Hin.
    destruct (final_dirs args w) as [Heq|(_ & [Heq|Heq])]; rewrite Heq;
      [exact Hin| |]; rewrite !elem_of_union; auto.
  - intros d Hin.
    destruct (final_dirs args w) as [Heq|(_ & [Heq|Heq])]; rewrite Heq in Hin;
      [now left| |]; rewrite !elem_of_union in Hin.
    + destruct Hin as [H|H]; [|now left].
      right. right. now apply made_parents_listed.
    + destruct Hin as [H|[H|H]]; [| |now left].
      * right. left. now apply elem_of_singleton in H.
      * right. right. now apply made_parents_listed.
  - intros Hdir.
    destruct (final_dirs args w) as [Heq|(Hn & _)]; [exact Heq|congruence].
Qed.


(** X6.  A directory that [os.makedirs] created stays, whatever happens
    next.  When the first three checks pass and the absent output
    directory is created, it is a directory at the end of the run, and
    [os.makedirs] is in the history, also when the run then fails; in
    particular, when the new directory is not writable the run ends with
    status 1, has written no file, and has left the directory behind. *)
Theorem created_directory_is_left_behind (args : Namespace)
    (w : filesystem) :
  pdf2image_installed E = true ->
  toolchain_found E (poppler_path args) w = true ->
  source_ok E (pdf_file args) w = true ->
  is_dir w (output_dir args) = false ->
  creation_failure E (output_dir args) w = None ->
  let r := run E args w in
  output_dir args ∈ dirs (final r)
  /\ In (Makedirs (output_dir args)) (history r)
  /\ (writable E (output_dir args) = false ->
      status r = 1 /\ files (final r) = files w).
Proof.
  intros Hi Ht Hs Hdir Hc r. subst r.
  destruct (absent_directory_is_created E args w Hi Ht Hs Hdir Hc)
    as [Hin [post Hh]].
  split; [exact Hin|]. split.
  - rewrite Hh. apply in_or_app. left. do 5 right. now left.
  - intros Hw.
    assert (Hpass : preconditions_pass E args w = false).
    { unfold preconditions_pass, destination_ok.
      rewrite Hdir, Hc, Hw. apply andb_false_r. }
    destruct (run_failed E _ _ Hpass) as (Hst & Hf & _). now split.
Qed.

Lemma run_starts_with_import (args : Namespace) (w : filesystem) :
  exists rest, history (run E args w) = Import_pdf2image :: rest.
Proof.
  rewrite run_eq. unfold run_summary, check_queries.
  destruct (pdf2image_installed E); cbn [negb]; [|now eexists].
  destruct (toolchain_found E _ w); cbn [negb]; [|now eexists].
  destruct (source_ok E _ w); cbn [negb]; [|now eexists].
  destruct (destination_ok E _ w); cbn [negb]; [|now eexists].
  cbv zeta. destruct (rasterize E _ _ _ _) as [x|pages]; [now eexists|].
  destruct (loop_summary E _ _ 1 pages) as [[evs ws] [[]|c|x]];
    now eexists.
Qed.

Lemma run_status (args : Namespace) (w : filesystem) :
  (status (run E args w) = 0
   /\ exists pre,
        history (run E args w)
        = (pre ++ [Log INFO "Conversion complete."])%list)
  \/ (status (run E args w) = 1
      /\ exists pre e,
           history (run E args w) = (pre ++ [e])%list
           /\ is_error_report e = true).
Proof.
  destruct (run_shape E args w) as (q & tail & Hh & Hq & Htail).
  destruct Htail as [[-> H0]|(e0 & -> & He0 & H1)].
  - left. split; [exact H0|].
    destruct (preconditions_pass E args w) eqn:Hpass.
    + revert H0. rewrite (run_passed E _ _ Hpass). cbv zeta.
      destruct (rasterize E _ _ _ _) as [x|pages]; [discriminate|].
      pose proof (loop_summary_events E (output_dir args) (fmt args) pages 1)
        as Hev.
      destruct (loop_summary E _ _ 1 pages) as [[evs ws] [[]|c|x]];
        cbn [status history].
      * intros _. eexists. rewrite app_assoc. reflexivity.
      * destruct Hev as (-> & _). discriminate.
      * discriminate.
    + destruct (run_failed E _ _ Hpass) as (H1 & _). congruence.
  - right. split; [exact H1|]. now exists q, e0.
Qed.

(** X7.  The exit status of the process is 0, 1 or 2, and it tells how
    the process ended.  It is 0 exactly when the last line is
    "Conversion complete." or when [argparse] printed the help and
    nothing else happened; it is 2 exactly when [argparse] refused the
    command line, and then the usage message is the whole history and the
    filesystem is untouched; it is 1 in every other case, and then the
    last event is the report of an error.  A command line that parses
    starts the checks with the library import. *)
Theorem exit_status_tells_how_the_process_ended (argv : list string)
    (w : filesystem) :
  let r := process E argv w in
  (status r = 0 \/ status r = 1 \/ status r = 2)
  /\ (status r = 0 <->
      (exists pre,
         history r = (pre ++ [Log INFO "Conversion complete."])%list)
      \/ (exists t,
            parse_args E parser argv = Help_requested t
            /\ history r = [Help_message t] /\ final r = w))
  /\ (status r = 2 <->
      exists t,
        parse_args E parser argv = Rejected_command_line t
        /\ history r = [Usage_message t] /\ final r = w)
  /\ (status r = 1 ->
      exists pre e,
        history r = (pre ++ [e])%list /\ is_error_report e = true)
  /\ (forall args,
        parse_args E parser argv = Parsed args ->
        r = run E args w
        /\ exists rest, history r = Import_pdf2image :: rest).
Proof.
  intros r. subst r. rewrite process_eq.
  destruct (parse_args E parser argv) as [args|t|t] eqn:Hparse.
  - pose proof (run_status args w) as Hst.
    destruct (run_starts_with_import args w) as [rest Hrest].
    split; [|split; [|split; [|split]]].
    + destruct Hst as [[H _]|[H _]]; auto.
    + split.
      * intros H0. left.
        destruct Hst as [[_ H]|[H _]]; [exact H|congruence].
      * intros [[pre Hpre]|(t & Ht & _)]; [|discriminate Ht].
        destruct Hst as [[H _]|(_ & pre' & e & Hh & He)]; [exact H|].
        rewrite Hh in Hpre. apply app_inj_tail in Hpre as [_ ->].
        discriminate He.
    + split.
      * intros H2. destruct Hst as [[H _]|[H _]]; congruence.
      * intros (t & Ht & _). discriminate Ht.
    + intros H1. destruct Hst as [[H _]|[_ H]]; [congruence|exact H].
    + intros args' [= <-]. split; [reflexivity|]. now exists rest.
  - cbn [status history final].
    split; [now left|]. split; [|split; [|split]].
    + split; [|reflexivity]. intros _. right. now exists t.
    + split; [discriminate|]. intros (t' & Ht & _). discriminate Ht.
    + discriminate.
    + intros args Ha. discriminate Ha.
  - cbn [status history final].
    split; [now right; right|]. split; [|split; [|split]].
    + split; [discriminate|].
      intros [[pre Hpre]|(t' & Ht & _)]; [|discriminate Ht].
      destruct pre as [|a pre]; [discriminate Hpre|].
      injection Hpre as _ Hpre. now destruct pre.
    + split; [|reflexivity]. intros _. now exists t.
    + discriminate.
    + intros args Ha. discriminate Ha.
Qed.

Lemma filter_none {A : Type} (f : A -> bool) (l : list A) :
  Forall (fun a => f a = false) l -> List.filter f l = [].
Proof.
  induction 1 as [|a l Ha _ IH]; [reflexivity|]. simpl. now rewrite Ha.
Qed.

Lemma filter_all {A : Type} (f : A -> bool) (l : list A) :
  Forall (fun a => f a = true) l -> List.filter f l = l.
Proof.
  induction 1 as [|a l Ha _ IH]; [reflexivity|]. simpl.
  now rewrite Ha, IH.
Qed.

(** X8.  The rasterizer is called at most once in a run, and exactly once
    when the four checks pass, with the source path, the resolution, the
    format and the toolchain path as they were given, also for a format
    that the loop rejects afterwards. *)
Theorem rasterizer_is_called_once_iff_checks_pass (args : Namespace)
    (w : filesystem) :
  List.filter is_conversion (history (run E args w))
  = if preconditions_pass E args w
    then [Convert_from_path (pdf_file args) (dpi args) (fmt args)
            (poppler_path args)]
    else [].
Proof.
  assert (Hcq : List.filter is_conversion (check_queries E args w) = []).
  { apply filter_none. eapply Forall_impl; [apply check_queries_quiet|].
    now intros e (_ & H & _). }
  destruct (preconditions_pass E args w) eqn:Hpass.
  - rewrite (run_passed E _ _ Hpass). cbv zeta.
    destruct (rasterize E _ _ _ _) as [x|pages].
    + cbn [history]. rewrite !List.filter_app, Hcq. reflexivity.
    + pose proof (loop_summary_no_conversion E (output_dir args) (fmt args)
                    pages 1) as Hev.
      apply filter_none in Hev.
      destruct (loop_summary E _ _ 1 pages) as [[evs ws] [[]|c|x]];
        cbn [history fst] in *; rewrite !List.filter_app, Hcq, Hev;
        reflexivity.
  - destruct (run_failed E _ _ Hpass) as (_ & _ & q & m & -> & Hq).
    rewrite List.filter_app.
    rewrite (filter_none is_conversion q)
      by (eapply Forall_impl; [exact Hq|]; now intros e (_ & H & _)).
    reflexivity.
Qed.

Lemma loop_summary_page_events (out fmt : string) (pages : list Image) :
  rejected fmt = false ->
  forall idx,
    all_saved E out fmt idx pages = true ->
    fst (fst (loop_summary E out fmt idx pages)) = page_events out fmt idx pages
    /\ snd (loop_summary E out fmt idx pages) = Ok tt.
Proof.
  intros Hrej. induction pages as [|page rest IH]; intros idx Hall.
  - now split.
  - simpl in Hall. simpl. rewrite Hrej.
    destruct (save_outcome E page (page_name out fmt idx) (upper fmt));
      [discriminate Hall|].
    destruct (IH (idx + 1) Hall) as [He Hr].
    destruct (loop_summary E out fmt (idx + 1) rest) as [[evs ws] r].
    simpl in *. now rewrite He, Hr.
Qed.

(** X9.  The pages are processed one at a time, in document order.  In a
    run whose checks pass, whose format is accepted and whose pages are
    all saved, the history is exactly: the checks; the four printed
    arguments, the "Converting" line and the rasterization call; then for
    each page in turn its destination printed, its save, and the "Saved
    page" line; then "Conversion complete.". *)
Theorem history_of_a_complete_run (args : Namespace) (w : filesystem)
    (pages : list Image) :
  rejected (fmt args) = false ->
  preconditions_pass E args w = true ->
  rasterize E (pdf_file args) (dpi args) (fmt args) (poppler_path args)
    = inr pages ->
  all_saved E (output_dir args) (fmt args) 1 pages = true ->
  history (run E args w)
  = (check_queries E args w ++ conversion_prelude args
     ++ page_events (output_dir args) (fmt args) 1 pages
     ++ [Log INFO "Conversion complete."])%list.
Proof.
  intros Hrej Hpass Hras Hall.
  destruct (loop_summary_page_events (output_dir args) (fmt args) pages
              Hrej 1 Hall) as [He Hr].
  rewrite (run_passed E _ _ Hpass). cbv zeta. rewrite Hras.
  destruct (loop_summary E _ _ 1 pages) as [[evs ws] r].
  cbn [fst snd] in He, Hr. subst evs r. cbn [history].
  now rewrite <- app_assoc.
Qed.

(** X10.  An output path that is taken by a regular file is fatal, whether
    or not the file is writable: the path is not a directory, so
    [os.makedirs] is called and fails, the run logs that it failed to
    create the output directory and ends with status 1, without asking
    for the write permission, and the filesystem is as it was. *)
Theorem file_at_output_path_is_fatal (args : Namespace) (w : filesystem) :
  pdf2image_installed E = true ->
  toolchain_found E (poppler_path args) w = true ->
  source_ok E (pdf_file args) w = true ->
  is_dir w (output_dir args) = false ->
  is_file w (output_dir args) = true ->
  let r := run E args w in
  let out := output_dir args in
  status r = 1
  /\ final r = w
  /\ history r
     = [Import_pdf2image; toolchain_query (poppler_path args);
        Isfile (pdf_file args); Access (pdf_file args) R_OK;
        Isdir out; Makedirs out;
        Log ERROR ("Failed to create output directory '" ++ out ++ "': "
                   ++ "[Errno 17] File exists: '" ++ out ++ "'")].
Proof.
  intros Hi Ht Hs Hdir Hfile r out. subst r out.
  rewrite run_eq. unfold run_summary.
  assert (Hc : creation_failure E (output_dir args) w
               = Some ("[Errno 17] File exists: '" ++ output_dir args ++ "'")).
  { unfold creation_failure. now rewrite Hfile. }
  assert (Hok : destination_ok E (output_dir args) w = false).
  { unfold destination_ok. now rewrite Hdir, Hc. }
  rewrite Hi, Ht, Hs, Hok. cbn [negb]. cbv iota.
  unfold with_output_dir, check_queries, destination_queries,
    destination_message.
  rewrite Hdir, Hc, Hfile. now repeat split.
Qed.


Lemma loop_summary_no_makedirs (out fmt : string) (pages : list Image) :
  forall idx,
    Forall (fun e => negb (is_makedirs e) = true)
           (fst (fst (loop_summary E out fmt idx pages))).
Proof.
  induction pages as [|page rest IH]; intros idx; simpl; [constructor|].
  destruct (rejected fmt); [repeat constructor|].
  destruct (save_outcome E page _ (upper fmt)); [repeat constructor|].
  specialize (IH (idx + 1)).
  destruct (loop_summary E out fmt (idx + 1) rest) as [[evs ws] r].
  simpl in *. now repeat constructor.
Qed.

Lemma passed_run_passes_again (args : Namespace) (w : filesystem) :
  preconditions_pass E args w = true ->
  preconditions_pass E args (final (run E args w)) = true
  /\ is_dir (final (run E args w)) (output_dir args) = true.
Proof.
  intros Hpass.
  assert (Hd : dirs (final (run E args w))
               = dirs (with_output_dir E (output_dir args) w))
    by now apply dirs_of_passed_run.
  split.
  - apply (checks_pass_again E args w); [exact Hpass| |exact Hd].
    intros k Hk.
    destruct (final_shape args w)
      as [(Hf & _)|(_ & pages & _ & Hf & _)]; rewrite Hf;
      [exact Hk|now apply write_all_keeps].
  - unfold is_dir. apply bool_decide_eq_true_2. rewrite Hd.
    apply destination_ok_dir. unfold preconditions_pass in Hpass.
    now apply andb_true_iff in Hpass as [_ H].
Qed.

(** X11.  Running the script again after a run that succeeded makes the
    same calls, prints and log lines in the same order, except that the
    output directory is not created a second time: the history of the
    second run is the history of the first without its [os.makedirs]
    call, and it ends with status 0 too. *)
Theorem rerun_repeats_all_but_makedirs (args : Namespace) (w : filesystem) :
  status (run E args w) = 0 ->
  let first := run E args w in
  let second := run E args (final first) in
  history second
  = List.filter (fun e => negb (is_makedirs e)) (history first)
  /\ status second = 0.
Proof.
  intros H0 first second. subst first second.
  destruct (preconditions_pass E args w) eqn:Hpass.
  2:{ destruct (run_failed E _ _ Hpass) as (H1 & _). congruence. }
  destruct (passed_run_passes_again args w Hpass) as [Hpass2 Hdir2].
  rewrite (run_passed E _ _ Hpass2). cbv zeta.
  assert (Hcq : check_queries E args (final (run E args w))
                = List.filter (fun e => negb (is_makedirs e))
                    (check_queries E args w)).
  { unfold check_queries, destination_queries. rewrite Hdir2.
    rewrite List.filter_app. f_equal.
    - destruct (poppler_path args); reflexivity.
    - unfold preconditions_pass in Hpass.
      apply andb_true_iff in Hpass as [_ Hd]. unfold destination_ok in Hd.
      destruct (is_dir w (output_dir args)); [reflexivity|].
      destruct (creation_failure E (output_dir args) w);
        [discriminate Hd|reflexivity]. }
  rewrite Hcq. revert H0. rewrite (run_passed E _ _ Hpass). cbv zeta.
  destruct (rasterize E _ _ _ _) as [x|pages]; [discriminate|].
  pose proof (loop_summary_no_makedirs (output_dir args) (fmt args) pages 1)
    as Hev.
  apply filter_all in Hev.
  pose proof (loop_summary_events E (output_dir args) (fmt args) pages 1)
    as Hsh.
  destruct (loop_summary E _ _ 1 pages) as [[evs ws] [[]|c|x]];
    cbn [status history fst] in *.
  - intros _. split; [|reflexivity].
    rewrite !List.filter_app, Hev. reflexivity.
  - destruct Hsh as (-> & _). discriminate.
  - discriminate.
Qed.

(** *** The logger's threshold *)

Lemma logging_log_filters (lv : level) (msg : string) (s : state Image) :
  logging_log lv msg s
  = (push s (List.filter (visible (root_level s)) [Log lv msg]), Ok tt).
Proof.
  unfold logging_log, emit, push. simpl.
  destruct (root_level s <=? level_no lv); [reflexivity|].
  rewrite app_nil_r. now destruct s.
Qed.

Lemma save_pages_filters (out fmt : string) (pages : list Image) :
  forall (idx : Z) (s : state Image),
    save_pages E out fmt idx pages s =
    let '(evs, ws, r) := loop_summary E out fmt idx pages in
    (State (Filesystem (write_all ws (files (fs s))) (dirs (fs s)))
           (root_level s)
           (trace s ++ List.filter (visible (root_level s)) evs)%list, r).
Proof.
  induction pages as [|page rest IH]; intros idx [[f d] lv tr].
  - simpl. unfold ret. now rewrite app_nil_r.
  - simpl. unfold page_name.
    unfold bind at 1 2. unfold print, emit; simpl.
    fold (rejected fmt). destruct (rejected fmt); simpl.
    + unfold bind. unfold logging_error. rewrite logging_log_filters.
      unfold sys_exit, push; simpl.
      destruct (lv <=? 40); simpl; now rewrite <- ?app_assoc.
    + unfold bind at 1. rewrite page_save_eq.
      destruct (save_outcome E page _ (upper fmt)) as [e|bytes]; simpl.
      * unfold push; simpl. now rewrite <- app_assoc.
      * unfold bind. unfold logging_info. rewrite logging_log_filters.
        unfold push; simpl. rewrite IH. simpl.
        destruct (loop_summary E out fmt (idx + 1) rest) as [[evs ws] r].
        simpl. unfold saved_message, page_name.
        destruct (lv <=? 20); simpl; now rewrite <- !app_assoc.
Qed.

Lemma filter_visible_INFO (l : list (event Image)) :
  List.filter (visible (level_no INFO)) l = l.
Proof.
  apply filter_all. apply List.Forall_forall. intros e _.
  destruct e; try reflexivity. now destruct lv.
Qed.

Lemma convert_pdf_to_images_filters (pdf out : string) (d : Z)
    (f : string) (pp : option string) (s : state Image) :
  convert_pdf_to_images E pdf out d f pp s
  = let head := [Log INFO ("Converting '" ++ pdf ++ "' to images...");
                 Convert_from_path pdf d f pp] in
    if pdf2image_installed E then
      match rasterize E pdf d f pp with
      | inl x =>
          (push s (List.filter (visible (root_level s)) head), Uncaught x)
      | inr pages =>
          let '(evs, ws, r) := loop_summary E out f 1 pages in
          (State (Filesystem (write_all ws (files (fs s))) (dirs (fs s)))
                 (root_level s)
                 (trace s
                  ++ List.filter (visible (root_level s))
                       (head ++ evs
                        ++ match r with
                           | Ok _ => [Log INFO "Conversion complete."]
                           | _ => []
                           end))%list, r)
      end
    else (s, Uncaught (Exn "ModuleNotFoundError"
                         "No module named 'pdf2image'")).
Proof.
  destruct s as [[fl dr] lv tr].
  unfold convert_pdf_to_images, convert_from_path,
    from_pdf2image_import_convert_from_path.
  unfold bind at 1.
  destruct (pdf2image_installed E); [|reflexivity]. unfold ret at 1.
  unfold bind at 1. unfold logging_info at 1. rewrite logging_log_filters.
  unfold bind at 1 2. unfold emit, push. simpl.
  destruct (rasterize E pdf d f pp) as [x|pages]; simpl.
  - unfold raise. destruct (lv <=? 20); simpl;
      now rewrite <- ?app_assoc.
  - unfold ret, bind. rewrite save_pages_filters. simpl.
    destruct (loop_summary E out f 1 pages) as [[evs ws] r]. simpl.
    destruct r as [[]|c|x].
    + unfold logging_info. rewrite logging_log_filters.
      unfold push. simpl. rewrite !List.filter_app. simpl.
      destruct (lv <=? 20); simpl; now rewrite <- !app_assoc.
    + destruct (lv <=? 20); simpl; rewrite ?app_nil_r;
        now rewrite <- !app_assoc.
    + destruct (lv <=? 20); simpl; rewrite ?app_nil_r;
        now rewrite <- !app_assoc.
Qed.

(** X12.  The threshold of the root logger decides which log lines
    appear, and nothing else.  [convert_pdf_to_images], called in any
    state, whatever the threshold and also where [setup_logging] has not
    run, ends the same way and leaves the same filesystem as it does
    under the threshold [INFO]; the events it adds are those of the
    [INFO] call without the log lines below the threshold.  An [ERROR]
    line appears exactly when the threshold is at most 40 and an [INFO]
    line exactly when it is at most 20: under the default [WARNING] the
    "Saved page" and "Conversion complete." lines are not shown and the
    rejection is, above [ERROR] no line is shown at all, and at or below
    [INFO] every event appears.  Where the library [pdf2image] is
    missing, the import that opens the function raises and nothing is
    added. *)
Theorem logger_threshold_only_filters (pdf out : string) (d : Z)
    (f : string) (pp : option string) (s : state Image) :
  let at_info :=
    convert_pdf_to_images E pdf out d f pp
      (State (fs s) (level_no INFO) []) in
  let here := convert_pdf_to_images E pdf out d f pp s in
  snd here = snd at_info
  /\ fs (fst here) = fs (fst at_info)
  /\ root_level (fst here) = root_level s
  /\ trace (fst here)
     = (trace s
        ++ List.filter (visible (root_level s)) (trace (fst at_info)))%list
  /\ (forall m,
        visible (root_level s) (Log ERROR m : event Image)
        = (root_level s <=? 40)
        /\ visible (root_level s) (Log INFO m : event Image)
           = (root_level s <=? 20))
  /\ (root_level s <= 20 ->
      trace (fst here) = (trace s ++ trace (fst at_info))%list)
  /\ (40 < root_level s ->
      exists added,
        trace (fst here) = (trace s ++ added)%list
        /\ forall lv m, ~ In (Log lv m) added)
  /\ (pdf2image_installed E = false ->
      here = (s, Uncaught (Exn "ModuleNotFoundError"
                             "No module named 'pdf2image'"))).
Proof.
  intros at_info here.
  assert (Htrace : trace (fst here)
                   = (trace s
                      ++ List.filter (visible (root_level s))
                           (trace (fst at_info)))%list).
  { subst at_info here. rewrite !convert_pdf_to_images_filters. cbv zeta.
    cbn [fs root_level trace].
    destruct (pdf2image_installed E);
      [|cbn [fst trace]; simpl; now rewrite app_nil_r].
    destruct (rasterize E pdf d f pp) as [x|pages].
    + unfold push. cbn [fst trace fs root_level app].
      now rewrite filter_visible_INFO.
    + destruct (loop_summary E out f 1 pages) as [[evs ws] r].
      cbn [fst trace app]. now rewrite filter_visible_INFO. }
  split; [|split; [|split; [|split; [|split; [|split; [|split]]]]]].
  - subst at_info here. rewrite !convert_pdf_to_images_filters. cbv zeta.
    destruct (pdf2image_installed E); [|reflexivity].
    destruct (rasterize E pdf d f pp) as [x|pages]; [reflexivity|].
    now destruct (loop_summary E out f 1 pages) as [[evs ws] r].
  - subst at_info here. rewrite !convert_pdf_to_images_filters. cbv zeta.
    destruct (pdf2image_installed E); [|reflexivity].
    destruct (rasterize E pdf d f pp) as [x|pages]; [reflexivity|].
    now destruct (loop_summary E out f 1 pages) as [[evs ws] r].
  - subst at_info here. rewrite !convert_pdf_to_images_filters. cbv zeta.
    destruct (pdf2image_installed E); [|reflexivity].
    destruct (rasterize E pdf d f pp) as [x|pages]; [reflexivity|].
    now destruct (loop_summary E out f 1 pages) as [[evs ws] r].
  - exact Htrace.
  - intros m. split; reflexivity.
  - intros Hle. rewrite Htrace. f_equal. apply filter_all.
    apply List.Forall_forall. intros e _. destruct e; try reflexivity.
    simpl. apply Z.leb_le. destruct lv; simpl; lia.
  - intros Hgt. eexists. split; [exact Htrace|]. intros lv m Hin.
    apply filter_In in Hin as [_ Hv]. simpl in Hv. apply Z.leb_le in Hv.
    destruct lv; simpl in Hv; lia.
  - intros Hno. subst here. rewrite convert_pdf_to_images_filters.
    cbv zeta. now rewrite Hno.
Qed.


End FurtherProperties.


(** ** The sample machine, further *)

Lemma rejected_formats_are_the_casings_of_jpeg_witness :
  casing_of "jpeg" "JPEG" = true /\ rejected "JPEG" = true.
Proof.
  split; [reflexivity|].
  exact (proj2 (proj1 (rejected_formats_are_the_casings_of_jpeg "JPEG"))
           eq_refl).
Defined.

Lemma partial_output_is_kept_witness :
  preconditions_pass Sample.with_fragile_encoder (Sample.args "png")
    Sample.disk_after_earlier_run = true
  /\ all_saved Sample.with_fragile_encoder "out/" "png" 1 [[x01]] = true
  /\ save_outcome Sample.with_fragile_encoder [x02] "out/page_2.png" "PNG"
     = inl (Exn "OSError" "cannot write mode P as PNG")
  /\ status (run Sample.with_fragile_encoder (Sample.args "png")
               Sample.disk_after_earlier_run) = 1
  /\ files Sample.disk_after_earlier_run !! "out/page_2.png"
     = Some Sample.stale
  /\ files (final (run Sample.with_fragile_encoder (Sample.args "png")
                     Sample.disk_after_earlier_run)) !! "out/page_2.png"
     = Some [x89]
  /\ files (final (run Sample.with_fragile_encoder (Sample.args "png")
                     Sample.disk_after_earlier_run)) !! "out/page_9.png"
     = Some Sample.stale
  /\ files (final (run Sample.with_fragile_encoder (Sample.args "png")
                     Sample.disk_after_earlier_run)) !! "out/page_3.png"
     = None.
Proof.
  assert (H1 : preconditions_pass Sample.with_fragile_encoder
                 (Sample.args "png") Sample.disk_after_earlier_run = true)
    by (vm_compute; reflexivity).
  assert (H2 : all_saved Sample.with_fragile_encoder "out/" "png" 1 [[x01]]
               = true) by reflexivity.
  assert (H3 : save_outcome Sample.with_fragile_encoder [x02]
                 "out/page_2.png" "PNG"
               = inl (Exn "OSError" "cannot write mode P as PNG"))
    by reflexivity.
  split; [exact H1|]. split; [exact H2|]. split; [exact H3|].
  destruct (partial_output_is_kept Sample.with_fragile_encoder
              (Sample.args "png") Sample.disk_after_earlier_run
              [[x01]] [x02] [[x03]]
              (Exn "OSError" "cannot write mode P as PNG")
              H1 eq_refl eq_refl H2 H3) as (Hs & _ & Hrest & Hfail).
  split; [exact Hs|]. split; [vm_compute; reflexivity|].
  split; [|split].
  - etransitivity; [exact Hfail|]. vm_compute. reflexivity.
  - etransitivity; [apply Hrest|vm_compute; reflexivity].
    intros [H|[H|[]]]; discriminate H.
  - etransitivity; [apply Hrest|vm_compute; reflexivity].
    intros [H|[H|[]]]; discriminate H.
Defined.

Lemma only_page_files_change_witness :
  saved_paths (history (run Sample.with_fragile_encoder (Sample.args "png")
                          Sample.disk_after_earlier_run))
  = ["out/page_1.png"; "out/page_2.png"]
  /\ is_Some (files (final (run Sample.with_fragile_encoder
                              (Sample.args "png")
                              Sample.disk_after_earlier_run))
              !! "out/page_1.png")
  /\ files (final (run Sample.with_fragile_encoder (Sample.args "png")
                     Sample.disk_after_earlier_run)) !! "sample.pdf"
     = Some Sample.pdf_bytes.
Proof.
  assert (Hk : length (saved_paths
                         (history (run Sample.with_fragile_encoder
                                     (Sample.args "png")
                                     Sample.disk_after_earlier_run)))
               = 2%nat) by (vm_compute; reflexivity).
  destruct (only_page_files_change Sample.with_fragile_encoder
              (Sample.args "png") Sample.disk_after_earlier_run)
    as (Hp & Hframe & Hsome & _).
  rewrite Hk in Hp, Hframe, Hsome.
  split; [exact Hp|]. split.
  - apply (Hsome 0%nat); [lia|left; lia].
  - etransitivity; [apply Hframe|vm_compute; reflexivity].
    intros [H|[H|[]]]; discriminate H.
Defined.

Lemma nothing_is_deleted_witness :
  (is_Some (files Sample.disk !! "sample.pdf")
   /\ is_Some (files (final (run (Sample.env Sample.three_pages)
                               (Sample.args "png") Sample.disk))
               !! "sample.pdf"))
  /\ ("a" ∈ dirs (final (run Sample.with_nested_output Sample.nested_args
                          Sample.disk))
      /\ ("a" ∈ dirs Sample.disk \/ "a" = "a/b"
          \/ In "a" (makedirs_parents Sample.with_nested_output "a/b"))).
Proof.
  split.
  - assert (H : is_Some (files Sample.disk !! "sample.pdf"))
      by (vm_compute; eauto).
    split; [exact H|].
    exact (proj1 (nothing_is_deleted (Sample.env Sample.three_pages)
                    (Sample.args "png") Sample.disk) _ H).
  - assert (H : "a" ∈ dirs (final (run Sample.with_nested_output
                                     Sample.nested_args Sample.disk))).
    { assert (Hd : is_dir (final (run Sample.with_nested_output
                                    Sample.nested_args Sample.disk)) "a"
                   = true) by (vm_compute; reflexivity).
      unfold is_dir in Hd. now apply bool_decide_eq_true_1 in Hd. }
    split; [exact H|].
    destruct (nothing_is_deleted Sample.with_nested_output
                Sample.nested_args Sample.disk) as (_ & _ & Hd & _).
    exact (Hd "a" H).
Defined.

Lemma created_directory_is_left_behind_witness :
  toolchain_found Sample.read_only None Sample.disk = true
  /\ source_ok Sample.read_only "sample.pdf" Sample.disk = true
  /\ is_dir Sample.disk "out/" = false
  /\ creation_failure Sample.read_only "out/" Sample.disk = None
  /\ "out/" ∈ dirs (final (run Sample.read_only (Sample.args "png")
                             Sample.disk))
  /\ status (run Sample.read_only (Sample.args "png") Sample.disk) = 1.
Proof.
  assert (H1 : toolchain_found Sample.read_only None Sample.disk = true)
    by reflexivity.
  assert (H2 : source_ok Sample.read_only "sample.pdf" Sample.disk = true)
    by (vm_compute; reflexivity).
  assert (H3 : is_dir Sample.disk "out/" = false)
    by (vm_compute; reflexivity).
  assert (H4 : creation_failure Sample.read_only "out/" Sample.disk = None)
    by (vm_compute; reflexivity).
  split; [exact H1|]. split; [exact H2|]. split; [exact H3|].
  split; [exact H4|].
  destruct (created_directory_is_left_behind Sample.read_only
              (Sample.args "png") Sample.disk eq_refl H1 H2 H3 H4)
    as (Hd & _ & Hw).
  split; [exact Hd|exact (proj1 (Hw eq_refl))].
Defined.

Lemma exit_status_tells_how_the_process_ended_witness :
  (status (process (Sample.env Sample.three_pages) ["sample.pdf"; "out/"]
             Sample.disk) = 0
   /\ exists pre,
        history (process (Sample.env Sample.three_pages)
                   ["sample.pdf"; "out/"] Sample.disk)
        = (pre ++ [Log INFO "Conversion complete."])%list)
  /\ (parse_args (Sample.env Sample.three_pages) parser ["-h"]
      = Help_requested (parser_description parser)
      /\ status (process (Sample.env Sample.three_pages) ["-h"] Sample.disk)
         = 0)
  /\ (parse_args (Sample.env Sample.three_pages) parser
        ["sample.pdf"; "out/"; "--colour"]
      = Rejected_command_line
          "error: the following arguments are required: pdf_file, output_dir"
      /\ status (process (Sample.env Sample.three_pages)
                   ["sample.pdf"; "out/"; "--colour"] Sample.disk) = 2).
Proof.
  split; [|split].
  - assert (H : status (process (Sample.env Sample.three_pages)
                          ["sample.pdf"; "out/"] Sample.disk) = 0)
      by (vm_compute; reflexivity).
    split; [exact H|].
    destruct (exit_status_tells_how_the_process_ended
                (Sample.env Sample.three_pages) ["sample.pdf"; "out/"]
                Sample.disk) as (_ & H0 & _).
    destruct (proj1 H0 H) as [Hpre|(t & Ht & _)]; [exact Hpre|].
    discriminate Ht.
  - split; [reflexivity|].
    destruct (exit_status_tells_how_the_process_ended
                (Sample.env Sample.three_pages) ["-h"] Sample.disk)
      as (_ & H0 & _).
    apply (proj2 H0). right. exists (parser_description parser).
    split; [reflexivity|]. split; vm_compute; reflexivity.
  - split; [reflexivity|].
    destruct (exit_status_tells_how_the_process_ended
                (Sample.env Sample.three_pages)
                ["sample.pdf"; "out/"; "--colour"] Sample.disk)
      as (_ & _ & H2 & _).
    apply (proj2 H2). eexists. split; [reflexivity|].
    split; vm_compute; reflexivity.
Defined.

Lemma rasterizer_is_called_once_iff_checks_pass_witness :
  preconditions_pass (Sample.env Sample.three_pages) (Sample.args "jpeg")
    Sample.disk = true
  /\ List.filter is_conversion
       (history (run (Sample.env Sample.three_pages) (Sample.args "jpeg")
                   Sample.disk))
     = [Convert_from_path "sample.pdf" 150 "jpeg" None].
Proof.
  assert (H : preconditions_pass (Sample.env Sample.three_pages)
                (Sample.args "jpeg") Sample.disk = true)
    by (vm_compute; reflexivity).
  split; [exact H|].
  rewrite (rasterizer_is_called_once_iff_checks_pass
             (Sample.env Sample.three_pages) (Sample.args "jpeg")
             Sample.disk), H.
  reflexivity.
Defined.

Lemma history_of_a_complete_run_witness :
  preconditions_pass (Sample.env Sample.three_pages) (Sample.args "png")
    Sample.disk = true
  /\ all_saved (Sample.env Sample.three_pages) "out/" "png" 1
       Sample.three_pages = true
  /\ history (run (Sample.env Sample.three_pages) (Sample.args "png")
                Sample.disk)
     = (check_queries (Sample.env Sample.three_pages) (Sample.args "png")
          Sample.disk
        ++ conversion_prelude (Sample.args "png")
        ++ page_events "out/" "png" 1 Sample.three_pages
        ++ [Log INFO "Conversion complete."])%list.
Proof.
  assert (H1 : preconditions_pass (Sample.env Sample.three_pages)
                 (Sample.args "png") Sample.disk = true)
    by (vm_compute; reflexivity).
  assert (H2 : all_saved (Sample.env Sample.three_pages) "out/" "png" 1
                 Sample.three_pages = true) by reflexivity.
  split; [exact H1|]. split; [exact H2|].
  exact (history_of_a_complete_run (Sample.env Sample.three_pages)
           (Sample.args "png") Sample.disk Sample.three_pages
           eq_refl H1 eq_refl H2).
Defined.

Lemma file_at_output_path_is_fatal_witness :
  source_ok (Sample.env Sample.three_pages) "sample.pdf"
    Sample.disk_with_file_at_out = true
  /\ is_dir Sample.disk_with_file_at_out "out/" = false
  /\ is_file Sample.disk_with_file_at_out "out/" = true
  /\ writable (Sample.env Sample.three_pages) "out/" = true
  /\ status (run (Sample.env Sample.three_pages) (Sample.args "png")
               Sample.disk_with_file_at_out) = 1
  /\ final (run (Sample.env Sample.three_pages) (Sample.args "png")
              Sample.disk_with_file_at_out)
     = Sample.disk_with_file_at_out.
Proof.
  assert (H1 : source_ok (Sample.env Sample.three_pages) "sample.pdf"
                 Sample.disk_with_file_at_out = true)
    by (vm_compute; reflexivity).
  assert (H2 : is_dir Sample.disk_with_file_at_out "out/" = false)
    by (vm_compute; reflexivity).
  assert (H3 : is_file Sample.disk_with_file_at_out "out/" = true)
    by (vm_compute; reflexivity).
  split; [exact H1|]. split; [exact H2|]. split; [exact H3|].
  split; [reflexivity|].
  destruct (file_at_output_path_is_fatal (Sample.env Sample.three_pages)
              (Sample.args "png") Sample.disk_with_file_at_out
              eq_refl eq_refl H1 H2 H3) as (Hs & Hf & _).
  split; [exact Hs|exact Hf].
Defined.

Lemma rerun_repeats_all_but_makedirs_witness :
  status (run (Sample.env Sample.three_pages) (Sample.args "png")
            Sample.disk) = 0
  /\ In (Makedirs "out/")
        (history (run (Sample.env Sample.three_pages) (Sample.args "png")
                    Sample.disk))
  /\ history (run (Sample.env Sample.three_pages) (Sample.args "png")
                (final (run (Sample.env Sample.three_pages)
                          (Sample.args "png") Sample.disk)))
     = List.filter (fun e => negb (is_makedirs e))
         (history (run (Sample.env Sample.three_pages) (Sample.args "png")
                     Sample.disk)).
Proof.
  assert (H : status (run (Sample.env Sample.three_pages)
                        (Sample.args "png") Sample.disk) = 0)
    by (vm_compute; reflexivity).
  split; [exact H|]. split.
  - vm_compute. do 5 right. left. reflexivity.
  - exact (proj1 (rerun_repeats_all_but_makedirs
                    (Sample.env Sample.three_pages) (Sample.args "png")
                    Sample.disk H)).
Defined.

Lemma logger_threshold_only_filters_witness :
  (root_level (fresh Sample.disk : state (list byte)) = level_no WARNING
   /\ visible (root_level (fresh Sample.disk : state (list byte)))
        (Log INFO "Conversion complete." : event (list byte)) = false
   /\ fs (fst (convert_pdf_to_images (Sample.env Sample.three_pages)
                 "sample.pdf" "out/" 150 "png" None (fresh Sample.disk)))
      = fs (fst (convert_pdf_to_images (Sample.env Sample.three_pages)
                   "sample.pdf" "out/" 150 "png" None
                   (State Sample.disk (level_no INFO) []))))
  /\ (40 < 50
      /\ snd (convert_pdf_to_images (Sample.env Sample.three_pages)
                "sample.pdf" "out/" 150 "jpeg" None
                (State Sample.disk 50 [])) = SysExit 1
      /\ forall m,
           ~ In (Log ERROR m)
               (trace (fst (convert_pdf_to_images
                              (Sample.env Sample.three_pages)
                              "sample.pdf" "out/" 150 "jpeg" None
                              (State Sample.disk 50 [])))))
  /\ (pdf2image_installed Sample.without_pdf2image = false
      /\ convert_pdf_to_images Sample.without_pdf2image
           "sample.pdf" "out/" 150 "png" None (fresh Sample.disk)
         = (fresh Sample.disk,
            Uncaught (Exn "ModuleNotFoundError"
                        "No module named 'pdf2image'"))).
Proof.
  split; [|split].
  - split; [reflexivity|].
    destruct (logger_threshold_only_filters (Sample.env Sample.three_pages)
                "sample.pdf" "out/" 150 "png" None (fresh Sample.disk))
      as (_ & Hfs & _ & _ & Hvis & _).
    split; [|exact Hfs].
    etransitivity; [exact (proj2 (Hvis _))|reflexivity].
  - split; [reflexivity|]. split; [vm_compute; reflexivity|].
    destruct (logger_threshold_only_filters (Sample.env Sample.three_pages)
                "sample.pdf" "out/" 150 "jpeg" None
                (State Sample.disk 50 []))
      as (_ & _ & _ & _ & _ & _ & Hquiet & _).
    destruct (Hquiet eq_refl) as (added & Hadd & Hno).
    intros m Hin. rewrite Hadd in Hin. exact (Hno ERROR m Hin).
  - split; [reflexivity|].
    destruct (logger_threshold_only_filters Sample.without_pdf2image
                "sample.pdf" "out/" 150 "png" None (fresh Sample.disk))
      as (_ & _ & _ & _ & _ & _ & _ & Hmissing).
    exact (Hmissing eq_refl).
Defined.
